(** * Gmail MCP server: MIME envelope codec, send-email webhook, tool handlers

    A shallow embedding of the TypeScript sources
      - the MCP route (helpers [decodeBase64Url], [encodeBase64Url],
        [getHeader], [buildRawEmail], [parseMessage] and the tool handlers),
      - [app/api/send-email/route.ts] (the webhook),
    followed by the properties the specification states about them.

    Conventions of the embedding.
      - A JavaScript string is represented by the byte string of its UTF-8
        encoding (a Rocq [string]); [Buffer.from(s)] yields exactly those
        bytes and [buf.toString('utf-8')] reads them back.  A string with
        an unpaired surrogate has no such representation and is not
        modelled; a byte string that is not well-formed UTF-8
        ([well_formed]) stands for no JavaScript string, and on such bytes
        Node's [toString] substitutes U+FFFD, which is not modelled
        either.
      - An optional property ([x?: T]) is an [option]; JavaScript truthiness
        is written out ([truthy], [truthy_opt], [nonempty_arr]).
      - [Date.now()] is an input: every reading of the clock is a parameter
        (pure code) or an event (handlers).
      - A handler is a tree of provider interactions ([Tool]); a rejected
        call aborts the handler, as an awaited rejection does, and so does
        a [throw] of the handler.
      - What the provider does with a raw message is not code of this
        repository: where a property is about the message sent, the
        decoded output is read as the message-format standard has it
        (lines, header block, multipart delimiters). *)

From Stdlib Require Import List String Ascii Bool Arith NArith ZArith Lia DecimalString.
Import ListNotations.
Local Open Scope string_scope.
Local Open Scope list_scope.

Infix "+++" := String.append (right associativity, at level 60).

(* ====================================================================== *)
(** * Part I. The program                                                  *)
(* ====================================================================== *)

(** ** JavaScript strings and arrays *)

Module Js.

Definition CR : ascii := "013"%char.
Definition LF : ascii := "010"%char.
Definition CRLF : string := String CR (String LF "").

(** The double-quote character, and a text between double quotes. *)
Definition DQ : ascii := "034"%char.
Definition quoted (s : string) : string := String DQ (s +++ String DQ "").

(** [if (s)] for a string. *)
Definition truthy (s : string) : bool := negb (s =? "")%string.

(** [if (o)] for an optional string. *)
Definition truthy_opt (o : option string) : bool :=
  match o with Some s => truthy s | None => false end.

(** [if (o)] for an optional boolean. *)
Definition truthy_flag (o : option bool) : bool :=
  match o with Some b => b | None => false end.

(** [if (o?.length)] for an optional array. *)
Definition nonempty_arr {A} (o : option (list A)) : bool :=
  match o with Some (_ :: _) => true | _ => false end.

(** [o || []]. *)
Definition arr_or_empty {A} (o : option (list A)) : list A :=
  match o with Some l => l | None => [] end.

(** [o || d] for an optional string. *)
Definition str_or (o : option string) (d : string) : string :=
  match o with Some s => if truthy s then s else d | None => d end.

(** [`${o}`]: an absent value prints as [undefined]. *)
Definition str_of (o : option string) : string :=
  match o with Some s => s | None => "undefined" end.

(** [`${n}`] for an integral number. *)
Definition Number_toString (z : Z) : string :=
  NilEmpty.string_of_int (Z.to_int z).

(** [arr.join(sep)]. *)
Definition join (sep : string) (l : list string) : string :=
  String.concat sep l.

(** What follows [p] in [s], when [s] starts with [p]. *)
Fixpoint strip_prefix (p s : string) : option string :=
  match p with
  | "" => Some s
  | String a p' =>
      match s with
      | "" => None
      | String b s' => if Ascii.eqb a b then strip_prefix p' s' else None
      end
  end.

(** [s.startsWith(p)]. *)
Definition startsWith (s p : string) : bool :=
  match strip_prefix p s with Some _ => true | None => false end.

(** [s.includes(t)]. *)
Fixpoint includes (s t : string) : bool :=
  startsWith s t || match s with String _ r => includes r t | "" => false end.

(** [s.replace(/a/g, b)] for single characters. *)
Fixpoint replace_char (a b : ascii) (s : string) : string :=
  match s with
  | "" => ""
  | String c r => String (if Ascii.eqb c a then b else c) (replace_char a b r)
  end.

(** [s.replace(/a+$/, '')]: drops the trailing run of [a]. *)
Fixpoint strip_trailing (a : ascii) (s : string) : string :=
  match s with
  | "" => ""
  | String c r =>
      match strip_trailing a r with
      | "" => if Ascii.eqb c a then "" else String c ""
      | r' => String c r'
      end
  end.

(** [toLowerCase] on the letters A to Z, which is JavaScript's
    [toLowerCase] on every ASCII text.  A non-ASCII character is a
    sequence of bytes above 127 here and is left alone, where JavaScript
    follows Unicode; its JavaScript lower case is never an ASCII letter
    other than [k] (the Kelvin sign), which none of the header names that
    the handlers look up contains, so that their lookups are exact.  The
    properties of the lookup for arbitrary names are stated for ASCII
    names. *)
Definition lower_ascii (c : ascii) : ascii :=
  let n := nat_of_ascii c in
  if (65 <=? n)%nat && (n <=? 90)%nat then ascii_of_nat (n + 32) else c.

Fixpoint toLowerCase (s : string) : string :=
  match s with
  | "" => ""
  | String c r => String (lower_ascii c) (toLowerCase r)
  end.

(** [lines.push(l)]. *)
Definition push {A} (lines : list A) (l : A) : list A := lines ++ [l].

(** [arr.slice(0, n)]. *)
Definition slice0 {A} (n : nat) (l : list A) : list A := firstn n l.

End Js.
Import Js.

(** ** Node's [Buffer]: base64 *)

Module Buffer.

Definition alphabet : string :=
  "ABCDEFGHIJKLMNOPQRSTUVWXYZabcdefghijklmnopqrstuvwxyz0123456789+/".

(** The character of a six-bit value. *)
Definition base64_char (n : N) : ascii :=
  match String.get (N.to_nat n) alphabet with
  | Some c => c
  | None => "="%char
  end.

(** The decoder's table: both the standard and the URL-safe alphabet. *)
Definition unbase64 (c : ascii) : option N :=
  let n := N_of_ascii c in
  (if (65 <=? n) && (n <=? 90) then Some (n - 65)
   else if (97 <=? n) && (n <=? 122) then Some (n - 71)
   else if (48 <=? n) && (n <=? 57) then Some (n + 4)
   else if (n =? 43) || (n =? 45) then Some 62
   else if (n =? 47) || (n =? 95) then Some 63
   else None)%N.

(** Three bytes make four six-bit values; a tail of one byte makes two,
    a tail of two makes three. *)
Fixpoint sextets_of_bytes (s : string) : list N :=
  match s with
  | "" => []
  | String a "" =>
      let a := N_of_ascii a in
      [a / 4; (a mod 4) * 16]%N
  | String a (String b "") =>
      let a := N_of_ascii a in
      let b := N_of_ascii b in
      [a / 4; (a mod 4) * 16 + b / 16; (b mod 16) * 4]%N
  | String a (String b (String c r)) =>
      let a := N_of_ascii a in
      let b := N_of_ascii b in
      let c := N_of_ascii c in
      (a / 4 :: (a mod 4) * 16 + b / 16 :: (b mod 16) * 4 + c / 64 :: c mod 64
         :: sextets_of_bytes r)%N
  end.

Definition padding (len : nat) : string :=
  match len mod 3 with
  | 1 => "=="
  | 2 => "="
  | _ => ""
  end.

(** [buf.toString('base64')]. *)
Definition toString_base64 (buf : string) : string :=
  string_of_list_ascii (map base64_char (sextets_of_bytes buf))
    +++ padding (String.length buf).

(** The decoder reads legal characters, skips the others and stops at
    the first [=]. *)
Fixpoint sextets_of_text (s : string) : list N :=
  match s with
  | "" => []
  | String c r =>
      if Ascii.eqb c "=" then []
      else match unbase64 c with
           | Some n => n :: sextets_of_text r
           | None => sextets_of_text r
           end
  end.

Fixpoint bytes_of_sextets (l : list N) : string :=
  match l with
  | s1 :: s2 :: s3 :: s4 :: r =>
      String (ascii_of_N (s1 * 4 + s2 / 16)%N)
        (String (ascii_of_N ((s2 mod 16) * 16 + s3 / 4)%N)
           (String (ascii_of_N ((s3 mod 4) * 64 + s4)%N) (bytes_of_sextets r)))
  | [s1; s2; s3] =>
      String (ascii_of_N (s1 * 4 + s2 / 16)%N)
        (String (ascii_of_N ((s2 mod 16) * 16 + s3 / 4)%N) "")
  | [s1; s2] => String (ascii_of_N (s1 * 4 + s2 / 16)%N) ""
  | _ => ""
  end.

(** [Buffer.from(s, 'base64')] for a text of characters up to U+00FF, as
    every base64 text is: a character that is no base64 character is
    skipped.  (Of a character above U+00FF Node reads the low byte of
    its code unit; such texts are not modelled.) *)
Definition from_base64 (s : string) : string :=
  bytes_of_sextets (sextets_of_text s).

(** [Buffer.from(s)] and [buf.toString('utf-8')]: a string is held as
    its UTF-8 bytes, so that both are the identity; for [toString] this
    is Node's behaviour on well-formed UTF-8. *)
Definition from (s : string) : string := s.
Definition toString_utf8 (buf : string) : string := buf.

(** Standard alphabet to URL-safe alphabet and back, one character. *)
Definition to_url (c : ascii) : ascii :=
  let c := if Ascii.eqb c "+" then "-"%char else c in
  if Ascii.eqb c "/" then "_"%char else c.

Definition of_url (c : ascii) : ascii :=
  let c := if Ascii.eqb c "-" then "+"%char else c in
  if Ascii.eqb c "_" then "/"%char else c.

End Buffer.

(** ** Helpers of the MCP route *)

Definition decodeBase64Url (data : string) : string :=
  let base64 := replace_char "_" "/" (replace_char "-" "+" data) in
  Buffer.toString_utf8 (Buffer.from_base64 base64).

Definition encodeBase64Url (data : string) : string :=
  strip_trailing "="
    (replace_char "/" "_"
       (replace_char "+" "-" (Buffer.toString_base64 (Buffer.from data)))).

Record Header := mkHeader {
  h_name : option string;
  h_value : option string
}.

Definition getHeader (headers : list Header) (name : string) : string :=
  let header :=
    find (fun h => match h_name h with
                   | Some n => (toLowerCase n =? toLowerCase name)%string
                   | None => false
                   end) headers in
  match header with
  | Some h => str_or (h_value h) ""
  | None => ""
  end.

(** ** The encoder: [buildRawEmail] *)

Record Attachment := mkAttachment {
  att_filename : string;
  att_mimeType : string;
  att_content : string  (* base64 encoded *)
}.

(** The [options] object of [buildRawEmail]. *)
Record EmailOptions := mkEmailOptions {
  opt_to : string;
  opt_subject : string;
  opt_body : string;
  opt_htmlBody : option string;
  opt_cc : option (list string);
  opt_bcc : option (list string);
  opt_from : option string;
  opt_threadId : option string;
  opt_inReplyTo : option string;
  opt_references : option string;
  opt_attachments : option (list Attachment)
}.

Definition boundary_of (now : Z) : string := "boundary_" +++ Number_toString now.
Definition altBoundary_of (now : Z) : string := "alt_boundary_" +++ Number_toString now.

Definition base64_of (s : string) : string :=
  Buffer.toString_base64 (Buffer.from s).

(** The body of the attachment loop: the six lines pushed for one
    attachment. *)
Definition push_attachment (boundary : string) (lines : list string)
    (att : Attachment) : list string :=
  let lines := push lines ("--" +++ boundary) in
  let lines := push lines ("Content-Type: " +++ att_mimeType att +++ "; name=" +++ quoted (att_filename att)) in
  let lines := push lines "Content-Transfer-Encoding: base64" in
  let lines := push lines ("Content-Disposition: attachment; filename=" +++ quoted (att_filename att)) in
  let lines := push lines "" in
  push lines (att_content att).

(** The [lines] array of [buildRawEmail] just before it is joined;
    [now1] and [now2] are the two readings of the clock. *)
Definition email_lines (now1 now2 : Z) (options : EmailOptions) : list string :=
  let boundary := boundary_of now1 in
  let altBoundary := altBoundary_of now2 in
  let lines : list string := [] in
  let lines := push lines ("To: " +++ opt_to options) in
  let lines := if truthy_opt (opt_from options)
               then push lines ("From: " +++ str_of (opt_from options)) else lines in
  let lines := if nonempty_arr (opt_cc options)
               then push lines ("Cc: " +++ join ", " (arr_or_empty (opt_cc options))) else lines in
  let lines := if nonempty_arr (opt_bcc options)
               then push lines ("Bcc: " +++ join ", " (arr_or_empty (opt_bcc options))) else lines in
  let lines := push lines ("Subject: =?UTF-8?B?" +++ base64_of (opt_subject options) +++ "?=") in
  let lines := if truthy_opt (opt_inReplyTo options)
               then push lines ("In-Reply-To: " +++ str_of (opt_inReplyTo options)) else lines in
  let lines := if truthy_opt (opt_references options)
               then push lines ("References: " +++ str_of (opt_references options)) else lines in
  let lines := push lines "MIME-Version: 1.0" in
  if nonempty_arr (opt_attachments options) then
    (* Multipart/mixed for attachments *)
    let lines := push lines ("Content-Type: multipart/mixed; boundary=" +++ quoted boundary) in
    let lines := push lines "" in
    (* Body part *)
    let lines := push lines ("--" +++ boundary) in
    let lines :=
      if truthy_opt (opt_htmlBody options) then
        let lines := push lines ("Content-Type: multipart/alternative; boundary=" +++ quoted altBoundary) in
        let lines := push lines "" in
        let lines := push lines ("--" +++ altBoundary) in
        let lines := push lines ("Content-Type: text/plain; charset=" +++ quoted "UTF-8") in
        let lines := push lines "Content-Transfer-Encoding: base64" in
        let lines := push lines "" in
        let lines := push lines (base64_of (opt_body options)) in
        let lines := push lines ("--" +++ altBoundary) in
        let lines := push lines ("Content-Type: text/html; charset=" +++ quoted "UTF-8") in
        let lines := push lines "Content-Transfer-Encoding: base64" in
        let lines := push lines "" in
        let lines := push lines (base64_of (str_of (opt_htmlBody options))) in
        push lines ("--" +++ altBoundary +++ "--")
      else
        let lines := push lines ("Content-Type: text/plain; charset=" +++ quoted "UTF-8") in
        let lines := push lines "Content-Transfer-Encoding: base64" in
        let lines := push lines "" in
        push lines (base64_of (opt_body options)) in
    (* Attachment parts *)
    let lines := fold_left (push_attachment boundary)
                   (arr_or_empty (opt_attachments options)) lines in
    push lines ("--" +++ boundary +++ "--")
  else if truthy_opt (opt_htmlBody options) then
    let lines := push lines ("Content-Type: multipart/alternative; boundary=" +++ quoted boundary) in
    let lines := push lines "" in
    let lines := push lines ("--" +++ boundary) in
    let lines := push lines ("Content-Type: text/plain; charset=" +++ quoted "UTF-8") in
    let lines := push lines "Content-Transfer-Encoding: base64" in
    let lines := push lines "" in
    let lines := push lines (base64_of (opt_body options)) in
    let lines := push lines ("--" +++ boundary) in
    let lines := push lines ("Content-Type: text/html; charset=" +++ quoted "UTF-8") in
    let lines := push lines "Content-Transfer-Encoding: base64" in
    let lines := push lines "" in
    let lines := push lines (base64_of (str_of (opt_htmlBody options))) in
    push lines ("--" +++ boundary +++ "--")
  else
    let lines := push lines ("Content-Type: text/plain; charset=" +++ quoted "UTF-8") in
    let lines := push lines "Content-Transfer-Encoding: base64" in
    let lines := push lines "" in
    push lines (base64_of (opt_body options)).

Definition buildRawEmail (now1 now2 : Z) (options : EmailOptions) : string :=
  encodeBase64Url (join CRLF (email_lines now1 now2 options)).

(** ** The decoder: [parseMessage] *)

(** The provider's parsed message ([Record<string, unknown>] in the
    source): every property may be absent. *)
Record PartBody := mkPartBody {
  pb_data : option string;
  pb_attachmentId : option string;
  pb_size : option Z
}.

#[local] Unset Elimination Schemes.
Inductive Part := mkPart {
  part_mimeType : option string;
  part_filename : option string;
  part_body : option PartBody;
  part_parts : option (list Part)
}.
#[local] Set Elimination Schemes.

Record Payload := mkPayload {
  pl_headers : option (list Header);
  pl_parts : option (list Part);
  pl_body : option PartBody
}.

Record Message := mkMessage {
  msg_id : string;
  msg_threadId : string;
  msg_snippet : option string;
  msg_labelIds : option (list string);
  msg_payload : option Payload
}.

Record ParsedMessage := mkParsedMessage {
  pm_id : string;
  pm_threadId : string;
  pm_from : string;
  pm_to : string;
  pm_subject : string;
  pm_date : string;
  pm_snippet : string;
  pm_body : string;
  pm_labels : list string
}.

(** [payload?.headers || []]. *)
Definition headers_of (payload : option Payload) : list Header :=
  match payload with
  | Some p => arr_or_empty (pl_headers p)
  | None => []
  end.

(** [partBody?.data], decoded when it is a non-empty string. *)
Definition decode_data (body : option PartBody) (otherwise : string) : string :=
  match body with
  | Some b =>
      match pb_data b with
      | Some data => if truthy data then decodeBase64Url data else otherwise
      | None => otherwise
      end
  | None => otherwise
  end.

Definition has_mimeType (m : string) (p : Part) : bool :=
  match part_mimeType p with
  | Some t => (t =? m)%string
  | None => false
  end.

(** The [body] variable of [parseMessage] at its [return]. *)
Definition extract_body (payload : option Payload) : string :=
  let body := "" in
  match payload with
  | Some payload =>
      match pl_parts payload with
      | Some parts =>
          let textPart := find (has_mimeType "text/plain") parts in
          let htmlPart := find (has_mimeType "text/html") parts in
          let part := match textPart with Some p => Some p | None => htmlPart end in
          match part with
          | Some part => decode_data (part_body part) body
          | None => body
          end
      | None => decode_data (pl_body payload) body
      end
  | None => body
  end.

Definition parseMessage (message : Message) : ParsedMessage :=
  let payload := msg_payload message in
  let msgHeaders := headers_of payload in
  let body := extract_body payload in
  {| pm_id := msg_id message;
     pm_threadId := msg_threadId message;
     pm_from := getHeader msgHeaders "From";
     pm_to := getHeader msgHeaders "To";
     pm_subject := getHeader msgHeaders "Subject";
     pm_date := getHeader msgHeaders "Date";
     pm_snippet := str_or (msg_snippet message) "";
     pm_body := body;
     pm_labels := arr_or_empty (msg_labelIds message) |}.

(** ** Reading a raw message back

    The repository has no parser of raw messages: between [buildRawEmail]
    and [parseMessage] stands the provider.  For the round trip of the
    specification, the reading of a raw message that has no sub-parts is
    the one of the message-format standard the specification refers to:
    the header block ends at the first empty line and the payload body is
    everything after it.  The payload carries that body as its [data];
    there is no [parts] array. *)

Fixpoint body_section (raw : string) : option string :=
  match raw with
  | "" => None
  | String _ rest =>
      match strip_prefix (CRLF +++ CRLF) raw with
      | Some body => Some body
      | None => body_section rest
      end
  end.

Definition received_payload (raw : string) : Payload :=
  {| pl_headers := None;
     pl_parts := None;
     pl_body := match body_section raw with
                | Some data => Some (mkPartBody (Some data) None None)
                | None => None
                end |}.

Definition received_message (id threadId raw : string) : Message :=
  {| msg_id := id;
     msg_threadId := threadId;
     msg_snippet := None;
     msg_labelIds := None;
     msg_payload := Some (received_payload raw) |}.

(** Encode, base64url-decode, extract the top-level payload body, decode. *)
Definition roundtrip_body (now1 now2 : Z) (options : EmailOptions) : string :=
  pm_body (parseMessage
             (received_message "" "" (decodeBase64Url (buildRawEmail now1 now2 options)))).

(** ** The send-email webhook ([app/api/send-email/route.ts]) *)

Module Webhook.

(** The webhook's own [buildRawEmail]: always [multipart/mixed], one
    reading of the clock. *)
Record Options := mkOptions {
  o_to : string;
  o_subject : string;
  o_body : string;
  o_attachments : list Attachment
}.

Definition email_lines (now : Z) (options : Options) : list string :=
  let boundary := boundary_of now in
  let lines : list string := [] in
  let lines := push lines ("To: " +++ o_to options) in
  let lines := push lines ("Subject: =?UTF-8?B?" +++ base64_of (o_subject options) +++ "?=") in
  let lines := push lines "MIME-Version: 1.0" in
  let lines := push lines ("Content-Type: multipart/mixed; boundary=" +++ quoted boundary) in
  let lines := push lines "" in
  let lines := push lines ("--" +++ boundary) in
  let lines := push lines ("Content-Type: text/plain; charset=" +++ quoted "UTF-8") in
  let lines := push lines "Content-Transfer-Encoding: base64" in
  let lines := push lines "" in
  let lines := push lines (base64_of (o_body options)) in
  let lines := fold_left (push_attachment boundary) (o_attachments options) lines in
  push lines ("--" +++ boundary +++ "--").

Definition buildRawEmail (now : Z) (options : Options) : string :=
  encodeBase64Url (join CRLF (email_lines now options)).

(** [process.env]. *)
Record Env := mkEnv {
  GMAIL_CLIENT_ID : option string;
  GMAIL_CLIENT_SECRET : option string;
  GMAIL_REFRESH_TOKEN : option string;
  GMAIL_REDIRECT_URI : option string;
  WEBHOOK_SECRET : option string
}.

(** A computation that returns or throws an [Error] with a message. *)
Inductive Exn (A : Type) : Type :=
| Returns (a : A)
| Throws (message : string).
Arguments Returns {A} a.
Arguments Throws {A} message.

Definition bind {A B} (c : Exn A) (k : A -> Exn B) : Exn B :=
  match c with
  | Returns a => k a
  | Throws m => Throws m
  end.

Notation "x <- c ;; k" := (bind c (fun x => k))
  (at level 61, c at next level, right associativity).

(** [try { c } catch (e) { h(message of e) }]. *)
Definition try_catch {A} (c : Exn A) (h : string -> A) : A :=
  match c with
  | Returns a => a
  | Throws m => h m
  end.

(** The request body as the handler's cast types it; [p_body] is [None]
    when the property is absent or not a string, [p_attachments] is
    [None] when it is absent or not an array. *)
Record JsonPayload := mkJsonPayload {
  p_to : option string;
  p_subject : option string;
  p_body : option string;
  p_attachments : option (list Attachment)
}.

(** [json] is [await request.json()] followed by the destructuring of
    the payload: it throws when the body is not JSON, and when it is the
    JSON [null], which cannot be destructured. *)
Record Request := mkRequest {
  authorization : option string;       (* request.headers.get('authorization') *)
  json : Exn JsonPayload
}.

(** The JSON value a response carries. *)
Inductive ResponseBody :=
| ErrorBody (error : string)                 (* { error } *)
| OkBody (messageId : string).               (* { ok: true, messageId } *)

Record Response := mkResponse {
  status : nat;
  payload : ResponseBody
}.

(** [NextResponse.json(body)] answers 200 unless told otherwise. *)
Definition NextResponse_json (body : ResponseBody) (st : option nat) : Response :=
  {| status := match st with Some n => n | None => 200 end; payload := body |}.

Record Credentials := mkCredentials {
  clientId : string;
  clientSecret : string;
  refreshToken : string
}.

Definition getCredentialsFromEnv (env : Env) : Exn Credentials :=
  if negb (truthy_opt (GMAIL_CLIENT_ID env))
     || negb (truthy_opt (GMAIL_CLIENT_SECRET env))
     || negb (truthy_opt (GMAIL_REFRESH_TOKEN env))
  then Throws "Missing GMAIL_CLIENT_ID, GMAIL_CLIENT_SECRET, or GMAIL_REFRESH_TOKEN. Set them in Vercel env (or .env.local)."
  else Returns {| clientId := str_of (GMAIL_CLIENT_ID env);
                  clientSecret := str_of (GMAIL_CLIENT_SECRET env);
                  refreshToken := str_of (GMAIL_REFRESH_TOKEN env) |}.

(** [auth !== `Bearer ${secret}`]. *)
Definition not_bearer (auth : option string) (secret : string) : bool :=
  match auth with
  | Some a => negb (a =? "Bearer " +++ secret)%string
  | None => true
  end.

(** The handler.  [send creds raw] is the provider's
    [users.messages.send] call made with the client built from [creds]:
    it returns the new message's id or throws. *)
Definition POST (env : Env) (now : Z)
    (send : Credentials -> string -> Exn string) (request : Request) : Response :=
  try_catch
    (let secret := WEBHOOK_SECRET env in
     if truthy_opt secret && not_bearer (authorization request) (str_of secret)
     then Returns (NextResponse_json (ErrorBody "Unauthorized") (Some 401))
     else
       payload <- json request ;;
       if negb (truthy_opt (p_to payload))
          || negb (truthy_opt (p_subject payload))
          || match p_body payload with Some _ => false | None => true end
       then Returns (NextResponse_json
                       (ErrorBody "Missing or invalid: to, subject, body") (Some 400))
       else
         let atts := arr_or_empty (p_attachments payload) in
         creds <- getCredentialsFromEnv env ;;
         let raw := buildRawEmail now
                      {| o_to := str_of (p_to payload);
                         o_subject := str_of (p_subject payload);
                         o_body := str_of (p_body payload);
                         o_attachments := atts |} in
         id <- send creds raw ;;
         Returns (NextResponse_json (OkBody id) None))
    (fun message => NextResponse_json (ErrorBody message) (Some 500)).

End Webhook.

(** ** The tool handlers of the MCP route *)

Module Tools.

(** Responses of the provider, as far as the handlers read them. *)
Record MessageRef := mkMessageRef { ref_id : string }.
Record MessageList := mkMessageList { list_messages : option (list MessageRef) }.
Record Thread := mkThread { thread_messages : option (list Message) }.
Record Created := mkCreated { created_id : option string }.

(** The answer of [users.messages.attachments.get]. *)
Record AttachmentData := mkAttachmentData {
  ad_data : option string;
  ad_size : option Z
}.

(** A draft: its id and the message it holds. *)
Record Draft := mkDraft {
  draft_id : option string;
  draft_message : option Message
}.
Record DraftList := mkDraftList { list_drafts_of : option (list Draft) }.

Record Label := mkLabel {
  label_id : option string;
  label_name : option string;
  label_type : option string;
  label_messagesTotal : option Z;
  label_messagesUnread : option Z
}.
Record LabelList := mkLabelList { list_labels_of : option (list Label) }.

(** The [requestBody] of [users.labels.update]. *)
Record LabelUpdate := mkLabelUpdate {
  lu_id : string;
  lu_name : option string;
  lu_messageListVisibility : option string;
  lu_labelListVisibility : option string
}.

Record Criteria := mkCriteria {
  c_from : option string;
  c_to : option string;
  c_subject : option string;
  c_query : option string
}.

Record Action := mkAction {
  addLabelIds : option (list string);
  removeLabelIds : option (list string);
  forward : option string
}.

(** What a handler asks of its environment, with the type of the
    answer.  [GetGmailClient] reads the credentials of the request and
    builds the client; the others are calls on that client. *)
Record Filter := mkFilter {
  filter_id : option string;
  filter_criteria_of : option Criteria;
  filter_action_of : option Action
}.
Record FilterList := mkFilterList { list_filter_of : option (list Filter) }.

Inductive Event : Type -> Type :=
| GetGmailClient : Event unit
| DateNow : Event Z
| MessagesList (q : string) (maxResults : Z) : Event MessageList
| MessagesGet (id format : string) (metadataHeaders : option (list string)) : Event Message
| MessagesSend (raw : string) (threadId : option string) : Event Created
| MessagesBatchModify (ids : list string) (addLabelIds removeLabelIds : option (list string)) : Event unit
| MessagesBatchDelete (ids : list string) : Event unit
| ThreadsGet (id format : string) : Event Thread
| FiltersCreate (criteria : Criteria) (action : Action) : Event Created
| MessagesDelete (id : string) : Event unit
| MessagesTrash (id : string) : Event Message
| MessagesModify (id : string) (addLabelIds removeLabelIds : option (list string)) : Event Message
| AttachmentsGet (messageId id : string) : Event AttachmentData
| DraftsCreate (raw : string) : Event Draft
| DraftsList (maxResults : Z) : Event DraftList
| DraftsGet (id : option string) (format : string) : Event Draft
| DraftsSend (id : string) : Event Created
| DraftsDelete (id : string) : Event unit
| LabelsList : Event LabelList
| LabelsCreate (name messageListVisibility labelListVisibility : string) : Event Label
| LabelsUpdate (id : string) (requestBody : LabelUpdate) : Event Label
| LabelsDelete (id : string) : Event unit
| FiltersList : Event FilterList
| FiltersDelete (id : string) : Event unit.

(** A handler: it returns, throws an [Error], or awaits an event and goes
    on with the answer. *)
Inductive Tool (A : Type) : Type :=
| Ret (a : A)
| Throw (message : string)
| Await {X : Type} (e : Event X) (k : X -> Tool A).
Arguments Ret {A} a.
Arguments Throw {A} message.
Arguments Await {A X} e k.

Fixpoint bind {A B} (t : Tool A) (f : A -> Tool B) : Tool B :=
  match t with
  | Ret a => f a
  | Throw message => Throw message
  | Await e k => Await e (fun x => bind (k x) f)
  end.

Definition await {X} (e : Event X) : Tool X := Await e Ret.

Notation "x <- c ;; k" := (bind c (fun x => k))
  (at level 61, c at next level, right associativity).
Notation "c ;;; k" := (bind c (fun _ => k))
  (at level 61, right associativity).

(** The entry list_drafts prints for a draft, and the one list_labels
    prints for a label. *)
Record DraftDetail := mkDraftDetail {
  dd_draftId : option string;
  dd_messageId : option string;
  dd_to : string;
  dd_subject : string;
  dd_date : string
}.

Record LabelInfo := mkLabelInfo {
  li_id : option string;
  li_name : option string;
  li_type : option string;
  li_messagesTotal : option Z;
  li_messagesUnread : option Z
}.

(** The text of a handler's result; [JSON.stringify(v, null, 2)] is kept
    as the value it prints. *)
Inductive ToolText :=
| Text (text : string)
| JsonMessage (m : ParsedMessage)
| JsonMessages (ms : list ParsedMessage)
| JsonDrafts (ds : list DraftDetail)
| JsonLabels (ls : list LabelInfo)
| JsonFilters (fs : list Filter).

(** *** Running a handler

    The environment answers each event from its state, with a value or
    a rejection.  A rejection ends the run: no handler catches. *)
Inductive Call : Type :=
| call {X : Type} (e : Event X).

Record Run (A : Type) := mkRun {
  calls : list Call;           (* the events awaited, in order *)
  outcome : string + A         (* the error message, or the result *)
}.
Arguments mkRun {A} calls outcome.
Arguments calls {A} r.
Arguments outcome {A} r.

Definition Provider (S : Type) : Type :=
  forall X, Event X -> S -> (string + X) * S.

Fixpoint run {S A} (provider : Provider S) (t : Tool A) (s : S) : Run A :=
  match t with
  | Ret a => mkRun [] (inr a)
  | Throw message => mkRun [] (inl message)
  | Await e k =>
      match provider _ e s with
      | (inl err, _) => mkRun [call e] (inl err)
      | (inr x, s') =>
          let r := run provider (k x) s' in
          mkRun (call e :: calls r) (outcome r)
      end
  end.

(** *** read_email, search_emails, get_thread *)

Definition read_email (messageId : string) : Tool ToolText :=
  await GetGmailClient ;;;
  result <- await (MessagesGet messageId "full" None) ;;
  let parsed := parseMessage result in
  Ret (JsonMessage parsed).

(** [Math.min(maxResults || 10, 100)]. *)
Definition search_limit (maxResults : option Z) : Z :=
  Z.min (match maxResults with
         | Some n => if (n =? 0)%Z then 10%Z else n
         | None => 10%Z
         end) 100.

Definition metadataHeaders : list string := ["From"; "To"; "Subject"; "Date"].

(** The entry pushed for one listed message. *)
Definition search_entry (data : Message) : ParsedMessage :=
  let payload := msg_payload data in
  let msgHeaders := headers_of payload in
  {| pm_id := msg_id data;
     pm_threadId := msg_threadId data;
     pm_from := getHeader msgHeaders "From";
     pm_to := getHeader msgHeaders "To";
     pm_subject := getHeader msgHeaders "Subject";
     pm_date := getHeader msgHeaders "Date";
     pm_snippet := str_or (msg_snippet data) "";
     pm_body := "";
     pm_labels := arr_or_empty (msg_labelIds data) |}.

(** The [for (const msg of messages)] loop. *)
Fixpoint search_loop (messages : list MessageRef) (results : list ParsedMessage)
    : Tool (list ParsedMessage) :=
  match messages with
  | [] => Ret results
  | msg :: rest =>
      detail <- await (MessagesGet (ref_id msg) "metadata" (Some metadataHeaders)) ;;
      search_loop rest (push results (search_entry detail))
  end.

Definition search_emails (query : string) (maxResults : option Z) : Tool ToolText :=
  await GetGmailClient ;;;
  listResult <- await (MessagesList query (search_limit maxResults)) ;;
  let messages := arr_or_empty (list_messages listResult) in
  if (List.length messages =? 0)%nat then
    Ret (Text "No emails found matching your query.")
  else
    results <- search_loop messages [] ;;
    Ret (JsonMessages results).

Definition get_thread (threadId : string) : Tool ToolText :=
  await GetGmailClient ;;;
  result <- await (ThreadsGet threadId "full") ;;
  let messages := map parseMessage (arr_or_empty (thread_messages result)) in
  Ret (JsonMessages messages).

(** *** batch_modify_emails, batch_delete_emails *)

(** [`${n}`] for an array length. *)
Definition length_toString (n : nat) : string := Number_toString (Z.of_nat n).

Definition batch_modify_emails (messageIds : list string)
    (addLabels removeLabels : option (list string)) : Tool ToolText :=
  await GetGmailClient ;;;
  let ids := slice0 50 messageIds in
  await (MessagesBatchModify ids addLabels removeLabels) ;;;
  Ret (Text ("Batch modified " +++ length_toString (List.length ids) +++ " emails.")).

Definition batch_delete_emails (messageIds : list string) : Tool ToolText :=
  await GetGmailClient ;;;
  let ids := slice0 50 messageIds in
  await (MessagesBatchDelete ids) ;;;
  Ret (Text ("Batch deleted " +++ length_toString (List.length ids) +++ " emails.")).

(** *** create_filter *)

Record FilterArgs := mkFilterArgs {
  f_from : option string;
  f_to : option string;
  f_subject : option string;
  f_query : option string;
  f_addLabelIds : option (list string);
  f_removeLabelIds : option (list string);
  f_forward : option string;
  f_star : option bool;
  f_markImportant : option bool;
  f_markRead : option bool;
  f_archive : option bool;
  f_trash : option bool
}.

Definition keep_truthy (o : option string) : option string :=
  if truthy_opt o then o else None.

Definition filter_criteria (a : FilterArgs) : Criteria :=
  {| c_from := keep_truthy (f_from a);
     c_to := keep_truthy (f_to a);
     c_subject := keep_truthy (f_subject a);
     c_query := keep_truthy (f_query a) |}.

Definition set_addLabelIds (action : Action) (v : list string) : Action :=
  {| addLabelIds := Some v;
     removeLabelIds := removeLabelIds action;
     forward := forward action |}.

Definition set_removeLabelIds (action : Action) (v : list string) : Action :=
  {| addLabelIds := addLabelIds action;
     removeLabelIds := Some v;
     forward := forward action |}.

Definition is_nonempty {A} (l : list A) : bool :=
  match l with [] => false | _ => true end.

(** The [action] object at the provider call, assignment by assignment. *)
Definition filter_action (a : FilterArgs) : Action :=
  let action :=
    {| addLabelIds := f_addLabelIds a;
       removeLabelIds := f_removeLabelIds a;
       forward := keep_truthy (f_forward a) |} in
  (* Map boolean actions to removeLabelIds *)
  let removeIds := arr_or_empty (f_removeLabelIds a) in
  let removeIds := if truthy_flag (f_markRead a) then push removeIds "UNREAD" else removeIds in
  let removeIds := if truthy_flag (f_archive a) then push removeIds "INBOX" else removeIds in
  let action := if truthy_flag (f_trash a)
                then set_addLabelIds action (arr_or_empty (f_addLabelIds a) ++ ["TRASH"])
                else action in
  let action := if is_nonempty removeIds then set_removeLabelIds action removeIds else action in
  let addIds := arr_or_empty (f_addLabelIds a) in
  let addIds := if truthy_flag (f_star a) then push addIds "STARRED" else addIds in
  let addIds := if truthy_flag (f_markImportant a) then push addIds "IMPORTANT" else addIds in
  let action := if is_nonempty addIds then set_addLabelIds action addIds else action in
  action.

Definition create_filter (a : FilterArgs) : Tool ToolText :=
  await GetGmailClient ;;;
  let criteria := filter_criteria a in
  let action := filter_action a in
  result <- await (FiltersCreate criteria action) ;;
  Ret (Text ("Filter created. ID: " +++ str_of (created_id result))).

(** *** reply_to_email *)

Definition reply_headers : list string :=
  ["From"; "To"; "Cc"; "Subject"; "Message-ID"; "References"].

Definition reply_subject (origSubject : string) : string :=
  if startsWith origSubject "Re:" then origSubject else "Re: " +++ origSubject.

(** The object handed to [buildRawEmail]. *)
Definition reply_options (origData : Message) (body : string)
    (htmlBody : option string) (replyAll : option bool) : EmailOptions :=
  let payload := msg_payload origData in
  let msgHeaders := headers_of payload in
  let from := getHeader msgHeaders "From" in
  let to := getHeader msgHeaders "To" in
  let cc := getHeader msgHeaders "Cc" in
  let origSubject := getHeader msgHeaders "Subject" in
  let messageIdHeader := getHeader msgHeaders "Message-ID" in
  let references := getHeader msgHeaders "References" in
  (* Determine reply recipients *)
  let replyTo := from in
  let replyCc := if truthy_flag replyAll then Some (filter truthy [to; cc]) else None in
  let subject := reply_subject origSubject in
  {| opt_to := replyTo;
     opt_subject := subject;
     opt_body := body;
     opt_htmlBody := htmlBody;
     opt_cc := replyCc;
     opt_bcc := None;
     opt_from := None;
     opt_threadId := None;
     opt_inReplyTo := Some messageIdHeader;
     opt_references := Some (if truthy references
                             then references +++ " " +++ messageIdHeader
                             else messageIdHeader);
     opt_attachments := None |}.

Definition reply_to_email (messageId body : string) (htmlBody : option string)
    (replyAll : option bool) : Tool ToolText :=
  await GetGmailClient ;;;
  (* Get original message for headers *)
  origData <- await (MessagesGet messageId "metadata" (Some reply_headers)) ;;
  let options := reply_options origData body htmlBody replyAll in
  now1 <- await DateNow ;;
  now2 <- await DateNow ;;
  let raw := buildRawEmail now1 now2 options in
  result <- await (MessagesSend raw (Some (msg_threadId origData))) ;;
  Ret (Text ("Reply sent. Message ID: " +++ str_of (created_id result))).

End Tools.

(** ** Notions the properties are stated with *)

(** A text without carriage return or line feed. *)
Definition single_line (s : string) : bool :=
  forallb (fun c => negb (Ascii.eqb c CR) && negb (Ascii.eqb c LF))
    (list_ascii_of_string s).

Definition single_line_opt (o : option string) : bool :=
  match o with Some s => single_line s | None => true end.

(** The header fields that [buildRawEmail] copies into the header block
    as they are. *)
Definition single_line_headers (o : EmailOptions) : bool :=
  single_line (opt_to o)
  && single_line_opt (opt_from o)
  && forallb single_line (arr_or_empty (opt_cc o))
  && forallb single_line (arr_or_empty (opt_bcc o))
  && single_line_opt (opt_inReplyTo o)
  && single_line_opt (opt_references o).

(** A message with a plain-text body only: no HTML body, no attachment. *)
Definition plain_text_only (o : EmailOptions) : bool :=
  negb (truthy_opt (opt_htmlBody o)) && negb (nonempty_arr (opt_attachments o)).

(** A text over the standard base64 alphabet and its padding character. *)
Definition is_base64_char (c : ascii) : bool :=
  existsb (Ascii.eqb c) (list_ascii_of_string Buffer.alphabet) || Ascii.eqb c "=".

Definition base64_text (s : string) : bool :=
  forallb is_base64_char (list_ascii_of_string s).

(** The content lines of a message: the encoded bodies and the attachment
    contents. *)
Definition body_lines (o : EmailOptions) : list string :=
  base64_of (opt_body o)
    :: (if truthy_opt (opt_htmlBody o) then [base64_of (str_of (opt_htmlBody o))] else []).

Definition attachment_lines (o : EmailOptions) : list string :=
  map att_content (arr_or_empty (opt_attachments o)).

(** Neither boundary token occurs in the line. *)
Definition token_free (now1 now2 : Z) (line : string) : Prop :=
  includes line (boundary_of now1) = false
  /\ includes line (altBoundary_of now2) = false.

(** The two tokens differ and occur in no content line. *)
Definition boundaries_content_free (now1 now2 : Z) (o : EmailOptions) : Prop :=
  boundary_of now1 <> altBoundary_of now2
  /\ forall line, In line (body_lines o ++ attachment_lines o) -> token_free now1 now2 line.

(** The lines of one MIME part of the encoder's output. *)
Definition text_part (subtype content : string) : list string :=
  [ "Content-Type: text/" +++ subtype +++ "; charset=" +++ quoted "UTF-8";
    "Content-Transfer-Encoding: base64";
    "";
    base64_of content ].

Definition attachment_part (att : Attachment) : list string :=
  [ "Content-Type: " +++ att_mimeType att +++ "; name=" +++ quoted (att_filename att);
    "Content-Transfer-Encoding: base64";
    "Content-Disposition: attachment; filename=" +++ quoted (att_filename att);
    "";
    att_content att ].

(** A multipart body: every part after a delimiter line, then the closing
    line. *)
Definition multipart (boundary : string) (parts : list (list string)) : list string :=
  flat_map (fun part => ("--" +++ boundary) :: part) parts
    ++ ["--" +++ boundary +++ "--"].

(** The alternative group: its header, then the plain part and the HTML
    part, in this order. *)
Definition alternative_group (boundary plain html : string) : list string :=
  [ "Content-Type: multipart/alternative; boundary=" +++ quoted boundary; "" ]
    ++ multipart boundary [text_part "plain" plain; text_part "html" html].

(** The header block of [buildRawEmail]'s output, up to [MIME-Version]. *)
Definition header_lines (o : EmailOptions) : list string :=
  ["To: " +++ opt_to o]
    ++ (if truthy_opt (opt_from o) then ["From: " +++ str_of (opt_from o)] else [])
    ++ (if nonempty_arr (opt_cc o)
        then ["Cc: " +++ join ", " (arr_or_empty (opt_cc o))] else [])
    ++ (if nonempty_arr (opt_bcc o)
        then ["Bcc: " +++ join ", " (arr_or_empty (opt_bcc o))] else [])
    ++ ["Subject: =?UTF-8?B?" +++ base64_of (opt_subject o) +++ "?="]
    ++ (if truthy_opt (opt_inReplyTo o)
        then ["In-Reply-To: " +++ str_of (opt_inReplyTo o)] else [])
    ++ (if truthy_opt (opt_references o)
        then ["References: " +++ str_of (opt_references o)] else [])
    ++ ["MIME-Version: 1.0"].

(** The body structure that follows the header block: the three-way
    branch of [buildRawEmail]. *)
Definition body_structure (now1 now2 : Z) (o : EmailOptions) : list string :=
  let boundary := boundary_of now1 in
  let altBoundary := altBoundary_of now2 in
  if nonempty_arr (opt_attachments o) then
    [ "Content-Type: multipart/mixed; boundary=" +++ quoted boundary; "" ]
      ++ multipart boundary
           ((if truthy_opt (opt_htmlBody o)
             then alternative_group altBoundary (opt_body o) (str_of (opt_htmlBody o))
             else text_part "plain" (opt_body o))
              :: map attachment_part (arr_or_empty (opt_attachments o)))
  else if truthy_opt (opt_htmlBody o) then
    alternative_group boundary (opt_body o) (str_of (opt_htmlBody o))
  else
    text_part "plain" (opt_body o).

(** The decoded [data] of a part body, or the empty string. *)
Definition body_data (body : option PartBody) : string := decode_data body "".

(** A part body without [data] to decode. *)
Definition no_data (body : option PartBody) : Prop :=
  match body with
  | Some b => pb_data b = None \/ pb_data b = Some ""
  | None => True
  end.

(** An optional property that is missing or empty. *)
Definition missing (o : option string) : Prop := o = None \/ o = Some "".

(** The webhook lets the request in: no secret is configured, or the
    header is exactly the bearer token. *)
Definition authorized (env : Webhook.Env) (request : Webhook.Request) : Prop :=
  match Webhook.WEBHOOK_SECRET env with
  | Some secret =>
      secret = "" \/ Webhook.authorization request = Some ("Bearer " +++ secret)
  | None => True
  end.

(** The message the webhook builds from an accepted payload. *)
Definition webhook_options (p : Webhook.JsonPayload) : Webhook.Options :=
  {| Webhook.o_to := str_of (Webhook.p_to p);
     Webhook.o_subject := str_of (Webhook.p_subject p);
     Webhook.o_body := str_of (Webhook.p_body p);
     Webhook.o_attachments := arr_or_empty (Webhook.p_attachments p) |}.

(** The identifiers a bulk call carries. *)
Definition forwarded_ids (c : Tools.Call) : option (list string) :=
  match c with
  | Tools.call e =>
      match e with
      | Tools.MessagesBatchModify ids _ _ => Some ids
      | Tools.MessagesBatchDelete ids => Some ids
      | _ => None
      end
  end.

(** ** Inputs used below *)

Module Examples.
Import Tools.

Definition plain : EmailOptions :=
  mkEmailOptions "a@b.com" "Hi" "hi there" None None None None None None None None.

(** A recipient field that carries an empty line and a line of its own. *)
Definition injected : EmailOptions :=
  mkEmailOptions ("a@b.com" +++ CRLF +++ CRLF +++ "ZXZpbA==") "Hi" "hi there"
    None None None None None None None None.

Definition with_attachment (content : string) : EmailOptions :=
  mkEmailOptions "a@b.com" "Hi" "hi there" None None None None None None None
    (Some [mkAttachment "r.pdf" "application/pdf" content]).

Definition both_bodies : EmailOptions :=
  mkEmailOptions "a@b.com" "Hi" "hi there" (Some "<p>hi there</p>")
    None None None None None None None.


(** A provider that accepts every call; a listing names two messages
    and every fetched message has a text body. *)
Definition full_message (id : string) : Message :=
  {| msg_id := id;
     msg_threadId := "t1";
     msg_snippet := Some "hi";
     msg_labelIds := Some ["INBOX"];
     msg_payload :=
       Some {| pl_headers := Some [mkHeader (Some "Subject") (Some "Re: hello")];
               pl_parts := None;
               pl_body := Some (mkPartBody (Some "aGkgdGhlcmU") None None) |} |}.

Definition provider : Provider unit :=
  fun X e s =>
    match e in Event X return (string + X) * unit with
    | GetGmailClient => (inr tt, s)
    | DateNow => (inr 1700000000000%Z, s)
    | MessagesList _ _ => (inr (mkMessageList (Some [mkMessageRef "m1"; mkMessageRef "m2"])), s)
    | MessagesGet id _ _ => (inr (full_message id), s)
    | MessagesSend _ _ => (inr (mkCreated (Some "m9")), s)
    | MessagesBatchModify _ _ _ => (inr tt, s)
    | MessagesBatchDelete _ => (inr tt, s)
    | ThreadsGet id _ => (inr (mkThread (Some [full_message "m1"])), s)
    | FiltersCreate _ _ => (inr (mkCreated (Some "f1")), s)
    | MessagesDelete _ => (inr tt, s)
    | MessagesTrash id => (inr (full_message id), s)
    | MessagesModify id _ _ => (inr (full_message id), s)
    | AttachmentsGet _ _ => (inr (mkAttachmentData (Some "Pj4_Pz8-") (Some 6%Z)), s)
    | DraftsCreate _ => (inr (mkDraft (Some "d1") (Some (full_message "m1"))), s)
    | DraftsList _ => (inr (mkDraftList (Some [mkDraft (Some "d1") None])), s)
    | DraftsGet _ _ => (inr (mkDraft (Some "d1") (Some (full_message "m1"))), s)
    | DraftsSend _ => (inr (mkCreated (Some "m9")), s)
    | DraftsDelete _ => (inr tt, s)
    | LabelsList => (inr (mkLabelList (Some [mkLabel (Some "INBOX") (Some "INBOX") (Some "system") None None])), s)
    | LabelsCreate name _ _ => (inr (mkLabel (Some "Label_1") (Some name) (Some "user") None None), s)
    | LabelsUpdate id _ => (inr (mkLabel (Some id) (Some "work") (Some "user") None None), s)
    | LabelsDelete _ => (inr tt, s)
    | FiltersList => (inr (mkFilterList None), s)
    | FiltersDelete _ => (inr tt, s)
    end.

Definition html_part : Part :=
  mkPart (Some "text/html") None (Some (mkPartBody (Some "PGI-aGk8L2I-") None None)) None.

Definition plain_part : Part :=
  mkPart (Some "text/plain") None (Some (mkPartBody (Some "aGkgdGhlcmU") None None)) None.

Definition html_then_plain_payload : Payload :=
  mkPayload None (Some [html_part; plain_part]) None.

Definition html_then_plain : Message :=
  mkMessage "m1" "t1" None None (Some html_then_plain_payload).

Definition webhook_env : Webhook.Env :=
  {| Webhook.GMAIL_CLIENT_ID := Some "id";
     Webhook.GMAIL_CLIENT_SECRET := Some "secret";
     Webhook.GMAIL_REFRESH_TOKEN := Some "token";
     Webhook.GMAIL_REDIRECT_URI := None;
     Webhook.WEBHOOK_SECRET := Some "s3cret" |}.

Definition webhook_payload : Webhook.JsonPayload :=
  {| Webhook.p_to := Some "a@b.com";
     Webhook.p_subject := Some "Hi";
     Webhook.p_body := Some "hi there";
     Webhook.p_attachments := None |}.

Definition webhook_request : Webhook.Request :=
  {| Webhook.authorization := Some "Bearer s3cret";
     Webhook.json := Webhook.Returns webhook_payload |}.

Definition webhook_send (creds : Webhook.Credentials) (raw : string)
    : Webhook.Exn string :=
  Webhook.Returns "m9".

Definition trash_with_label : FilterArgs :=
  {| f_from := Some "news@example.com"; f_to := None; f_subject := None;
     f_query := None; f_addLabelIds := Some ["Label_1"]; f_removeLabelIds := None;
     f_forward := None; f_star := None; f_markImportant := None;
     f_markRead := None; f_archive := None; f_trash := Some true |}.

Definition subject_headers (subject : string) : Message :=
  {| msg_id := "m1"; msg_threadId := "t1"; msg_snippet := None; msg_labelIds := None;
     msg_payload :=
       Some {| pl_headers := Some [mkHeader (Some "From") (Some "x@y.com");
                                   mkHeader (Some "Subject") (Some subject)];
               pl_parts := None; pl_body := None |} |}.

End Examples.

(** ** Further handlers of the MCP route *)

Module Handlers.
Import Tools.

(** *** send_email *)

Record SendArgs := mkSendArgs {
  s_to : string;
  s_subject : string;
  s_body : string;
  s_htmlBody : option string;
  s_cc : option (list string);
  s_bcc : option (list string);
  s_threadId : option string;
  s_attachments : option (list Attachment)
}.

(** The object handed to [buildRawEmail]: the thread id is not part of
    it. *)
Definition send_options (a : SendArgs) : EmailOptions :=
  {| opt_to := s_to a;
     opt_subject := s_subject a;
     opt_body := s_body a;
     opt_htmlBody := s_htmlBody a;
     opt_cc := s_cc a;
     opt_bcc := s_bcc a;
     opt_from := None;
     opt_threadId := None;
     opt_inReplyTo := None;
     opt_references := None;
     opt_attachments := s_attachments a |}.

Definition send_email (a : SendArgs) : Tool ToolText :=
  await GetGmailClient ;;;
  now1 <- await DateNow ;;
  now2 <- await DateNow ;;
  let raw := buildRawEmail now1 now2 (send_options a) in
  (* requestBody: { raw, ...(threadId && { threadId }) } *)
  result <- await (MessagesSend raw (keep_truthy (s_threadId a))) ;;
  Ret (Text ("Email sent successfully. Message ID: " +++ str_of (created_id result))).

(** *** list_attachments *)

Record AttachmentInfo := mkAttachmentInfo {
  a_id : string;
  a_filename : string;
  a_mimeType : string;
  a_size : Z
}.

(** [part.body?.attachmentId]. *)
Definition attachmentId_of (part : Part) : option string :=
  match part_body part with
  | Some b => pb_attachmentId b
  | None => None
  end.

(** [part.body.size || 0]. *)
Definition size_of (part : Part) : Z :=
  match part_body part with
  | Some b => match pb_size b with Some n => n | None => 0%Z end
  | None => 0%Z
  end.

(** The entry pushed for a part that is an attachment. *)
Definition attachment_info (part : Part) : AttachmentInfo :=
  {| a_id := str_of (attachmentId_of part);
     a_filename := str_of (part_filename part);
     a_mimeType := str_or (part_mimeType part) "application/octet-stream";
     a_size := size_of part |}.

(** [part.filename && part.body?.attachmentId]. *)
Definition is_attachment (part : Part) : bool :=
  truthy_opt (part_filename part) && truthy_opt (attachmentId_of part).

(** The body of the loop of [findAttachments] for one part; [attachments]
    is the array the closure shares, threaded through. *)
Fixpoint visit_part (part : Part) (attachments : list AttachmentInfo)
    : list AttachmentInfo :=
  let attachments :=
    if is_attachment part then push attachments (attachment_info part)
    else attachments in
  match part with
  | mkPart _ _ _ (Some parts) =>
      (* if (part.parts) findAttachments(part.parts) *)
      fold_left (fun attachments p => visit_part p attachments) parts attachments
  | mkPart _ _ _ None => attachments
  end.

Definition findAttachments (parts : option (list Part))
    (attachments : list AttachmentInfo) : list AttachmentInfo :=
  match parts with
  | None => attachments                                       (* if (!parts) return *)
  | Some parts => fold_left (fun attachments p => visit_part p attachments) parts attachments
  end.

(** The text of the result: a plain sentence, or the JSON of the list. *)
Inductive AttachmentsText :=
| AttachmentsNote (text : string)
| AttachmentsJson (attachments : list AttachmentInfo).

Definition list_attachments (messageId : string) : Tool AttachmentsText :=
  await GetGmailClient ;;;
  result <- await (MessagesGet messageId "full" None) ;;
  let payload := msg_payload result in
  let attachments :=
    findAttachments (match payload with Some p => pl_parts p | None => None end) [] in
  if (List.length attachments =? 0)%nat then
    Ret (AttachmentsNote "No attachments found on this message.")
  else
    Ret (AttachmentsJson attachments).

(** *** download_attachment

    [download_result] is the handler after its provider call: [result] is
    the answer of [users.messages.attachments.get]; the handler throws
    (the left value) when it holds no data and otherwise rewrites the
    URL-safe alphabet into the standard one. *)

Record Download := mkDownload {
  d_attachmentId : string;
  d_base64 : string;
  d_sizeBytes : option Z
}.

Definition download_result (attachmentId : string) (result : AttachmentData)
    : string + Download :=
  let data := ad_data result in
  if negb (truthy_opt data) then inl "No attachment data returned"
  else
    (* Gmail returns URL-safe base64, convert to standard base64 *)
    let base64Data := replace_char "_" "/" (replace_char "-" "+" (str_of data)) in
    inr {| d_attachmentId := attachmentId;
           d_base64 := base64Data;
           d_sizeBytes := ad_size result |}.

Definition download_attachment (messageId attachmentId : string) : Tool Download :=
  await GetGmailClient ;;;
  result <- await (AttachmentsGet messageId attachmentId) ;;
  match download_result attachmentId result with
  | inl message => Throw message
  | inr download => Ret download
  end.

(** *** delete_email, trash_email, modify_email *)

Definition delete_email (messageId : string) : Tool ToolText :=
  await GetGmailClient ;;;
  await (MessagesDelete messageId) ;;;
  Ret (Text ("Email " +++ messageId +++ " permanently deleted.")).

Definition trash_email (messageId : string) : Tool ToolText :=
  await GetGmailClient ;;;
  await (MessagesTrash messageId) ;;;
  Ret (Text ("Email " +++ messageId +++ " moved to trash.")).

Definition modify_email (messageId : string)
    (addLabels removeLabels : option (list string)) : Tool ToolText :=
  await GetGmailClient ;;;
  result <- await (MessagesModify messageId addLabels removeLabels) ;;
  Ret (Text ("Email modified. Labels: "
               +++ join ", " (arr_or_empty (msg_labelIds result)))).

(** *** create_draft, list_drafts, send_draft, delete_draft *)

Record DraftArgs := mkDraftArgs {
  dr_to : string;
  dr_subject : string;
  dr_body : string;
  dr_htmlBody : option string;
  dr_cc : option (list string);
  dr_bcc : option (list string)
}.

Definition draft_options (a : DraftArgs) : EmailOptions :=
  {| opt_to := dr_to a;
     opt_subject := dr_subject a;
     opt_body := dr_body a;
     opt_htmlBody := dr_htmlBody a;
     opt_cc := dr_cc a;
     opt_bcc := dr_bcc a;
     opt_from := None;
     opt_threadId := None;
     opt_inReplyTo := None;
     opt_references := None;
     opt_attachments := None |}.

Definition create_draft (a : DraftArgs) : Tool ToolText :=
  await GetGmailClient ;;;
  now1 <- await DateNow ;;
  now2 <- await DateNow ;;
  let raw := buildRawEmail now1 now2 (draft_options a) in
  result <- await (DraftsCreate raw) ;;
  Ret (Text ("Draft created. Draft ID: " +++ str_of (draft_id result))).

(** [maxResults || 10]. *)
Definition drafts_limit (maxResults : option Z) : Z :=
  match maxResults with
  | Some n => if (n =? 0)%Z then 10%Z else n
  | None => 10%Z
  end.

(** The entry pushed for one listed draft. *)
Definition draft_entry (draft detail : Draft) : DraftDetail :=
  let msg := draft_message detail in
  let payload := match msg with Some m => msg_payload m | None => None end in
  let msgHeaders := headers_of payload in
  {| dd_draftId := draft_id draft;
     dd_messageId := option_map msg_id msg;
     dd_to := getHeader msgHeaders "To";
     dd_subject := getHeader msgHeaders "Subject";
     dd_date := getHeader msgHeaders "Date" |}.

(** The [for (const draft of drafts)] loop. *)
Fixpoint drafts_loop (drafts : list Draft) (details : list DraftDetail)
    : Tool (list DraftDetail) :=
  match drafts with
  | [] => Ret details
  | draft :: rest =>
      detail <- await (DraftsGet (draft_id draft) "metadata") ;;
      drafts_loop rest (push details (draft_entry draft detail))
  end.

Definition list_drafts (maxResults : option Z) : Tool ToolText :=
  await GetGmailClient ;;;
  result <- await (DraftsList (drafts_limit maxResults)) ;;
  let drafts := arr_or_empty (list_drafts_of result) in
  if (List.length drafts =? 0)%nat then
    Ret (Text "No drafts found.")
  else
    details <- drafts_loop drafts [] ;;
    Ret (JsonDrafts details).

Definition send_draft (draftId : string) : Tool ToolText :=
  await GetGmailClient ;;;
  result <- await (DraftsSend draftId) ;;
  Ret (Text ("Draft sent. Message ID: " +++ str_of (created_id result))).

Definition delete_draft (draftId : string) : Tool ToolText :=
  await GetGmailClient ;;;
  await (DraftsDelete draftId) ;;;
  Ret (Text ("Draft " +++ draftId +++ " deleted.")).

(** *** list_labels, create_label, update_label, delete_label *)

Definition label_info (l : Label) : LabelInfo :=
  {| li_id := label_id l;
     li_name := label_name l;
     li_type := label_type l;
     li_messagesTotal := label_messagesTotal l;
     li_messagesUnread := label_messagesUnread l |}.

Definition list_labels : Tool ToolText :=
  await GetGmailClient ;;;
  result <- await LabelsList ;;
  let labels := map label_info (arr_or_empty (list_labels_of result)) in
  Ret (JsonLabels labels).

Definition create_label (name : string)
    (messageListVisibility labelListVisibility : option string) : Tool ToolText :=
  await GetGmailClient ;;;
  result <- await (LabelsCreate name (str_or messageListVisibility "show")
                     (str_or labelListVisibility "labelShow")) ;;
  Ret (Text ("Label created: " +++ str_of (label_name result)
               +++ " (ID: " +++ str_of (label_id result) +++ ")")).

Definition update_label (labelId : string)
    (name messageListVisibility labelListVisibility : option string) : Tool ToolText :=
  await GetGmailClient ;;;
  result <- await (LabelsUpdate labelId
                     {| lu_id := labelId;
                        lu_name := keep_truthy name;
                        lu_messageListVisibility := keep_truthy messageListVisibility;
                        lu_labelListVisibility := keep_truthy labelListVisibility |}) ;;
  Ret (Text ("Label updated: " +++ str_of (label_name result))).

Definition delete_label (labelId : string) : Tool ToolText :=
  await GetGmailClient ;;;
  await (LabelsDelete labelId) ;;;
  Ret (Text ("Label " +++ labelId +++ " deleted.")).

(** *** list_filters, delete_filter *)

Definition list_filters : Tool ToolText :=
  await GetGmailClient ;;;
  result <- await FiltersList ;;
  Ret (JsonFilters (arr_or_empty (list_filter_of result))).

Definition delete_filter (filterId : string) : Tool ToolText :=
  await GetGmailClient ;;;
  await (FiltersDelete filterId) ;;;
  Ret (Text ("Filter " +++ filterId +++ " deleted.")).

(** *** The tool catalogue

    One constructor per [server.tool(...)] of the route, with the
    arguments its schema declares. *)
Inductive Invocation :=
| SendEmail (a : SendArgs)
| ReadEmail (messageId : string)
| SearchEmails (query : string) (maxResults : option Z)
| DeleteEmail (messageId : string)
| TrashEmail (messageId : string)
| ModifyEmail (messageId : string) (addLabels removeLabels : option (list string))
| ListAttachments (messageId : string)
| DownloadAttachment (messageId attachmentId : string)
| CreateDraft (a : DraftArgs)
| ListDrafts (maxResults : option Z)
| SendDraft (draftId : string)
| DeleteDraft (draftId : string)
| ListLabels
| CreateLabel (name : string) (messageListVisibility labelListVisibility : option string)
| UpdateLabel (labelId : string)
    (name messageListVisibility labelListVisibility : option string)
| DeleteLabel (labelId : string)
| BatchModifyEmails (messageIds : list string) (addLabels removeLabels : option (list string))
| BatchDeleteEmails (messageIds : list string)
| ListFilters
| CreateFilter (a : FilterArgs)
| DeleteFilter (filterId : string)
| GetThread (threadId : string)
| ReplyToEmail (messageId body : string) (htmlBody : option string)
    (replyAll : option bool).

(** The value a tool's result text prints. *)
Definition result_type (i : Invocation) : Type :=
  match i with
  | ListAttachments _ => AttachmentsText
  | DownloadAttachment _ _ => Download
  | _ => ToolText
  end.

(** The handler registered for each tool. *)
Definition server (i : Invocation) : Tool (result_type i) :=
  match i as i0 return Tool (result_type i0) with
  | SendEmail a => send_email a
  | ReadEmail messageId => read_email messageId
  | SearchEmails query maxResults => search_emails query maxResults
  | DeleteEmail messageId => delete_email messageId
  | TrashEmail messageId => trash_email messageId
  | ModifyEmail messageId addLabels removeLabels =>
      modify_email messageId addLabels removeLabels
  | ListAttachments messageId => list_attachments messageId
  | DownloadAttachment messageId attachmentId =>
      download_attachment messageId attachmentId
  | CreateDraft a => create_draft a
  | ListDrafts maxResults => list_drafts maxResults
  | SendDraft draftId => send_draft draftId
  | DeleteDraft draftId => delete_draft draftId
  | ListLabels => list_labels
  | CreateLabel name messageListVisibility labelListVisibility =>
      create_label name messageListVisibility labelListVisibility
  | UpdateLabel labelId name messageListVisibility labelListVisibility =>
      update_label labelId name messageListVisibility labelListVisibility
  | DeleteLabel labelId => delete_label labelId
  | BatchModifyEmails messageIds addLabels removeLabels =>
      batch_modify_emails messageIds addLabels removeLabels
  | BatchDeleteEmails messageIds => batch_delete_emails messageIds
  | ListFilters => list_filters
  | CreateFilter a => create_filter a
  | DeleteFilter filterId => delete_filter filterId
  | GetThread threadId => get_thread threadId
  | ReplyToEmail messageId body htmlBody replyAll =>
      reply_to_email messageId body htmlBody replyAll
  end.

End Handlers.

(** ** Further notions *)

(** A character of the URL-safe base64 alphabet. *)
Definition is_base64url_char (c : ascii) : bool :=
  existsb (Ascii.eqb c)
    (list_ascii_of_string
       "ABCDEFGHIJKLMNOPQRSTUVWXYZabcdefghijklmnopqrstuvwxyz0123456789-_").

(** The test of [getHeader]: the header has a name, and it is the name
    looked up once both are in lower case. *)
Definition names_header (name : string) (h : Header) : bool :=
  match h_name h with
  | Some n => (toLowerCase n =? toLowerCase name)%string
  | None => false
  end.

(** The attachments found in a list of parts, in depth-first order: each
    part before its sub-parts, the parts in array order. *)
Fixpoint attachments_in (part : Part) : list Handlers.AttachmentInfo :=
  (if Handlers.is_attachment part then [Handlers.attachment_info part] else [])
    ++ match part with
       | mkPart _ _ _ (Some parts) => flat_map attachments_in parts
       | mkPart _ _ _ None => []
       end.

(** The number of parts of a tree of parts. *)
Fixpoint part_count (part : Part) : nat :=
  1 + match part with
      | mkPart _ _ _ (Some parts) => list_sum (map part_count parts)
      | mkPart _ _ _ None => 0
      end.

(** Two parts that agree on what is at their own level, their type and
    their body, whatever lies below them. *)
Definition same_top_level (p p' : Part) : Prop :=
  part_mimeType p = part_mimeType p' /\ part_body p = part_body p'.

(** A message as the provider delivers it, its text in [data]. *)
Definition delivered (parts : option (list Part)) (body : option PartBody) : Message :=
  mkMessage "m1" "t1" None None (Some (mkPayload None parts body)).

(** An attachment whose file name, type and content hold no line break. *)
Definition single_line_attachment (att : Attachment) : bool :=
  single_line (att_filename att) && single_line (att_mimeType att)
  && single_line (att_content att).

(** ** Reading a multipart message back

    What [buildRawEmail] returns is read by the provider, not by this
    repository.  The properties about the parts of the message sent are
    stated on the reading of the message-format standard: the text is a
    sequence of lines that end in CRLF; the header block ends at the first
    empty line; in a multipart body a part begins after a delimiter line
    (two hyphens and the boundary, then blanks at most) and the last part
    ends at the close delimiter (the same with two more hyphens). *)

(** The lines of a text, [line] being the line read so far. *)
Fixpoint split_lines (line s : string) : list string :=
  match s with
  | "" => [line]
  | String c r =>
      match r with
      | String d r' =>
          if Ascii.eqb c CR && Ascii.eqb d LF then line :: split_lines "" r'
          else split_lines (line +++ String c "") r
      | "" => [line +++ String c ""]
      end
  end.

Definition lines_of (text : string) : list string := split_lines "" text.

(** The lines before the first empty line, and the lines after it. *)
Fixpoint header_block (lines : list string) : list string :=
  match lines with
  | [] => []
  | l :: r => if (l =? "")%string then [] else l :: header_block r
  end.

Fixpoint body_of (lines : list string) : list string :=
  match lines with
  | [] => []
  | l :: r => if (l =? "")%string then r else body_of r
  end.

(** Spaces and tabs only. *)
Definition blank (s : string) : bool :=
  forallb (fun c => Ascii.eqb c " " || Ascii.eqb c "009") (list_ascii_of_string s).

Definition is_delimiter (boundary line : string) : bool :=
  match strip_prefix ("--" +++ boundary) line with
  | Some rest => blank rest
  | None => false
  end.

Definition is_close_delimiter (boundary line : string) : bool :=
  match strip_prefix ("--" +++ boundary +++ "--") line with
  | Some rest => blank rest
  | None => false
  end.

(** The parts of a multipart body; [part] is the part being read, [None]
    before the first delimiter line. *)
Fixpoint parts_from (boundary : string) (part : option (list string))
    (lines : list string) : list (list string) :=
  match lines with
  | [] => match part with Some p => [p] | None => [] end
  | l :: r =>
      if is_close_delimiter boundary l then
        match part with Some p => [p] | None => [] end
      else if is_delimiter boundary l then
        match part with
        | Some p => p :: parts_from boundary (Some []) r
        | None => parts_from boundary (Some []) r
        end
      else parts_from boundary (option_map (fun p => p ++ [l]) part) r
  end.

Definition multipart_parts (boundary : string) (lines : list string)
    : list (list string) :=
  parts_from boundary None lines.

(** The message the provider receives from each encoder, as lines. *)
Definition received_lines (now1 now2 : Z) (o : EmailOptions) : list string :=
  lines_of (decodeBase64Url (buildRawEmail now1 now2 o)).


(** A line that is neither a delimiter nor a close delimiter. *)
Definition no_delimiter (boundary line : string) : Prop :=
  is_delimiter boundary line = false /\ is_close_delimiter boundary line = false.




(** ** Message bodies in the provider's answers *)

(** A part body, a part, a payload and a message without their [data]. *)
Definition erase_data (b : PartBody) : PartBody :=
  {| pb_data := None; pb_attachmentId := pb_attachmentId b; pb_size := pb_size b |}.

Fixpoint erase_part (p : Part) : Part :=
  match p with
  | mkPart mimeType filename body parts =>
      mkPart mimeType filename (option_map erase_data body)
        (match parts with
         | Some l => Some (map erase_part l)
         | None => None
         end)
  end.

Definition erase_payload (p : Payload) : Payload :=
  {| pl_headers := pl_headers p;
     pl_parts := option_map (map erase_part) (pl_parts p);
     pl_body := option_map erase_data (pl_body p) |}.

Definition erase_message (m : Message) : Message :=
  {| msg_id := msg_id m;
     msg_threadId := msg_threadId m;
     msg_snippet := msg_snippet m;
     msg_labelIds := msg_labelIds m;
     msg_payload := option_map erase_payload (msg_payload m) |}.

Definition erase_draft (d : Tools.Draft) : Tools.Draft :=
  {| Tools.draft_id := Tools.draft_id d;
     Tools.draft_message := option_map erase_message (Tools.draft_message d) |}.

(** An answer of the provider without the body data of the messages it
    holds. *)
Definition without_bodies {X : Type} (e : Tools.Event X) : X -> X :=
  match e in Tools.Event X return X -> X with
  | Tools.MessagesGet _ _ _ => erase_message
  | Tools.MessagesTrash _ => erase_message
  | Tools.MessagesModify _ _ _ => erase_message
  | Tools.ThreadsGet _ _ =>
      fun t => Tools.mkThread (option_map (map erase_message) (Tools.thread_messages t))
  | Tools.DraftsCreate _ => erase_draft
  | Tools.DraftsGet _ _ => erase_draft
  | Tools.DraftsList _ =>
      fun l => Tools.mkDraftList (option_map (map erase_draft) (Tools.list_drafts_of l))
  | _ => fun x => x
  end.

(** The provider that answers as [provider] does, every message body
    withheld. *)
Definition bodyless {S : Type} (provider : Tools.Provider S) : Tools.Provider S :=
  fun X e s =>
    match provider X e s with
    | (inr x, s') => (inr (without_bodies e x), s')
    | (inl err, s') => (inl err, s')
    end.

(** The tools whose result holds the body of a message. *)
Definition returns_body (i : Handlers.Invocation) : bool :=
  match i with
  | Handlers.ReadEmail _ | Handlers.GetThread _ => true
  | _ => false
  end.

(** ** Texts and names *)

(** Well-formed UTF-8, by the table of byte sequences of the Unicode
    standard: the byte strings that are the encoding of a JavaScript
    string without unpaired surrogate. *)
Definition byte_in (lo hi : N) (c : ascii) : bool :=
  ((lo <=? N_of_ascii c) && (N_of_ascii c <=? hi))%N.

Fixpoint well_formed (s : string) : bool :=
  match s with
  | "" => true
  | String a r =>
      if byte_in 0 127 a then well_formed r
      else if byte_in 194 223 a then
        match r with
        | String b r => byte_in 128 191 b && well_formed r
        | _ => false
        end
      else if byte_in 224 239 a then
        match r with
        | String b (String c r) =>
            byte_in (if byte_in 224 224 a then 160 else 128)
              (if byte_in 237 237 a then 159 else 191) b
            && byte_in 128 191 c && well_formed r
        | _ => false
        end
      else if byte_in 240 244 a then
        match r with
        | String b (String c (String d r)) =>
            byte_in (if byte_in 240 240 a then 144 else 128)
              (if byte_in 244 244 a then 143 else 191) b
            && byte_in 128 191 c && byte_in 128 191 d && well_formed r
        | _ => false
        end
      else false
  end.

(** A text of ASCII characters. *)
Definition is_ascii (s : string) : bool :=
  forallb (byte_in 0 127) (list_ascii_of_string s).

(** Two characters that are equal, or the capital and the small form of
    one of the letters A to Z; two texts that differ in this way only. *)
Definition same_letter (c d : ascii) : bool :=
  let m := N_of_ascii c in
  let n := N_of_ascii d in
  ((m =? n)
   || ((65 <=? m) && (m <=? 90) && (n =? m + 32))
   || ((65 <=? n) && (n <=? 90) && (m =? n + 32)))%N.

Fixpoint same_up_to_case (s t : string) : bool :=
  match s, t with
  | "", "" => true
  | String c s', String d t' => same_letter c d && same_up_to_case s' t'
  | _, _ => false
  end.

(** A header with an ASCII name (or none), and a header whose name is
    the one looked up, the case of the letters A to Z apart. *)
Definition ascii_name (h : Header) : bool :=
  match h_name h with Some n => is_ascii n | None => true end.

Definition has_name (name : string) (h : Header) : bool :=
  match h_name h with Some n => same_up_to_case n name | None => false end.

(** Two headers with the same value whose names differ in the case of
    the letters A to Z at most. *)
Definition same_header (h h' : Header) : Prop :=
  h_value h = h_value h'
  /\ match h_name h, h_name h' with
     | Some n, Some n' => same_up_to_case n n' = true
     | None, None => True
     | _, _ => False
     end.

(** ** Further inputs *)

Module MoreExamples.
Import Tools.

(** A provider without credentials: the client cannot be made. *)
Definition no_credentials : Provider unit :=
  fun X e s =>
    match e in Event X return (string + X) * unit with
    | GetGmailClient => (inl "Missing required credentials: client_id, client_secret, and refresh_token", s)
    | DateNow => (inr 0%Z, s)
    | MessagesList _ _ => (inr (mkMessageList None), s)
    | MessagesGet id _ _ => (inr (Examples.full_message id), s)
    | MessagesSend _ _ => (inr (mkCreated None), s)
    | MessagesBatchModify _ _ _ => (inr tt, s)
    | MessagesBatchDelete _ => (inr tt, s)
    | ThreadsGet _ _ => (inr (mkThread None), s)
    | FiltersCreate _ _ => (inr (mkCreated None), s)
    | MessagesDelete _ => (inr tt, s)
    | MessagesTrash id => (inr (Examples.full_message id), s)
    | MessagesModify id _ _ => (inr (Examples.full_message id), s)
    | AttachmentsGet _ _ => (inr (mkAttachmentData None None), s)
    | DraftsCreate _ => (inr (mkDraft None None), s)
    | DraftsList _ => (inr (mkDraftList None), s)
    | DraftsGet _ _ => (inr (mkDraft None None), s)
    | DraftsSend _ => (inr (mkCreated None), s)
    | DraftsDelete _ => (inr tt, s)
    | LabelsList => (inr (mkLabelList None), s)
    | LabelsCreate _ _ _ => (inr (mkLabel None None None None None), s)
    | LabelsUpdate _ _ => (inr (mkLabel None None None None None), s)
    | LabelsDelete _ => (inr tt, s)
    | FiltersList => (inr (mkFilterList None), s)
    | FiltersDelete _ => (inr tt, s)
    end.

Definition pdf_part : Part :=
  mkPart (Some "application/pdf") (Some "r.pdf")
    (Some (mkPartBody None (Some "att1") (Some 1200%Z))) None.

Definition image_part : Part :=
  mkPart None (Some "logo.png") (Some (mkPartBody None (Some "att2") None)) None.

(** A mixed message: a nested alternative group with an inline image
    below it, then a PDF. *)
Definition nested_parts : list Part :=
  [ mkPart (Some "multipart/related") None None
      (Some [ mkPart (Some "multipart/alternative") None None
                (Some [Examples.plain_part; Examples.html_part]);
              image_part ]);
    pdf_part ].

(** Every shorthand but [trash], with an explicit label of each kind. *)
Definition every_shorthand : FilterArgs :=
  mkFilterArgs None None None None (Some ["Label_1"]) (Some ["Label_2"]) None
    (Some true) (Some true) (Some true) (Some true) None.

Definition send_args : Handlers.SendArgs :=
  Handlers.mkSendArgs "a@b.com" "Hi" "hi there" None None None (Some "")
    (Some [mkAttachment "r.pdf" "application/pdf" "QUJD"]).

(** A provider that answers every fetch of a message with [m]. *)
Definition answering (m : Message) : Provider unit :=
  fun X e s =>
    match e in Event X return (string + X) * unit -> (string + X) * unit with
    | MessagesGet _ _ _ => fun _ => (inr m, s)
    | _ => fun answer => answer
    end (Examples.provider X e s).

Definition nested_message : Message :=
  mkMessage "m1" "t1" None None (Some (mkPayload None (Some nested_parts) None)).


Definition injected_both : EmailOptions :=
  mkEmailOptions ("a@b.com" +++ CRLF +++ CRLF +++ "ZXZpbA==") "Hi" "hi there"
    (Some "<p>hi there</p>") None None None None None None None.

(** A payload with an empty [parts] array and a top-level body. *)
Definition empty_parts_payload : Payload :=
  mkPayload None (Some []) (Some (mkPartBody (Some "aGkgdGhlcmU") None None)).

Definition empty_parts_with_data : Message :=
  mkMessage "m1" "t1" None None (Some empty_parts_payload).

(** An environment without refresh token. *)
Definition webhook_env_without_token : Webhook.Env :=
  {| Webhook.GMAIL_CLIENT_ID := Some "id";
     Webhook.GMAIL_CLIENT_SECRET := Some "secret";
     Webhook.GMAIL_REFRESH_TOKEN := None;
     Webhook.GMAIL_REDIRECT_URI := None;
     Webhook.WEBHOOK_SECRET := Some "s3cret" |}.



(** Both bodies and an attachment whose content spells a delimiter line. *)
Definition both_bodies_with_attachment : EmailOptions :=
  mkEmailOptions "a@b.com" "Hi" "hi there" (Some "<p>hi there</p>")
    None None None None None None
    (Some [mkAttachment "r.pdf" "application/pdf" "--boundary_1700000000000"]).


End MoreExamples.

(* ====================================================================== *)
(** * Part II. Properties                                                  *)
(* ====================================================================== *)

(** ** Strings *)

Section StringFacts.

Lemma append_empty_r (s : string) : s +++ "" = s.
Proof. induction s as [|c s IH]; simpl; [reflexivity | now rewrite IH]. Qed.

Lemma append_assoc (s t u : string) : (s +++ t) +++ u = s +++ t +++ u.
Proof. induction s as [|c s IH]; simpl; [reflexivity | now rewrite IH]. Qed.

Lemma string_of_list_ascii_app (l1 l2 : list ascii) :
  string_of_list_ascii (l1 ++ l2) = string_of_list_ascii l1 +++ string_of_list_ascii l2.
Proof. induction l1 as [|c l IH]; simpl; [reflexivity | now rewrite IH]. Qed.

Lemma replace_char_app (a b : ascii) (s t : string) :
  replace_char a b (s +++ t) = replace_char a b s +++ replace_char a b t.
Proof. induction s as [|c s IH]; simpl; [reflexivity | now rewrite IH]. Qed.

Lemma replace_char_of_list (a b : ascii) (l : list ascii) :
  replace_char a b (string_of_list_ascii l)
  = string_of_list_ascii (map (fun c => if Ascii.eqb c a then b else c) l).
Proof. induction l as [|c l IH]; simpl; [reflexivity | now rewrite IH]. Qed.

(** Induction on a string three characters at a time. *)
Lemma string_ind3 (P : string -> Prop) :
  P "" ->
  (forall a, P (String a "")) ->
  (forall a b, P (String a (String b ""))) ->
  (forall a b c r, P r -> P (String a (String b (String c r)))) ->
  forall s, P s.
Proof.
  intros H0 H1 H2 H3 s.
  assert (H : P s /\ (forall a, P (String a s)) /\ (forall a b, P (String a (String b s)))).
  { induction s as [|c r [IH0 [IH1 IH2]]].
    - repeat split; auto.
    - repeat split; auto. }
  exact (proj1 H).
Qed.

(** A trailing run of [a] is dropped, and nothing else, when the text
    before it has no [a]. *)
Lemma strip_trailing_run (a : ascii) (x p : string) :
  (forall c, In c (list_ascii_of_string x) -> c <> a) ->
  (forall c, In c (list_ascii_of_string p) -> c = a) ->
  strip_trailing a (x +++ p) = x.
Proof.
  intros Hx Hp. induction x as [|c x IH]; simpl.
  - induction p as [|c p IHp]; simpl; [reflexivity|].
    rewrite IHp by (intros d Hd; apply Hp; now right).
    rewrite (Hp c) by now left. now rewrite Ascii.eqb_refl.
  - rewrite IH by (intros d Hd; apply Hx; now right).
    assert (Hc : Ascii.eqb c a = false).
    { apply Ascii.eqb_neq. apply Hx. now left. }
    destruct x; [now rewrite Hc | reflexivity].
Qed.

End StringFacts.

(** ** Base64 *)

Module Base64Facts.
Import Buffer.

Local Open Scope N_scope.

Ltac Zify.zify_post_hook ::= Z.to_euclidean_division_equations.

(** A check over the 64 six-bit values holds of each of them. *)
Lemma forall_sextet (f : N -> bool) :
  forallb f (map N.of_nat (seq 0 64)) = true ->
  forall n, n < 64 -> f n = true.
Proof.
  intros H n Hn. rewrite forallb_forall in H. apply H.
  rewrite <- (N2Nat.id n). apply in_map. apply in_seq. lia.
Qed.

Lemma base64_char_not_pad n : n < 64 -> Ascii.eqb (base64_char n) "=" = false.
Proof.
  intros Hn.
  apply (forall_sextet (fun n => negb (Ascii.eqb (base64_char n) "="))) in Hn;
    [now apply negb_true_iff in Hn | vm_compute; reflexivity].
Qed.

Lemma unbase64_base64_char n : n < 64 -> unbase64 (base64_char n) = Some n.
Proof.
  intros Hn.
  apply (forall_sextet
           (fun n => match unbase64 (base64_char n) with
                     | Some m => m =? n
                     | None => false
                     end)) in Hn; [| vm_compute; reflexivity].
  destruct (unbase64 (base64_char n)); [| discriminate].
  apply N.eqb_eq in Hn. now subst.
Qed.

Lemma to_url_not_pad n : n < 64 -> Ascii.eqb (to_url (base64_char n)) "=" = false.
Proof.
  intros Hn.
  apply (forall_sextet (fun n => negb (Ascii.eqb (to_url (base64_char n)) "="))) in Hn;
    [now apply negb_true_iff in Hn | vm_compute; reflexivity].
Qed.

Lemma of_url_to_url n : n < 64 -> of_url (to_url (base64_char n)) = base64_char n.
Proof.
  intros Hn.
  apply (forall_sextet
           (fun n => Ascii.eqb (of_url (to_url (base64_char n))) (base64_char n))) in Hn;
    [now apply Ascii.eqb_eq in Hn | vm_compute; reflexivity].
Qed.

(** The six-bit values of any bytes are below 64. *)
Lemma sextets_of_bytes_bound (s : string) :
  Forall (fun n => n < 64) (sextets_of_bytes s).
Proof.
  induction s as [| a | a b | a b c r IH] using string_ind3; simpl.
  - constructor.
  - pose proof (N_ascii_bounded a).
    repeat constructor; lia.
  - pose proof (N_ascii_bounded a). pose proof (N_ascii_bounded b).
    repeat constructor; lia.
  - pose proof (N_ascii_bounded a). pose proof (N_ascii_bounded b).
    pose proof (N_ascii_bounded c).
    repeat (constructor; [lia|]). exact IH.
Qed.

(** Regrouping six-bit values into bytes undoes the split. *)
Lemma bytes_of_sextets_of_bytes (s : string) :
  bytes_of_sextets (sextets_of_bytes s) = s.
Proof.
  induction s as [| a | a b | a b c r IH] using string_ind3.
  - reflexivity.
  - cbn [sextets_of_bytes bytes_of_sextets].
    pose proof (N_ascii_bounded a).
    replace (N_of_ascii a / 4 * 4 + N_of_ascii a mod 4 * 16 / 16) with (N_of_ascii a) by lia.
    now rewrite ascii_N_embedding.
  - cbn [sextets_of_bytes bytes_of_sextets].
    pose proof (N_ascii_bounded a). pose proof (N_ascii_bounded b).
    replace (N_of_ascii a / 4 * 4 + (N_of_ascii a mod 4 * 16 + N_of_ascii b / 16) / 16)
      with (N_of_ascii a) by lia.
    replace ((N_of_ascii a mod 4 * 16 + N_of_ascii b / 16) mod 16 * 16
             + N_of_ascii b mod 16 * 4 / 4)
      with (N_of_ascii b) by lia.
    now rewrite !ascii_N_embedding.
  - cbn [sextets_of_bytes bytes_of_sextets].
    pose proof (N_ascii_bounded a). pose proof (N_ascii_bounded b).
    pose proof (N_ascii_bounded c).
    replace (N_of_ascii a / 4 * 4 + (N_of_ascii a mod 4 * 16 + N_of_ascii b / 16) / 16)
      with (N_of_ascii a) by lia.
    replace ((N_of_ascii a mod 4 * 16 + N_of_ascii b / 16) mod 16 * 16
             + (N_of_ascii b mod 16 * 4 + N_of_ascii c / 64) / 4)
      with (N_of_ascii b) by lia.
    replace ((N_of_ascii b mod 16 * 4 + N_of_ascii c / 64) mod 4 * 64 + N_of_ascii c mod 64)
      with (N_of_ascii c) by lia.
    now rewrite !ascii_N_embedding, IH.
Qed.

Lemma of_url_base64_char n : n < 64 -> of_url (base64_char n) = base64_char n.
Proof.
  intros Hn.
  apply (forall_sextet
           (fun n => Ascii.eqb (of_url (base64_char n)) (base64_char n))) in Hn;
    [now apply Ascii.eqb_eq in Hn | vm_compute; reflexivity].
Qed.

(** The decoder reads back the six-bit values of encoded characters. *)
Lemma sextets_of_text_chars (l : list N) (t : string) :
  Forall (fun n => n < 64) l ->
  sextets_of_text (string_of_list_ascii (map base64_char l) +++ t)
  = (l ++ sextets_of_text t)%list.
Proof.
  induction 1 as [|n l Hn _ IH]; simpl; [reflexivity|].
  now rewrite (base64_char_not_pad n Hn), (unbase64_base64_char n Hn), IH.
Qed.

Lemma padding_cases (len : nat) :
  padding len = "" \/ padding len = "=" \/ padding len = "==".
Proof.
  unfold padding. destruct (len mod 3)%nat as [|[|[|k]]]; auto.
Qed.

Lemma sextets_of_text_padding (len : nat) : sextets_of_text (padding len) = [].
Proof. destruct (padding_cases len) as [H|[H|H]]; now rewrite H. Qed.

Lemma padding_only_pad (len : nat) (c : ascii) :
  In c (list_ascii_of_string (padding len)) -> c = "="%char.
Proof.
  destruct (padding_cases len) as [H|[H|H]]; rewrite H; simpl; intuition.
Qed.

Lemma replace_char_padding (a b : ascii) (len : nat) :
  Ascii.eqb "=" a = false -> replace_char a b (padding len) = padding len.
Proof.
  intros Ha.
  destruct (padding_cases len) as [H|[H|H]]; rewrite H; cbn [replace_char];
    now rewrite ?Ha.
Qed.

(** [Buffer.from(buf.toString('base64'), 'base64')] is [buf]. *)
Lemma from_base64_toString_base64 (buf : string) :
  from_base64 (toString_base64 buf) = buf.
Proof.
  unfold from_base64, toString_base64.
  rewrite sextets_of_text_chars by apply sextets_of_bytes_bound.
  now rewrite sextets_of_text_padding, app_nil_r, bytes_of_sextets_of_bytes.
Qed.

(** The text of [toString('base64')] has no character that the decoder's
    two replacements touch. *)
Lemma of_url_toString_base64 (buf : string) :
  replace_char "_" "/" (replace_char "-" "+" (toString_base64 buf))
  = toString_base64 buf.
Proof.
  unfold toString_base64.
  rewrite !replace_char_app, !replace_char_padding by reflexivity.
  f_equal. rewrite !replace_char_of_list, !map_map. f_equal.
  apply map_ext_in. intros n Hn.
  apply (of_url_base64_char n).
  pose proof (sextets_of_bytes_bound buf) as Hb.
  rewrite Forall_forall in Hb. now apply Hb.
Qed.

End Base64Facts.

(** ** The two helpers are inverse to each other *)

Section Base64Url.
Import Buffer Base64Facts.

(** [encodeBase64Url] written out: the URL-safe characters of the
    six-bit values, without padding. *)
Lemma encodeBase64Url_chars (data : string) :
  encodeBase64Url data
  = string_of_list_ascii (map (fun n => to_url (base64_char n)) (sextets_of_bytes data)).
Proof.
  unfold encodeBase64Url, Buffer.from, toString_base64.
  rewrite !replace_char_app, !replace_char_padding by reflexivity.
  rewrite !replace_char_of_list, !map_map.
  apply strip_trailing_run.
  - intros c Hc. rewrite list_ascii_of_string_of_list_ascii in Hc.
    apply in_map_iff in Hc. destruct Hc as [n [<- Hn]].
    pose proof (sextets_of_bytes_bound data) as Hb.
    rewrite Forall_forall in Hb. specialize (Hb n Hn).
    apply Ascii.eqb_neq. exact (to_url_not_pad n Hb).
  - apply padding_only_pad.
Qed.

Theorem decodeBase64Url_encodeBase64Url (data : string) :
  decodeBase64Url (encodeBase64Url data) = data.
Proof.
  rewrite encodeBase64Url_chars.
  unfold decodeBase64Url, toString_utf8, from_base64.
  rewrite !replace_char_of_list, !map_map.
  rewrite (map_ext_in _ base64_char).
  - rewrite <- (append_empty_r (string_of_list_ascii _)).
    rewrite sextets_of_text_chars by apply sextets_of_bytes_bound.
    simpl. now rewrite app_nil_r, bytes_of_sextets_of_bytes.
  - intros n Hn.
    pose proof (sextets_of_bytes_bound data) as Hb.
    rewrite Forall_forall in Hb.
    exact (of_url_to_url n (Hb n Hn)).
Qed.

(** The decoder also reads the standard, padded form. *)
Theorem decodeBase64Url_base64 (data : string) :
  decodeBase64Url (base64_of data) = data.
Proof.
  unfold decodeBase64Url, base64_of, Buffer.from, toString_utf8.
  now rewrite of_url_toString_base64, from_base64_toString_base64.
Qed.

End Base64Url.

(** ** The shape of the encoder's output *)

Section EncoderShape.

Lemma fold_push_attachment (boundary : string) (atts : list Attachment)
    (lines : list string) :
  fold_left (push_attachment boundary) atts lines
  = lines ++ flat_map (fun att => ("--" +++ boundary) :: attachment_part att) atts.
Proof.
  revert lines. induction atts as [|att atts IH]; intros lines; simpl.
  - now rewrite app_nil_r.
  - rewrite IH. unfold push_attachment, push, attachment_part.
    now rewrite <- !app_assoc.
Qed.

Lemma flat_map_map {A B C} (f : B -> list C) (g : A -> B) (l : list A) :
  flat_map f (map g l) = flat_map (fun a => f (g a)) l.
Proof. induction l as [|a l IH]; simpl; [reflexivity | now rewrite IH]. Qed.

Lemma email_lines_shape (now1 now2 : Z) (o : EmailOptions) :
  email_lines now1 now2 o = header_lines o ++ body_structure now1 now2 o.
Proof.
  unfold email_lines, header_lines, body_structure, multipart, alternative_group,
    multipart, push.
  rewrite fold_push_attachment.
  cbn [flat_map]. rewrite flat_map_map.
  destruct (truthy_opt (opt_from o)), (nonempty_arr (opt_cc o)),
    (nonempty_arr (opt_bcc o)), (truthy_opt (opt_inReplyTo o)),
    (truthy_opt (opt_references o)), (nonempty_arr (opt_attachments o)),
    (truthy_opt (opt_htmlBody o));
    cbn [app flat_map]; rewrite <- ?app_assoc; cbn [app]; reflexivity.
Qed.

End EncoderShape.

(** ** Single-line texts and base64 texts *)

Section LineFacts.
Import Buffer Base64Facts.

Lemma list_ascii_of_string_app (s t : string) :
  list_ascii_of_string (s +++ t) = list_ascii_of_string s ++ list_ascii_of_string t.
Proof. induction s as [|c s IH]; simpl; [reflexivity | now rewrite IH]. Qed.

(** What membership in the alphabet excludes. *)
Lemma is_base64_char_excludes (c : ascii) :
  is_base64_char c = true ->
  Ascii.eqb c CR = false /\ Ascii.eqb c LF = false /\ Ascii.eqb c "_" = false.
Proof.
  destruct c as [[] [] [] [] [] [] [] []]; intros H; cbv in H;
    try discriminate H; repeat split; reflexivity.
Qed.

Lemma toString_base64_text (buf : string) : base64_text (toString_base64 buf) = true.
Proof.
  unfold base64_text, toString_base64.
  rewrite list_ascii_of_string_app, forallb_app, list_ascii_of_string_of_list_ascii.
  apply andb_true_intro; split.
  - apply forallb_forall. intros c Hc. apply in_map_iff in Hc.
    destruct Hc as [n [<- Hn]].
    pose proof (sextets_of_bytes_bound buf) as Hb.
    rewrite Forall_forall in Hb. specialize (Hb n Hn).
    clear Hn. revert n Hb.
    apply (forall_sextet (fun n => is_base64_char (base64_char n))).
    vm_compute. reflexivity.
  - destruct (padding_cases (String.length buf)) as [H|[H|H]]; rewrite H; reflexivity.
Qed.

Lemma base64_text_single_line (s : string) : base64_text s = true -> single_line s = true.
Proof.
  unfold base64_text, single_line. rewrite !forallb_forall.
  intros H c Hc. destruct (is_base64_char_excludes c (H c Hc)) as [H1 [H2 _]].
  now rewrite H1, H2.
Qed.

Lemma single_line_app (s t : string) :
  single_line (s +++ t) = single_line s && single_line t.
Proof. unfold single_line. now rewrite list_ascii_of_string_app, forallb_app. Qed.

Lemma single_line_join (sep : string) (l : list string) :
  single_line sep = true -> forallb single_line l = true ->
  single_line (join sep l) = true.
Proof.
  intros Hsep. induction l as [|x l IH]; simpl; [reflexivity|].
  intros H. apply andb_prop in H. destruct H as [Hx Hl].
  destruct l as [|y l]; [exact Hx|].
  rewrite !single_line_app, Hx, Hsep. exact (IH Hl).
Qed.

(** Every line of the header block is a non-empty single line when the
    copied fields are single lines. *)
Lemma header_lines_single_line (o : EmailOptions) :
  single_line_headers o = true ->
  Forall (fun l => single_line l = true /\ l <> "") (header_lines o).
Proof.
  unfold single_line_headers, header_lines. intros H.
  rewrite !andb_true_iff in H.
  destruct H as [[[[[Hto Hfrom] Hcc] Hbcc] Hirt] Href].
  assert (Hopt : forall (name : string) (v : option string),
             single_line name = true -> name <> "" -> single_line_opt v = true ->
             Forall (fun l => single_line l = true /\ l <> "")
               (if truthy_opt v then [name +++ str_of v] else [])).
  { intros name v Hname Hne Hv. destruct (truthy_opt v); [| constructor].
    repeat constructor.
    - rewrite single_line_app, Hname. destruct v; [exact Hv | reflexivity].
    - destruct name; [contradiction | discriminate]. }
  assert (Harr : forall (name : string) (v : option (list string)),
             single_line name = true -> name <> "" ->
             forallb single_line (arr_or_empty v) = true ->
             Forall (fun l => single_line l = true /\ l <> "")
               (if nonempty_arr v then [name +++ join ", " (arr_or_empty v)] else [])).
  { intros name v Hname Hne Hv. destruct (nonempty_arr v); [| constructor].
    repeat constructor.
    - rewrite single_line_app, Hname. now apply single_line_join.
    - destruct name; [contradiction | discriminate]. }
  repeat rewrite Forall_app. repeat split.
  - repeat constructor; [now rewrite single_line_app, Hto | discriminate].
  - apply Hopt; [reflexivity | discriminate | exact Hfrom].
  - apply Harr; [reflexivity | discriminate | exact Hcc].
  - apply Harr; [reflexivity | discriminate | exact Hbcc].
  - repeat constructor; [| discriminate].
    rewrite !single_line_app. apply andb_true_intro; split; [reflexivity|].
    apply andb_true_intro; split; [| reflexivity].
    apply base64_text_single_line, toString_base64_text.
  - apply Hopt; [reflexivity | discriminate | exact Hirt].
  - apply Hopt; [reflexivity | discriminate | exact Href].
  - repeat constructor. discriminate.
Qed.

End LineFacts.

(** ** Round trip of a plain-text message *)

Section RoundTrip.
Import Buffer Base64Facts.

Lemma single_line_head (c : ascii) (s : string) :
  single_line (String c s) = true -> Ascii.eqb CR c = false /\ single_line s = true.
Proof.
  unfold single_line. cbn [list_ascii_of_string forallb].
  rewrite !andb_true_iff, !negb_true_iff. intros [[H1 _] H2].
  split; [now rewrite Ascii.eqb_sym | exact H2].
Qed.

(** The scan passes over a line that has no carriage return. *)
Lemma body_section_skip_line (l t : string) :
  single_line l = true -> body_section (l +++ t) = body_section t.
Proof.
  induction l as [|c l IH]; intros Hl; [reflexivity|].
  apply single_line_head in Hl. destruct Hl as [Hc Hl].
  cbn [String.append body_section strip_prefix CRLF]. rewrite Hc. exact (IH Hl).
Qed.

(** A line break before a non-empty line is not the end of the header
    block. *)
Lemma body_section_skip_break (l t : string) :
  single_line l = true -> l <> "" ->
  body_section (CRLF +++ l +++ t) = body_section (l +++ t).
Proof.
  intros Hl Hne. destruct l as [|c l]; [contradiction|].
  apply single_line_head in Hl. destruct Hl as [Hc _].
  cbn [String.append body_section strip_prefix CRLF].
  rewrite Hc. reflexivity.
Qed.

Lemma body_section_blank (c : string) : body_section (CRLF +++ CRLF +++ c) = Some c.
Proof. reflexivity. Qed.

Lemma join_cons2 (sep x y : string) (l : list string) :
  join sep (x :: y :: l) = x +++ sep +++ join sep (y :: l).
Proof. reflexivity. Qed.

(** After header lines that are non-empty single lines, the body
    section of the joined text is what follows the empty line. *)
Lemma body_section_join (hs : list string) (c : string) :
  hs <> [] ->
  Forall (fun l => single_line l = true /\ l <> "") hs ->
  body_section (join CRLF (hs ++ [""; c])) = Some c.
Proof.
  induction hs as [|l hs IH]; intros Hne H; [contradiction|].
  inversion H as [|? ? [Hl _] Hhs]; subst.
  destruct hs as [|l2 rest].
  - cbn [app]. rewrite !join_cons2. cbn [join String.concat].
    rewrite body_section_skip_line by exact Hl.
    cbn [String.append]. apply body_section_blank.
  - cbn [app] in *. rewrite join_cons2.
    rewrite body_section_skip_line by exact Hl.
    inversion Hhs as [|? ? [Hl2 Hne2] _]; subst.
    destruct (rest ++ [""; c]) as [|y ys] eqn:E.
    + destruct rest; discriminate E.
    + rewrite join_cons2, body_section_skip_break by assumption.
      rewrite <- join_cons2. apply IH; [discriminate | exact Hhs].
Qed.

(** The decoder applied to a payload body that holds base64 text. *)
Lemma body_data_base64 (s : string) :
  body_data (Some (mkPartBody (Some (base64_of s)) None None)) = s.
Proof.
  unfold body_data, decode_data. cbn [pb_data].
  destruct (truthy (base64_of s)) eqn:E.
  - apply decodeBase64Url_base64.
  - unfold truthy in E. apply negb_false_iff, String.eqb_eq in E.
    rewrite <- (decodeBase64Url_base64 s), E. reflexivity.
Qed.

End RoundTrip.

(** ** Boundary tokens and content lines *)

Section Boundaries.
Import Buffer Base64Facts.

Lemma strip_prefix_chars (p s r : string) (c : ascii) :
  strip_prefix p s = Some r ->
  In c (list_ascii_of_string p) -> In c (list_ascii_of_string s).
Proof.
  revert s. induction p as [|a p IH]; intros s H Hc; [contradiction|].
  destruct s as [|b s]; [discriminate|]. cbn [strip_prefix] in H.
  destruct (Ascii.eqb a b) eqn:E; [| discriminate].
  apply Ascii.eqb_eq in E. subst b.
  destruct Hc as [-> | Hc]; [now left | right; now apply IH].
Qed.

(** A text that includes another holds each of its characters. *)
Lemma includes_chars (s t : string) (c : ascii) :
  includes s t = true ->
  In c (list_ascii_of_string t) -> In c (list_ascii_of_string s).
Proof.
  intros H Hc. induction s as [|a s IH].
  - cbn [includes] in H. rewrite orb_false_r in H. unfold startsWith in H.
    destruct (strip_prefix t "") eqn:E; [| discriminate].
    exact (strip_prefix_chars _ _ _ _ E Hc).
  - cbn [includes] in H. apply orb_prop in H. destruct H as [H | H].
    + unfold startsWith in H.
      destruct (strip_prefix t (String a s)) eqn:E; [| discriminate].
      exact (strip_prefix_chars _ _ _ _ E Hc).
    + right. exact (IH H).
Qed.

Lemma base64_text_no_underscore (s : string) :
  base64_text s = true -> ~ In "_"%char (list_ascii_of_string s).
Proof.
  unfold base64_text. rewrite forallb_forall. intros H Hin.
  destruct (is_base64_char_excludes _ (H _ Hin)) as [_ [_ E]].
  discriminate E.
Qed.

(** A base64 text includes no token: every token has an underscore. *)
Lemma base64_text_token_free (now1 now2 : Z) (line : string) :
  base64_text line = true -> token_free now1 now2 line.
Proof.
  intros H. pose proof (base64_text_no_underscore line H) as Hno.
  split.
  - destruct (includes line (boundary_of now1)) eqn:E; [| reflexivity].
    exfalso. apply Hno. apply (includes_chars _ _ _ E).
    unfold boundary_of. rewrite list_ascii_of_string_app.
    apply in_or_app. left. cbn. tauto.
  - destruct (includes line (altBoundary_of now2)) eqn:E; [| reflexivity].
    exfalso. apply Hno. apply (includes_chars _ _ _ E).
    unfold altBoundary_of. rewrite list_ascii_of_string_app.
    apply in_or_app. left. cbn. tauto.
Qed.

Lemma boundary_not_altBoundary (now1 now2 : Z) :
  boundary_of now1 <> altBoundary_of now2.
Proof. unfold boundary_of, altBoundary_of. cbn [String.append]. discriminate. Qed.

Lemma body_lines_base64 (o : EmailOptions) (line : string) :
  In line (body_lines o) -> base64_text line = true.
Proof.
  unfold body_lines. intros [<- | H]; [apply toString_base64_text|].
  destruct (truthy_opt (opt_htmlBody o)); [| contradiction].
  destruct H as [<- | []]. apply toString_base64_text.
Qed.

End Boundaries.

(** ** The decoder's choice of part *)

Section Decoder.

Lemma find_first {A} (f : A -> bool) (pre post : list A) (x : A) :
  f x = true -> (forall y, In y pre -> f y = false) ->
  find f (pre ++ x :: post) = Some x.
Proof.
  intros Hx Hpre. induction pre as [|y pre IH]; cbn [app find].
  - now rewrite Hx.
  - rewrite (Hpre y) by now left. apply IH. intros z Hz. apply Hpre. now right.
Qed.

Lemma find_absent {A} (f : A -> bool) (l : list A) :
  (forall y, In y l -> f y = false) -> find f l = None.
Proof.
  intros H. induction l as [|y l IH]; cbn [find]; [reflexivity|].
  rewrite (H y) by now left. apply IH. intros z Hz. apply H. now right.
Qed.

Lemma no_data_body_data (body : option PartBody) : no_data body -> body_data body = "".
Proof.
  unfold no_data, body_data, decode_data. destruct body as [b|]; [| reflexivity].
  intros [-> | ->]; reflexivity.
Qed.

End Decoder.

(** ** Lines without line break *)

Section SingleLines.

Lemma string_of_uint_single_line (d : Decimal.uint) :
  single_line (NilEmpty.string_of_uint d) = true.
Proof. induction d; cbn [NilEmpty.string_of_uint]; try reflexivity; exact IHd. Qed.

Lemma Number_toString_single_line (z : Z) : single_line (Number_toString z) = true.
Proof.
  unfold Number_toString. destruct (Z.to_int z) as [d | d];
    cbn [NilEmpty.string_of_int]; [| change (single_line (String "-" ?s)) with (single_line s)];
    apply string_of_uint_single_line.
Qed.

Lemma quoted_single_line (s : string) : single_line s = true -> single_line (quoted s) = true.
Proof.
  intros H. unfold quoted.
  change (String DQ (s +++ String DQ "")) with (String DQ "" +++ s +++ String DQ "").
  now rewrite !single_line_app, H.
Qed.

Lemma boundary_single_line (now : Z) :
  single_line (boundary_of now) = true /\ single_line (altBoundary_of now) = true.
Proof.
  unfold boundary_of, altBoundary_of.
  now rewrite !single_line_app, Number_toString_single_line.
Qed.

Lemma text_part_single_line (subtype content : string) :
  single_line subtype = true -> forallb single_line (text_part subtype content) = true.
Proof.
  intros H. unfold text_part. cbn [forallb].
  rewrite !single_line_app, H.
  rewrite (base64_text_single_line _ (toString_base64_text _)). reflexivity.
Qed.

Lemma multipart_single_line (boundary : string) (parts : list (list string)) :
  single_line boundary = true ->
  forallb (forallb single_line) parts = true ->
  forallb single_line (multipart boundary parts) = true.
Proof.
  intros Hb H. unfold multipart. rewrite forallb_app.
  apply andb_true_intro; split.
  - induction parts as [|p ps IH]; [reflexivity|].
    cbn [forallb] in H. apply andb_prop in H. destruct H as [Hp Hps].
    cbn [flat_map]. change ((?x :: p) ++ ?l) with (x :: (p ++ l)).
    cbn [forallb]. rewrite forallb_app, single_line_app, Hb, Hp, (IH Hps). reflexivity.
  - cbn [forallb]. rewrite !single_line_app, Hb. reflexivity.
Qed.

Lemma alternative_group_single_line (boundary plain html : string) :
  single_line boundary = true ->
  forallb single_line (alternative_group boundary plain html) = true.
Proof.
  intros Hb. unfold alternative_group. rewrite forallb_app.
  apply andb_true_intro; split.
  - cbn [forallb]. rewrite single_line_app, (quoted_single_line _ Hb). reflexivity.
  - apply multipart_single_line; [exact Hb|].
    cbn [forallb]. now rewrite !text_part_single_line.
Qed.

Lemma attachment_part_single_line (att : Attachment) :
  single_line_attachment att = true ->
  forallb single_line (attachment_part att) = true.
Proof.
  unfold single_line_attachment. intros H.
  apply andb_prop in H. destruct H as [H Hc]. apply andb_prop in H. destruct H as [Hf Hm].
  unfold attachment_part. cbn [forallb].
  now rewrite !single_line_app, Hm, (quoted_single_line _ Hf), Hc.
Qed.

Lemma body_structure_single_line (now1 now2 : Z) (o : EmailOptions) :
  forallb single_line_attachment (arr_or_empty (opt_attachments o)) = true ->
  forallb single_line (body_structure now1 now2 o) = true.
Proof.
  intros Ha.
  destruct (boundary_single_line now1) as [Hb _].
  destruct (boundary_single_line now2) as [_ Halt].
  unfold body_structure.
  destruct (nonempty_arr (opt_attachments o)).
  - rewrite forallb_app. apply andb_true_intro; split.
    + cbn [forallb]. rewrite single_line_app, (quoted_single_line _ Hb). reflexivity.
    + apply multipart_single_line; [exact Hb|].
      cbn [forallb]. apply andb_true_intro; split.
      * destruct (truthy_opt (opt_htmlBody o));
          [now apply alternative_group_single_line | now apply text_part_single_line].
      * apply forallb_forall. intros p Hp. apply in_map_iff in Hp.
        destruct Hp as [att [<- Hatt]]. apply attachment_part_single_line.
        rewrite forallb_forall in Ha. exact (Ha att Hatt).
  - destruct (truthy_opt (opt_htmlBody o));
      [now apply alternative_group_single_line | now apply text_part_single_line].
Qed.

End SingleLines.

(** ** Reading lines, header block and parts *)

Section Reading.

Lemma single_line_cons (c : ascii) (s : string) :
  single_line (String c s) = true ->
  Ascii.eqb c CR = false /\ single_line s = true.
Proof.
  unfold single_line. cbn [list_ascii_of_string forallb].
  intros H. apply andb_prop in H. destruct H as [H1 H2].
  apply andb_prop in H1. destruct H1 as [H1 _].
  apply negb_true_iff in H1. now split.
Qed.

Lemma split_lines_step (c d : ascii) (r line : string) :
  Ascii.eqb c CR = false ->
  split_lines line (String c (String d r))
  = split_lines (line +++ String c "") (String d r).
Proof.
  intros H. change (split_lines line (String c (String d r)))
    with (if Ascii.eqb c CR && Ascii.eqb d LF then line :: split_lines "" r
          else split_lines (line +++ String c "") (String d r)).
  now rewrite H.
Qed.

Lemma split_lines_last (l line : string) :
  single_line l = true -> split_lines line l = [line +++ l].
Proof.
  revert line. induction l as [|c l IH]; intros line H.
  - cbn. now rewrite append_empty_r.
  - apply single_line_cons in H. destruct H as [Hc Hl].
    destruct l as [|d l'].
    + reflexivity.
    + rewrite (split_lines_step c d l' line Hc), (IH _ Hl).
      now rewrite append_assoc.
Qed.

(** The separator after a text ends a line, whatever the text. *)
Lemma split_lines_app (t p : string) :
  (forall line, split_lines line (p +++ CRLF +++ t) = split_lines line p ++ split_lines "" t)
  /\ (forall c line,
        split_lines line (String c p +++ CRLF +++ t)
        = split_lines line (String c p) ++ split_lines "" t).
Proof.
  induction p as [|d p [IH0 IH1]].
  - split; [reflexivity|].
    intros c line. cbn [String.append]. unfold CRLF at 1. cbn [String.append].
    change (split_lines line (String c (String CR (String LF t))))
      with (if Ascii.eqb c CR && Ascii.eqb CR LF then line :: split_lines "" (String LF t)
            else split_lines (line +++ String c "") (String CR (String LF t))).
    rewrite andb_false_r. reflexivity.
  - split; [exact (IH1 d)|].
    intros c line. cbn [String.append].
    change (split_lines line (String c (String d (p +++ CRLF +++ t))))
      with (if Ascii.eqb c CR && Ascii.eqb d LF
            then line :: split_lines "" (p +++ CRLF +++ t)
            else split_lines (line +++ String c "") (String d (p +++ CRLF +++ t))).
    change (split_lines line (String c (String d p)))
      with (if Ascii.eqb c CR && Ascii.eqb d LF
            then line :: split_lines "" p
            else split_lines (line +++ String c "") (String d p)).
    destruct (Ascii.eqb c CR && Ascii.eqb d LF).
    + now rewrite IH0.
    + exact (IH1 d (line +++ String c "")).
Qed.

(** The lines of a joined text are the lines of its pieces. *)
Lemma lines_of_join_pieces (lines : list string) :
  lines <> [] -> lines_of (join CRLF lines) = flat_map lines_of lines.
Proof.
  unfold lines_of, join. intros Hne.
  induction lines as [|l ls IH]; [contradiction|].
  destruct ls as [|l' ls'].
  - cbn. now rewrite app_nil_r.
  - change (String.concat CRLF (l :: l' :: ls'))
      with (l +++ CRLF +++ String.concat CRLF (l' :: ls')).
    rewrite (proj1 (split_lines_app _ l) ""), IH by discriminate. reflexivity.
Qed.

Lemma lines_of_single_line (l : string) : single_line l = true -> lines_of l = [l].
Proof. intros H. unfold lines_of. now rewrite split_lines_last. Qed.

Lemma lines_of_single_lines (lines : list string) :
  forallb single_line lines = true -> flat_map lines_of lines = lines.
Proof.
  induction lines as [|l ls IH]; [reflexivity|].
  cbn [forallb flat_map]. intros H. apply andb_prop in H. destruct H as [Hl Hls].
  now rewrite (lines_of_single_line l Hl), (IH Hls).
Qed.

Lemma lines_of_multipart (b : string) (parts : list (list string)) :
  single_line b = true ->
  flat_map lines_of (multipart b parts) = multipart b (map (flat_map lines_of) parts).
Proof.
  intros Hb. unfold multipart. rewrite flat_map_app.
  assert (Hd : lines_of ("--" +++ b) = ["--" +++ b])
    by (apply lines_of_single_line; now rewrite single_line_app, Hb).
  assert (Hc : lines_of ("--" +++ b +++ "--") = ["--" +++ b +++ "--"])
    by (apply lines_of_single_line; now rewrite !single_line_app, Hb).
  cbn [flat_map]. rewrite Hc, app_nil_r. f_equal.
  induction parts as [|p ps IH]; [reflexivity|].
  cbn [flat_map map]. rewrite flat_map_app, IH. cbn [flat_map].
  rewrite Hd. reflexivity.
Qed.


Lemma header_block_app (hs rest : list string) :
  Forall (fun l => l <> "") hs -> header_block (hs ++ "" :: rest) = hs.
Proof.
  induction 1 as [|h hs Hh _ IH]; [reflexivity|].
  cbn. apply String.eqb_neq in Hh. rewrite Hh. now rewrite IH.
Qed.

Lemma body_of_app (hs rest : list string) :
  Forall (fun l => l <> "") hs -> body_of (hs ++ "" :: rest) = rest.
Proof.
  induction 1 as [|h hs Hh _ IH]; [reflexivity|].
  cbn. apply String.eqb_neq in Hh. now rewrite Hh.
Qed.

Lemma strip_prefix_self (p : string) : strip_prefix p p = Some "".
Proof. induction p as [|c p IH]; cbn; [reflexivity|]. now rewrite Ascii.eqb_refl. Qed.

Lemma strip_prefix_longer (p : string) (c : ascii) (q : string) :
  strip_prefix (p +++ String c q) p = None.
Proof. induction p as [|d p IH]; cbn; [reflexivity|]. now rewrite Ascii.eqb_refl. Qed.

Lemma is_delimiter_line (b : string) : is_delimiter b ("--" +++ b) = true.
Proof. unfold is_delimiter. now rewrite strip_prefix_self. Qed.

Lemma is_close_delimiter_line (b : string) : is_close_delimiter b ("--" +++ b) = false.
Proof.
  unfold is_close_delimiter.
  change ("--" +++ b +++ "--") with (String "-" (String "-" (b +++ String "-" "-"))).
  change ("--" +++ b) with (String "-" (String "-" b)).
  cbn [strip_prefix]. rewrite !Ascii.eqb_refl.
  now rewrite strip_prefix_longer.
Qed.

Lemma is_close_delimiter_close (b : string) :
  is_close_delimiter b ("--" +++ b +++ "--") = true.
Proof. unfold is_close_delimiter. now rewrite strip_prefix_self. Qed.

Lemma no_delimiter_empty (b : string) : no_delimiter b "".
Proof. split; reflexivity. Qed.

Lemma no_delimiter_first (b : string) (c : ascii) (r : string) :
  Ascii.eqb "-" c = false -> no_delimiter b (String c r).
Proof.
  intros H. split.
  - unfold is_delimiter. cbn [String.append strip_prefix]. now rewrite H.
  - unfold is_close_delimiter. cbn [String.append strip_prefix]. now rewrite H.
Qed.

Lemma no_delimiter_base64 (b l : string) : base64_text l = true -> no_delimiter b l.
Proof.
  destruct l as [|c r]; [intros _; apply no_delimiter_empty|].
  unfold base64_text. cbn [list_ascii_of_string forallb].
  intros H. apply andb_prop in H. destruct H as [H _].
  apply no_delimiter_first.
  destruct (Ascii.eqb "-" c) eqn:E; [| reflexivity].
  apply Ascii.eqb_eq in E. subst c. discriminate H.
Qed.

Lemma parts_from_part (b : string) (p acc : list string) (rest : list string) :
  Forall (no_delimiter b) p ->
  parts_from b (Some acc) (p ++ rest) = parts_from b (Some (acc ++ p)) rest.
Proof.
  intros H. revert acc. induction H as [|l p [Hd Hc] _ IH]; intros acc.
  - now rewrite app_nil_r.
  - cbn [app parts_from]. rewrite Hc, Hd. cbn [option_map].
    rewrite IH. now rewrite <- app_assoc.
Qed.

Lemma parts_from_multipart (b : string) (parts : list (list string)) (acc : list string) :
  Forall (Forall (no_delimiter b)) parts ->
  parts_from b (Some acc) (multipart b parts) = acc :: parts.
Proof.
  unfold multipart. intros H. revert acc. induction H as [|p ps Hp _ IH]; intros acc.
  - cbn [flat_map app parts_from]. now rewrite is_close_delimiter_close.
  - cbn [flat_map app parts_from].
    rewrite is_close_delimiter_line, is_delimiter_line.
    rewrite <- app_assoc, (parts_from_part b p [] _ Hp). cbn [app].
    now rewrite IH.
Qed.

Lemma multipart_parts_multipart (b : string) (parts : list (list string)) :
  Forall (Forall (no_delimiter b)) parts ->
  multipart_parts b (multipart b parts) = parts.
Proof.
  unfold multipart_parts. intros H. destruct H as [|p ps Hp Hps].
  - unfold multipart. cbn. now rewrite is_close_delimiter_close.
  - unfold multipart. cbn [flat_map app parts_from].
    rewrite is_close_delimiter_line, is_delimiter_line.
    rewrite <- app_assoc, (parts_from_part b p [] _ Hp). cbn [app].
    exact (parts_from_multipart b ps p Hps).
Qed.

(** The first part of a mixed body is read whatever the attachments
    after it hold. *)
Lemma mixed_first_part (b : string) (body_part : list string) (atts : list Attachment) :
  single_line b = true ->
  flat_map lines_of body_part = body_part ->
  Forall (no_delimiter b) body_part ->
  hd [] (multipart_parts b
           (flat_map lines_of (multipart b (body_part :: map attachment_part atts))))
  = body_part.
Proof.
  intros Hb Hbody Hno.
  rewrite (lines_of_multipart _ _ Hb). cbn [map]. rewrite Hbody.
  unfold multipart_parts, multipart. cbn [flat_map app parts_from].
  rewrite is_close_delimiter_line, is_delimiter_line.
  rewrite <- app_assoc, (parts_from_part b body_part [] _ Hno). cbn [app].
  destruct (map (flat_map lines_of) (map attachment_part atts)) as [|p ps].
  - cbn [flat_map app parts_from]. now rewrite is_close_delimiter_close.
  - cbn [flat_map app parts_from].
    now rewrite is_close_delimiter_line, is_delimiter_line.
Qed.

End Reading.

(** ** The message received from the encoders *)

Section Received.

Lemma header_lines_nonempty (o : EmailOptions) : header_lines o <> [].
Proof. unfold header_lines. discriminate. Qed.

Lemma header_lines_not_empty_lines (o : EmailOptions) :
  single_line_headers o = true -> Forall (fun l => l <> "") (header_lines o).
Proof.
  intros Hh. eapply Forall_impl; [| exact (header_lines_single_line o Hh)].
  now intros l [_ H].
Qed.

Lemma header_block_with_type (hs : list string) (ct : string) (rest : list string) :
  Forall (fun l => l <> "") hs -> ct <> "" ->
  header_block (hs ++ [ct; ""] ++ rest) = hs ++ [ct]
  /\ body_of (hs ++ [ct; ""] ++ rest) = rest.
Proof.
  intros Hhs Hct.
  change (hs ++ [ct; ""] ++ rest) with (hs ++ [ct] ++ "" :: rest).
  rewrite app_assoc.
  assert (H : Forall (fun l => l <> "") (hs ++ [ct])).
  { apply Forall_app. split; [exact Hhs | now repeat constructor]. }
  split; [now apply header_block_app | now apply body_of_app].
Qed.

(** Lines of the encoder that are no delimiter lines. *)

Lemma text_part_no_delimiter (b subtype content : string) :
  Forall (no_delimiter b) (text_part subtype content).
Proof.
  unfold text_part. repeat constructor; try reflexivity.
  - apply no_delimiter_base64, toString_base64_text.
  - apply no_delimiter_base64, toString_base64_text.
Qed.

Lemma alternative_group_no_delimiter (now1 now2 : Z) (plain html : string) :
  Forall (no_delimiter (boundary_of now1))
    (alternative_group (altBoundary_of now2) plain html).
Proof.
  unfold alternative_group, multipart. cbn [flat_map app].
  repeat (apply Forall_cons || apply Forall_nil);
    try (split; reflexivity);
    try (apply no_delimiter_base64, toString_base64_text).
Qed.



(** What the provider receives from [buildRawEmail], line by line. *)
Lemma received_lines_pieces (now1 now2 : Z) (o : EmailOptions) :
  single_line_headers o = true ->
  received_lines now1 now2 o
  = header_lines o ++ flat_map lines_of (body_structure now1 now2 o).
Proof.
  intros Hh. unfold received_lines, buildRawEmail.
  rewrite decodeBase64Url_encodeBase64Url, email_lines_shape.
  rewrite lines_of_join_pieces.
  - rewrite flat_map_app. f_equal. apply lines_of_single_lines.
    apply forallb_forall. intros l Hl.
    pose proof (header_lines_single_line o Hh) as H.
    rewrite Forall_forall in H. exact (proj1 (H l Hl)).
  - pose proof (header_lines_nonempty o). destruct (header_lines o); [contradiction | discriminate].
Qed.







Lemma alternative_group_read (token plain html : string) :
  header_block (alternative_group token plain html)
  = ["Content-Type: multipart/alternative; boundary=" +++ quoted token]
  /\ multipart_parts token (body_of (alternative_group token plain html))
     = [text_part "plain" plain; text_part "html" html].
Proof.
  unfold alternative_group.
  destruct (header_block_with_type []
              ("Content-Type: multipart/alternative; boundary=" +++ quoted token)
              (multipart token [text_part "plain" plain; text_part "html" html]))
    as [Hh Hb]; [constructor | discriminate |].
  cbn [app] in Hh, Hb |- *. rewrite Hh, Hb. split; [reflexivity|].
  apply multipart_parts_multipart.
  constructor; [apply text_part_no_delimiter|].
    constructor; [apply text_part_no_delimiter | constructor].
Qed.

(** A line without line break that the encoder wrote is a line of the text
    received, whatever the other lines hold. *)
Lemma written_line_received (lines : list string) (l : string) :
  single_line l = true -> In l lines -> In l (lines_of (join CRLF lines)).
Proof.
  intros Hl Hin. rewrite lines_of_join_pieces by (intros ->; contradiction).
  apply in_flat_map. exists l. split; [exact Hin|].
  rewrite (lines_of_single_line l Hl). now left.
Qed.

End Received.

(** ** Answers without message bodies *)

Section Bodyless.
Import Tools Handlers.

(** Induction on a tree of parts. *)
Lemma Part_induction (P : Part -> Prop) :
  (forall m f b, P (mkPart m f b None)) ->
  (forall m f b parts, Forall P parts -> P (mkPart m f b (Some parts))) ->
  forall part, P part.
Proof.
  intros Hleaf Hnode. fix IH 1. intros [m f b [parts|]].
  - apply Hnode. induction parts as [|p parts IHparts]; constructor.
    + apply IH.
    + exact IHparts.
  - apply Hleaf.
Qed.

Lemma headers_of_erase (m : Message) :
  headers_of (msg_payload (erase_message m)) = headers_of (msg_payload m).
Proof. destruct m as [i t sn l [p|]]; reflexivity. Qed.

Lemma search_entry_erase (m : Message) : search_entry (erase_message m) = search_entry m.
Proof. unfold search_entry. now rewrite headers_of_erase. Qed.

Lemma reply_options_erase (m : Message) (body : string) (htmlBody : option string)
    (replyAll : option bool) :
  reply_options (erase_message m) body htmlBody replyAll
  = reply_options m body htmlBody replyAll.
Proof. unfold reply_options. now rewrite headers_of_erase. Qed.

Lemma draft_entry_erase (draft detail : Draft) :
  draft_entry (erase_draft draft) (erase_draft detail) = draft_entry draft detail.
Proof.
  unfold draft_entry. destruct draft as [di dm], detail as [i [m|]];
    cbn [erase_draft draft_message draft_id option_map];
    [rewrite headers_of_erase|]; reflexivity.
Qed.

Lemma attachment_erase (p : Part) :
  is_attachment (erase_part p) = is_attachment p
  /\ attachment_info (erase_part p) = attachment_info p.
Proof. destruct p as [m f [b|] ps]; split; reflexivity. Qed.

Lemma visit_part_erase (p : Part) (attachments : list AttachmentInfo) :
  visit_part (erase_part p) attachments = visit_part p attachments.
Proof.
  revert attachments. induction p as [m f b | m f b ps IH] using Part_induction;
    intros attachments.
  - destruct b; reflexivity.
  - destruct (attachment_erase (mkPart m f b (Some ps))) as [Ha Hi].
    cbn [erase_part] in Ha, Hi. cbn [erase_part visit_part]. rewrite Ha, Hi.
    clear Ha Hi.
    generalize (if is_attachment (mkPart m f b (Some ps))
                then push attachments (attachment_info (mkPart m f b (Some ps)))
                else attachments).
    induction IH as [|q qs Hq _ IHqs]; intros acc; [reflexivity|].
    cbn [map fold_left]. rewrite Hq. apply IHqs.
Qed.

Lemma findAttachments_erase (parts : option (list Part)) (attachments : list AttachmentInfo) :
  findAttachments (option_map (map erase_part) parts) attachments
  = findAttachments parts attachments.
Proof.
  destruct parts as [ps|]; [| reflexivity]. cbn [option_map findAttachments].
  revert attachments. induction ps as [|q qs IH]; intros acc; [reflexivity|].
  cbn [map fold_left]. rewrite visit_part_erase. apply IH.
Qed.

Lemma run_bodyless_await {S A X : Type} (provider : Provider S) (e : Event X)
    (k k' : X -> Tool A) (s : S) :
  (forall x s', run (bodyless provider) (k' (without_bodies e x)) s' = run provider (k x) s') ->
  run (bodyless provider) (Await e k') s = run provider (Await e k) s.
Proof.
  intros H. cbn [run]. unfold bodyless at 1.
  destruct (provider X e s) as [[err | x] s']; [reflexivity|].
  now rewrite H.
Qed.

Lemma search_loop_bodyless {S : Type} (provider : Provider S)
    (messages : list MessageRef) (results : list ParsedMessage) (s : S) :
  run (bodyless provider)
    (rs <- search_loop messages results ;; Ret (JsonMessages rs)) s
  = run provider (rs <- search_loop messages results ;; Ret (JsonMessages rs)) s.
Proof.
  revert results s. induction messages as [|msg rest IH]; intros results s.
  - reflexivity.
  - cbn [search_loop bind await]. apply run_bodyless_await. intros x s'.
    cbn [without_bodies]. rewrite search_entry_erase. apply IH.
Qed.

Lemma drafts_loop_bodyless {S : Type} (provider : Provider S)
    (drafts : list Draft) (details : list DraftDetail) (s : S) :
  run (bodyless provider)
    (ds <- drafts_loop (map erase_draft drafts) details ;; Ret (JsonDrafts ds)) s
  = run provider (ds <- drafts_loop drafts details ;; Ret (JsonDrafts ds)) s.
Proof.
  revert details s. induction drafts as [|draft rest IH]; intros details s.
  - reflexivity.
  - cbn [map drafts_loop bind await].
    change (draft_id (erase_draft draft)) with (draft_id draft).
    apply run_bodyless_await. intros x s'.
    cbn [without_bodies]. rewrite draft_entry_erase. apply IH.
Qed.

Lemma bodyless_same_run {S : Type} (provider : Provider S) (s : S) (i : Invocation) :
  returns_body i = false ->
  run (bodyless provider) (server i) s = run provider (server i) s.
Proof.
  destruct i; intros Hi; try discriminate Hi; cbn [server result_type];
    unfold send_email, search_emails, delete_email, trash_email, modify_email,
      list_attachments, download_attachment, create_draft, list_drafts, send_draft,
      delete_draft, list_labels, create_label, update_label, delete_label,
      batch_modify_emails, batch_delete_emails, list_filters, create_filter,
      delete_filter, reply_to_email, await;
    cbn [bind];
    repeat (apply run_bodyless_await; intros; cbn [without_bodies]);
    try reflexivity.
  - (* search_emails *)
    match goal with |- context [if ?c then _ else _] => destruct c end;
      [reflexivity | apply search_loop_bodyless].
  - (* list_attachments *)
    match goal with x : Message |- _ => destruct x as [mi mt sn l [p|]] end;
      [| reflexivity].
    cbn [erase_message msg_payload option_map erase_payload pl_parts].
    rewrite findAttachments_erase.
    match goal with |- context [if ?c then _ else _] => destruct c end; reflexivity.
  - (* download_attachment *)
    match goal with |- context [download_result ?a ?r] =>
      destruct (download_result a r) end; reflexivity.
  - (* list_drafts *)
    match goal with x : DraftList |- _ => destruct x as [[ds|]] end; [| reflexivity].
    cbn [list_drafts_of option_map arr_or_empty]. rewrite length_map.
    destruct (List.length ds =? 0)%nat; [reflexivity|].
    apply drafts_loop_bodyless.
  - (* reply_to_email *)
    rewrite reply_options_erase. apply run_bodyless_await. intros. reflexivity.
Qed.

End Bodyless.

(* ====================================================================== *)
(** * Part III. The claims of the specification                            *)
(* ====================================================================== *)

(** ** C6: body extraction of the decoder *)

(** C6 as stated fails for a payload whose [parts] array is empty: the
    payload has no sub-parts and its top-level body holds [hi there],
    yet the body extracted is the empty string. *)
Lemma parseMessage_body_extraction_counterexample :
  msg_payload MoreExamples.empty_parts_with_data = Some MoreExamples.empty_parts_payload
  /\ arr_or_empty (pl_parts MoreExamples.empty_parts_payload) = []
  /\ body_data (pl_body MoreExamples.empty_parts_payload) = "hi there"
  /\ pm_body (parseMessage MoreExamples.empty_parts_with_data) = ""
  /\ pm_body (parseMessage MoreExamples.empty_parts_with_data)
     <> body_data (pl_body MoreExamples.empty_parts_payload).
Proof. repeat split; try reflexivity. discriminate. Qed.

(** C6, amended. For every parsed provider message: when the payload has a
    [parts] array (an empty one included), the body is read from the first part whose type is
    [text/plain], else from the first part whose type is [text/html], and
    is the empty string when there is neither; when the payload has no
    [parts] array, the top-level payload body is read; without a payload,
    and whenever no body carries data to decode, the body is the empty
    string.  [parseMessage] is a total function: it returns in every
    case. *)
Theorem parseMessage_body_extraction (m : Message) :
  (forall p parts pre part post,
      msg_payload m = Some p -> pl_parts p = Some parts ->
      parts = pre ++ part :: post ->
      has_mimeType "text/plain" part = true ->
      (forall q, In q pre -> has_mimeType "text/plain" q = false) ->
      pm_body (parseMessage m) = body_data (part_body part))
  /\ (forall p parts pre part post,
      msg_payload m = Some p -> pl_parts p = Some parts ->
      (forall q, In q parts -> has_mimeType "text/plain" q = false) ->
      parts = pre ++ part :: post ->
      has_mimeType "text/html" part = true ->
      (forall q, In q pre -> has_mimeType "text/html" q = false) ->
      pm_body (parseMessage m) = body_data (part_body part))
  /\ (forall p parts,
      msg_payload m = Some p -> pl_parts p = Some parts ->
      (forall q, In q parts -> has_mimeType "text/plain" q = false) ->
      (forall q, In q parts -> has_mimeType "text/html" q = false) ->
      pm_body (parseMessage m) = "")
  /\ (forall p,
      msg_payload m = Some p -> pl_parts p = None ->
      pm_body (parseMessage m) = body_data (pl_body p))
  /\ (msg_payload m = None -> pm_body (parseMessage m) = "")
  /\ ((forall p, msg_payload m = Some p ->
         no_data (pl_body p)
         /\ forall parts q, pl_parts p = Some parts -> In q parts -> no_data (part_body q)) ->
      pm_body (parseMessage m) = "").
Proof.
  unfold parseMessage. cbn [pm_body]. unfold extract_body.
  repeat split.
  - intros p parts pre part post -> -> -> Hplain Hpre.
    now rewrite (find_first _ pre post part Hplain Hpre).
  - intros p parts pre part post -> -> Hno -> Hhtml Hpre.
    rewrite (find_absent _ _ Hno).
    now rewrite (find_first _ pre post part Hhtml Hpre).
  - intros p parts -> -> Hno1 Hno2.
    now rewrite (find_absent _ _ Hno1), (find_absent _ _ Hno2).
  - now intros p -> ->.
  - now intros ->.
  - intros H. destruct (msg_payload m) as [p|]; [| reflexivity].
    destruct (H p eq_refl) as [Hbody Hparts].
    destruct (pl_parts p) as [parts|].
    + destruct (find (has_mimeType "text/plain") parts) as [part|] eqn:E1.
      * apply find_some in E1. destruct E1 as [Hin _].
        apply no_data_body_data. exact (Hparts parts part eq_refl Hin).
      * destruct (find (has_mimeType "text/html") parts) as [part|] eqn:E2;
          [| reflexivity].
        apply find_some in E2. destruct E2 as [Hin _].
        apply no_data_body_data. exact (Hparts parts part eq_refl Hin).
    + apply no_data_body_data. exact Hbody.
Qed.

(** A message whose first [text/plain] part follows an HTML part: the
    plain part is read. *)
Lemma parseMessage_body_extraction_witness :
  pm_body (parseMessage Examples.html_then_plain) = "hi there".
Proof.
  apply (proj1 (parseMessage_body_extraction Examples.html_then_plain)
           Examples.html_then_plain_payload
           [Examples.html_part; Examples.plain_part]
           [Examples.html_part] Examples.plain_part []);
    try reflexivity.
  intros q [<- | []]. reflexivity.
Defined.

(** ** C8: status mapping of the webhook *)

Section WebhookClaim.
Import Webhook.

Lemma truthy_opt_false (o : option string) : missing o -> truthy_opt o = false.
Proof. intros [-> | ->]; reflexivity. Qed.

Lemma truthy_opt_true (o : option string) : ~ missing o -> truthy_opt o = true.
Proof.
  unfold missing. destruct o as [[|c s]|]; intros H; try reflexivity;
    exfalso; apply H; auto.
Qed.

(** The handler past the bearer check. *)
Lemma authorized_passes (env : Env) (request : Request) :
  authorized env request ->
  truthy_opt (WEBHOOK_SECRET env)
  && not_bearer (authorization request) (str_of (WEBHOOK_SECRET env)) = false.
Proof.
  unfold authorized. destruct (WEBHOOK_SECRET env) as [secret|]; [| reflexivity].
  intros [-> | ->]; [reflexivity|].
  cbn [truthy_opt str_of not_bearer]. rewrite String.eqb_refl.
  apply andb_false_r.
Qed.

(** The handler past the validation of the payload. *)
Lemma valid_passes (p : JsonPayload) :
  ~ missing (p_to p) -> ~ missing (p_subject p) -> p_body p <> None ->
  negb (truthy_opt (p_to p)) || negb (truthy_opt (p_subject p))
  || match p_body p with Some _ => false | None => true end = false.
Proof.
  intros Hto Hsub Hbody.
  rewrite (truthy_opt_true _ Hto), (truthy_opt_true _ Hsub).
  destruct (p_body p); [reflexivity | contradiction].
Qed.

Lemma invalid_stops (p : JsonPayload) :
  missing (p_to p) \/ missing (p_subject p) \/ p_body p = None ->
  negb (truthy_opt (p_to p)) || negb (truthy_opt (p_subject p))
  || match p_body p with Some _ => false | None => true end = true.
Proof.
  intros [Hm | [Hm | Hm]].
  - now rewrite (truthy_opt_false _ Hm).
  - rewrite (truthy_opt_false _ Hm). apply orb_true_iff. left. apply orb_true_r.
  - rewrite Hm. apply orb_true_r.
Qed.

(** What [getCredentialsFromEnv] does with the environment. *)
Lemma credentials_missing (env : Env) :
  missing (GMAIL_CLIENT_ID env) \/ missing (GMAIL_CLIENT_SECRET env)
  \/ missing (GMAIL_REFRESH_TOKEN env) ->
  getCredentialsFromEnv env
  = Throws "Missing GMAIL_CLIENT_ID, GMAIL_CLIENT_SECRET, or GMAIL_REFRESH_TOKEN. Set them in Vercel env (or .env.local).".
Proof.
  unfold getCredentialsFromEnv.
  intros [H | [H | H]]; rewrite (truthy_opt_false _ H); cbn [negb orb];
    rewrite ?orb_true_r; reflexivity.
Qed.

Lemma credentials_present (env : Env) :
  ~ missing (GMAIL_CLIENT_ID env) -> ~ missing (GMAIL_CLIENT_SECRET env) ->
  ~ missing (GMAIL_REFRESH_TOKEN env) ->
  getCredentialsFromEnv env
  = Returns (mkCredentials (str_of (GMAIL_CLIENT_ID env))
               (str_of (GMAIL_CLIENT_SECRET env)) (str_of (GMAIL_REFRESH_TOKEN env))).
Proof.
  intros H1 H2 H3. unfold getCredentialsFromEnv.
  now rewrite (truthy_opt_true _ H1), (truthy_opt_true _ H2), (truthy_opt_true _ H3).
Qed.

(** C8. For every POST to the webhook: when a secret is configured and
    the Authorization header is not exactly [Bearer <secret>], the
    answer is 401; otherwise, when [to] or [subject] is missing or empty
    or [body] is not a string, it is 400 with an [error] body;
    otherwise, when the three credentials are set in the environment and
    the provider accepts the message, it is [{ok: true, messageId}]; and
    every other failure is 500 with the failure's message as [error]: a
    request body that is not JSON, a credential that is missing or
    empty in the environment (with the handler's own message), and a
    failure of the provider. *)
Theorem webhook_status_mapping (env : Env) (now : Z)
    (send : Credentials -> string -> Exn string) (request : Request) :
  let response := POST env now send request in
  let creds :=
    mkCredentials (str_of (GMAIL_CLIENT_ID env)) (str_of (GMAIL_CLIENT_SECRET env))
      (str_of (GMAIL_REFRESH_TOKEN env)) in
  (forall secret,
      WEBHOOK_SECRET env = Some secret -> secret <> "" ->
      authorization request <> Some ("Bearer " +++ secret) ->
      response = mkResponse 401 (ErrorBody "Unauthorized"))
  /\ (authorized env request ->
      forall p, json request = Returns p ->
      missing (p_to p) \/ missing (p_subject p) \/ p_body p = None ->
      response = mkResponse 400 (ErrorBody "Missing or invalid: to, subject, body"))
  /\ (authorized env request ->
      forall p id, json request = Returns p ->
      ~ missing (p_to p) -> ~ missing (p_subject p) -> p_body p <> None ->
      ~ missing (GMAIL_CLIENT_ID env) -> ~ missing (GMAIL_CLIENT_SECRET env) ->
      ~ missing (GMAIL_REFRESH_TOKEN env) ->
      send creds (buildRawEmail now (webhook_options p)) = Returns id ->
      response = mkResponse 200 (OkBody id))
  /\ (authorized env request ->
      (forall message, json request = Throws message ->
         response = mkResponse 500 (ErrorBody message))
      /\ (forall p, json request = Returns p ->
            ~ missing (p_to p) -> ~ missing (p_subject p) -> p_body p <> None ->
            missing (GMAIL_CLIENT_ID env) \/ missing (GMAIL_CLIENT_SECRET env)
            \/ missing (GMAIL_REFRESH_TOKEN env) ->
            response
            = mkResponse 500
                (ErrorBody "Missing GMAIL_CLIENT_ID, GMAIL_CLIENT_SECRET, or GMAIL_REFRESH_TOKEN. Set them in Vercel env (or .env.local)."))
      /\ (forall p message, json request = Returns p ->
            ~ missing (p_to p) -> ~ missing (p_subject p) -> p_body p <> None ->
            ~ missing (GMAIL_CLIENT_ID env) -> ~ missing (GMAIL_CLIENT_SECRET env) ->
            ~ missing (GMAIL_REFRESH_TOKEN env) ->
            send creds (buildRawEmail now (webhook_options p)) = Throws message ->
            response = mkResponse 500 (ErrorBody message))).
Proof.
  cbv zeta. unfold POST. split; [| split; [| split]].
  - intros secret Hs Hne Hauth. rewrite Hs. cbn [truthy_opt str_of].
    assert (Ht : truthy secret = true).
    { unfold truthy. apply negb_true_iff, String.eqb_neq. exact Hne. }
    assert (Hb : not_bearer (authorization request) secret = true).
    { unfold not_bearer. destruct (authorization request) as [a|]; [| reflexivity].
      apply negb_true_iff, String.eqb_neq. intros ->. now apply Hauth. }
    rewrite Ht, Hb. reflexivity.
  - intros Hauth p Hj Hinvalid.
    rewrite (authorized_passes env request Hauth), Hj. cbn [bind try_catch].
    rewrite (invalid_stops p Hinvalid). reflexivity.
  - intros Hauth p id Hj Hto Hsub Hbody H1 H2 H3 Hsend.
    rewrite (authorized_passes env request Hauth), Hj. cbn [bind try_catch].
    rewrite (valid_passes p Hto Hsub Hbody), (credentials_present env H1 H2 H3).
    cbn [bind]. fold (webhook_options p). rewrite Hsend. reflexivity.
  - intros Hauth. rewrite (authorized_passes env request Hauth).
    split; [| split].
    + intros message Hj. rewrite Hj. reflexivity.
    + intros p Hj Hto Hsub Hbody Hmissing. rewrite Hj. cbn [bind try_catch].
      rewrite (valid_passes p Hto Hsub Hbody), (credentials_missing env Hmissing).
      reflexivity.
    + intros p message Hj Hto Hsub Hbody H1 H2 H3 Hsend.
      rewrite Hj. cbn [bind try_catch].
      rewrite (valid_passes p Hto Hsub Hbody), (credentials_present env H1 H2 H3).
      cbn [bind]. fold (webhook_options p). rewrite Hsend. reflexivity.
Qed.

(** An authorized, well-formed request that the provider accepts; and the
    same request when the refresh token is not set. *)
Lemma webhook_status_mapping_witness :
  POST Examples.webhook_env 1700000000000 Examples.webhook_send Examples.webhook_request
  = mkResponse 200 (OkBody "m9")
  /\ POST MoreExamples.webhook_env_without_token 1700000000000 Examples.webhook_send
       Examples.webhook_request
     = mkResponse 500
         (ErrorBody "Missing GMAIL_CLIENT_ID, GMAIL_CLIENT_SECRET, or GMAIL_REFRESH_TOKEN. Set them in Vercel env (or .env.local).").
Proof.
  split.
  - apply (proj1 (proj2 (proj2
             (webhook_status_mapping Examples.webhook_env 1700000000000
                Examples.webhook_send Examples.webhook_request)))
             (or_intror eq_refl) Examples.webhook_payload "m9" eq_refl);
      try reflexivity; try discriminate;
      intros [H | H]; discriminate H.
  - apply (proj1 (proj2 (proj2 (proj2 (proj2
             (webhook_status_mapping MoreExamples.webhook_env_without_token 1700000000000
                Examples.webhook_send Examples.webhook_request)))
             (or_intror eq_refl))) Examples.webhook_payload eq_refl);
      try discriminate.
    + intros [H | H]; discriminate H.
    + intros [H | H]; discriminate H.
    + right. right. left. reflexivity.
Defined.

End WebhookClaim.

(** ** C1: shorthand expansion of create_filter *)

Section FilterClaim.
Import Tools.

(** With [markRead] and [archive] set and no explicit remove list, the
    remove list sent is [UNREAD], [INBOX]. *)
Lemma filter_action_markRead_archive (a : FilterArgs) :
  f_markRead a = Some true -> f_archive a = Some true -> f_removeLabelIds a = None ->
  removeLabelIds (filter_action a) = Some ["UNREAD"; "INBOX"].
Proof.
  intros H1 H2 H3. unfold filter_action. rewrite H1, H2, H3.
  cbn [truthy_flag arr_or_empty push app is_nonempty].
  destruct (truthy_flag (f_trash a)), (is_nonempty _); reflexivity.
Qed.

(** With [trash] set, the add list sent is the second one the handler
    builds whenever that one is not empty: the explicit labels with
    [STARRED] and [IMPORTANT] as asked, without [TRASH]. *)
Lemma filter_action_trash (a : FilterArgs) :
  f_trash a = Some true ->
  let addIds :=
    arr_or_empty (f_addLabelIds a)
      ++ (if truthy_flag (f_star a) then ["STARRED"] else [])
      ++ (if truthy_flag (f_markImportant a) then ["IMPORTANT"] else []) in
  addLabelIds (filter_action a)
  = Some (if is_nonempty addIds then addIds
          else arr_or_empty (f_addLabelIds a) ++ ["TRASH"]).
Proof.
  intros H. unfold filter_action. rewrite H. cbn [truthy_flag]. unfold push.
  destruct (truthy_flag (f_star a)), (truthy_flag (f_markImportant a)),
    (truthy_flag (f_markRead a)), (truthy_flag (f_archive a));
    cbn zeta; rewrite <- ?app_assoc, ?app_nil_r; cbn [app];
    repeat match goal with
           | |- context [is_nonempty ?l] => destruct (is_nonempty l)
           end; reflexivity.
Qed.

(** C1, at the failing input [{from, addLabelIds: [Label_1], trash: true}]:
    the action sent to the provider has the add list [Label_1] alone;
    [TRASH] is not in it. *)
Theorem create_filter_trash_dropped :
  calls (run Examples.provider (create_filter Examples.trash_with_label) tt)
  = [ call GetGmailClient;
      call (FiltersCreate
              (mkCriteria (Some "news@example.com") None None None)
              (mkAction (Some ["Label_1"]) None None)) ]
  /\ ~ In "TRASH" ["Label_1"].
Proof.
  split; [reflexivity|].
  intros [H | []]. discriminate H.
Qed.

End FilterClaim.

(** ** C9: subject of a reply *)

Section ReplyClaim.
Import Tools.

(** C9. In reply_to_email, when the provider answers the fetch of the
    original with a message whose Subject header is [Re: hello], or
    [hello]: the handler sends one message, built from that original and
    into its thread; the subject it hands to the encoder is [Re: hello];
    and the message sent has the line [Subject: =?UTF-8?B?UmU6IGhlbGxv?=],
    whose base64 word decodes to [Re: hello]. *)
Theorem reply_subject_rule {S : Type} (provider : Provider S) (s s1 s2 s3 s4 : S)
    (messageId body : string) (htmlBody : option string) (replyAll : option bool)
    (origData : Message) (now1 now2 : Z) :
  provider unit GetGmailClient s = (inr tt, s1) ->
  provider Message (MessagesGet messageId "metadata" (Some reply_headers)) s1
  = (inr origData, s2) ->
  provider Z DateNow s2 = (inr now1, s3) ->
  provider Z DateNow s3 = (inr now2, s4) ->
  let origSubject := getHeader (headers_of (msg_payload origData)) "Subject" in
  let options := reply_options origData body htmlBody replyAll in
  let raw := buildRawEmail now1 now2 options in
  origSubject = "Re: hello" \/ origSubject = "hello" ->
  calls (run provider (reply_to_email messageId body htmlBody replyAll) s)
  = [ call GetGmailClient;
      call (MessagesGet messageId "metadata" (Some reply_headers));
      call DateNow;
      call DateNow;
      call (MessagesSend raw (Some (msg_threadId origData))) ]
  /\ opt_subject options = "Re: hello"
  /\ In "Subject: =?UTF-8?B?UmU6IGhlbGxv?=" (lines_of (decodeBase64Url raw))
  /\ decodeBase64Url "UmU6IGhlbGxv" = "Re: hello".
Proof.
  intros Hclient Hget Hnow1 Hnow2. cbv zeta. intros Hsubject.
  assert (Hs : opt_subject (reply_options origData body htmlBody replyAll) = "Re: hello").
  { unfold reply_options. cbn [opt_subject]. destruct Hsubject as [-> | ->]; reflexivity. }
  split; [| split; [exact Hs | split; [| reflexivity]]].
  - unfold reply_to_email, await. cbn [bind run].
    rewrite Hclient. cbn [calls outcome]. rewrite Hget. cbn [calls outcome].
    rewrite Hnow1. cbn [calls outcome]. rewrite Hnow2. cbn [calls outcome].
    destruct (provider Created _ s4) as [[err | created] s5]; reflexivity.
  - unfold buildRawEmail. rewrite decodeBase64Url_encodeBase64Url.
    apply written_line_received; [reflexivity|].
    rewrite email_lines_shape. apply in_or_app. left.
    unfold header_lines. rewrite Hs.
    repeat (apply in_or_app; first [ left; now left | right ]).
Qed.

(** The two original messages of the claim, each answered to the fetch. *)
Lemma reply_subject_rule_witness :
  opt_subject (reply_options (Examples.subject_headers "Re: hello") "ok" None None)
  = "Re: hello"
  /\ calls (run (MoreExamples.answering (Examples.subject_headers "hello"))
              (reply_to_email "m1" "ok" None None) tt)
     = [ call GetGmailClient;
         call (MessagesGet "m1" "metadata" (Some reply_headers));
         call DateNow;
         call DateNow;
         call (MessagesSend
                 (buildRawEmail 1700000000000 1700000000000
                    (reply_options (Examples.subject_headers "hello") "ok" None None))
                 (Some "t1")) ]
  /\ opt_subject (reply_options (Examples.subject_headers "hello") "ok" None None)
     = "Re: hello".
Proof.
  split.
  - exact (proj1 (proj2
             (reply_subject_rule (MoreExamples.answering (Examples.subject_headers "Re: hello"))
                tt tt tt tt tt "m1" "ok" None None (Examples.subject_headers "Re: hello")
                1700000000000 1700000000000 eq_refl eq_refl eq_refl eq_refl
                (or_introl eq_refl)))).
  - destruct (reply_subject_rule (MoreExamples.answering (Examples.subject_headers "hello"))
                tt tt tt tt tt "m1" "ok" None None (Examples.subject_headers "hello")
                1700000000000 1700000000000 eq_refl eq_refl eq_refl eq_refl
                (or_intror eq_refl))
      as [Hcalls [Hsubject _]].
    split; [exact Hcalls | exact Hsubject].
Defined.

End ReplyClaim.

(** ** C7: the cap of the batch tools *)

Section BatchClaim.
Import Tools.




End BatchClaim.

(** ** C10: search results carry no body *)

Section SearchClaim.
Import Tools Handlers.

(** The loop returns the entries it was given followed by one
    [search_entry] per fetched message. *)
Lemma search_loop_results {S : Type} (provider : Provider S)
    (messages : list MessageRef) (results : list ParsedMessage) (s : S)
    (text : ToolText) :
  outcome (run provider
             (rs <- search_loop messages results ;; Ret (JsonMessages rs)) s)
  = inr text ->
  exists details,
    List.length details = List.length messages
    /\ text = JsonMessages (results ++ map search_entry details).
Proof.
  revert results s. induction messages as [|msg rest IH]; intros results s.
  - cbn. intros H. injection H as <-. exists []. now rewrite app_nil_r.
  - cbn [search_loop bind await run].
    destruct (provider Message
                (MessagesGet (ref_id msg) "metadata" (Some metadataHeaders)) s)
      as [[err | detail] s1]; cbn [outcome]; [discriminate|].
    intros H. apply IH in H. destruct H as [details [Hlen ->]].
    exists (detail :: details). split; [cbn; now rewrite Hlen|].
    unfold push. now rewrite <- app_assoc.
Qed.

(** C10. For every successful search_emails call, under every provider:
    the result is the no-match text or a list of entries, each a
    [search_entry] of a fetched message (id, threadId, the four metadata
    headers, snippet and labels), whose body is the empty string whatever
    the message holds.  Among all the tools of the route, message bodies
    are returned by read_email and get_thread only: every other tool
    runs, calls and answers the same when the provider withholds the body
    data of every message it returns; read_email and get_thread answer
    with [parseMessage] of the very message, or of the messages of the
    very thread, that the provider returned to their call, the extracted
    body included. *)
Theorem search_results_without_body {S : Type} (provider : Provider S) (s : S)
    (query : string) (maxResults : option Z) (text : ToolText) :
  (outcome (run provider (search_emails query maxResults) s) = inr text ->
     text = Text "No emails found matching your query."
     \/ exists details,
          text = JsonMessages (map search_entry details)
          /\ Forall (fun entry => pm_body entry = "") (map search_entry details))
  /\ (forall i, returns_body i = false ->
        run (bodyless provider) (server i) s = run provider (server i) s)
  /\ (forall id s1 s2 message,
        provider unit GetGmailClient s = (inr tt, s1) ->
        provider Message (MessagesGet id "full" None) s1 = (inr message, s2) ->
        run provider (read_email id) s
        = mkRun [call GetGmailClient; call (MessagesGet id "full" None)]
            (inr (JsonMessage (parseMessage message)))
        /\ pm_body (parseMessage message) = extract_body (msg_payload message))
  /\ (forall id s1 s2 thread,
        provider unit GetGmailClient s = (inr tt, s1) ->
        provider Thread (ThreadsGet id "full") s1 = (inr thread, s2) ->
        run provider (get_thread id) s
        = mkRun [call GetGmailClient; call (ThreadsGet id "full")]
            (inr (JsonMessages (map parseMessage (arr_or_empty (thread_messages thread)))))
        /\ map pm_body (map parseMessage (arr_or_empty (thread_messages thread)))
           = map (fun m => extract_body (msg_payload m))
               (arr_or_empty (thread_messages thread))).
Proof.
  split; [| split; [| split]].
  - unfold search_emails, await. cbn [bind run].
    destruct (provider unit GetGmailClient s) as [[err | []] s1];
      cbn [outcome]; [discriminate|].
    destruct (provider MessageList (MessagesList query (search_limit maxResults)) s1)
      as [[err | listResult] s2]; cbn [outcome]; [discriminate|].
    destruct (List.length (arr_or_empty (list_messages listResult)) =? 0)%nat.
    + cbn. intros H. injection H as <-. now left.
    + intros H. apply search_loop_results in H.
      destruct H as [details [_ ->]]. right. exists details.
      split; [reflexivity|].
      apply Forall_forall. intros entry Hin. apply in_map_iff in Hin.
      destruct Hin as [detail [<- _]]. reflexivity.
  - intros i Hi. now apply bodyless_same_run.
  - intros id s1 s2 message Hclient Hget. split; [| reflexivity].
    unfold read_email, await. cbn [bind run]. rewrite Hclient. cbn [calls outcome].
    rewrite Hget. reflexivity.
  - intros id s1 s2 thread Hclient Hget. split.
    + unfold get_thread, await. cbn [bind run]. rewrite Hclient. cbn [calls outcome].
      rewrite Hget. reflexivity.
    + rewrite map_map. reflexivity.
Qed.

(** Two listed messages, each with the body [hi there] at the provider:
    the search returns two entries without body; read_email returns the
    body, and answers differently when the provider withholds it. *)
Lemma search_results_without_body_witness :
  outcome (run Examples.provider (search_emails "is:unread" None) tt)
  = inr (JsonMessages (map search_entry [Examples.full_message "m1";
                                         Examples.full_message "m2"]))
  /\ Forall (fun entry => pm_body entry = "")
       (map search_entry [Examples.full_message "m1"; Examples.full_message "m2"])
  /\ outcome (run Examples.provider (read_email "m1") tt)
     = inr (JsonMessage (parseMessage (Examples.full_message "m1")))
  /\ pm_body (parseMessage (Examples.full_message "m1")) = "hi there"
  /\ outcome (run (bodyless Examples.provider) (read_email "m1") tt)
     <> outcome (run Examples.provider (read_email "m1") tt).
Proof.
  split; [reflexivity|]. split; [| split; [| split]].
  - destruct (proj1 (search_results_without_body Examples.provider tt "is:unread" None
                       (JsonMessages (map search_entry [Examples.full_message "m1";
                                                        Examples.full_message "m2"])))
                eq_refl) as [H | [details [Heq Hall]]].
    + discriminate H.
    + injection Heq as Heq. cbn [map]. rewrite Heq. exact Hall.
  - reflexivity.
  - reflexivity.
  - vm_compute. discriminate.
Defined.
End SearchClaim.

(** ** C3: round trip of a plain-text message *)

Section RoundTripClaim.

(** C3 as stated fails: a recipient field that carries an empty line
    ends the header block early, and the decoder reads what follows it
    instead of the body. *)
Lemma plain_text_roundtrip_counterexample :
  plain_text_only Examples.injected = true
  /\ roundtrip_body 1700000000000 1700000000000 Examples.injected = "evil"
  /\ roundtrip_body 1700000000000 1700000000000 Examples.injected
     <> opt_body Examples.injected.
Proof.
  split; [reflexivity|]. split; [vm_compute; reflexivity|].
  vm_compute. discriminate.
Qed.

(** C3, amended. For every message with a plain-text body only (no HTML
    body, no attachment) whose copied header fields ([to], [from], [cc],
    [bcc], [inReplyTo], [references]) hold no carriage return and no
    line feed: base64url-decoding the encoder's output, taking the
    top-level payload body (what follows the first empty line) and
    decoding it as the decoder does for a payload without sub-parts
    yields the original body, byte for byte. *)
Theorem plain_text_roundtrip (now1 now2 : Z) (o : EmailOptions) :
  plain_text_only o = true ->
  single_line_headers o = true ->
  roundtrip_body now1 now2 o = opt_body o.
Proof.
  intros Hplain Hhdr.
  unfold roundtrip_body, buildRawEmail.
  rewrite decodeBase64Url_encodeBase64Url, email_lines_shape.
  unfold plain_text_only in Hplain. apply andb_prop in Hplain.
  destruct Hplain as [Hhtml Hatt]. apply negb_true_iff in Hhtml, Hatt.
  unfold body_structure. rewrite Hhtml, Hatt.
  unfold text_part.
  change (header_lines o ++ ?a :: ?b :: ?c) with (header_lines o ++ [a; b] ++ c).
  rewrite app_assoc.
  unfold parseMessage, received_message, received_payload.
  cbn [msg_payload pm_body extract_body pl_parts pl_body].
  rewrite body_section_join.
  - apply body_data_base64.
  - destruct (header_lines o); discriminate.
  - apply Forall_app; split; [now apply header_lines_single_line|].
    repeat constructor; discriminate.
Qed.

Lemma plain_text_roundtrip_witness :
  plain_text_only Examples.plain = true
  /\ single_line_headers Examples.plain = true
  /\ roundtrip_body 1700000000000 1700000000001 Examples.plain = "hi there".
Proof.
  split; [reflexivity|]. split; [reflexivity|].
  exact (plain_text_roundtrip 1700000000000 1700000000001 Examples.plain
           eq_refl eq_refl).
Defined.

End RoundTripClaim.

(** ** C2: boundary tokens *)

Section BoundaryClaim.

(** C2 as stated fails: an attachment content is copied as it is, and
    one that spells the token holds it. *)
Lemma boundaries_content_free_counterexample :
  ~ boundaries_content_free 1700000000000 1700000000000
      (Examples.with_attachment "boundary_1700000000000").
Proof.
  intros [_ H].
  destruct (H "boundary_1700000000000") as [H1 _].
  - right. left. reflexivity.
  - vm_compute in H1. discriminate H1.
Qed.

(** C2, amended. For every message and every two readings of the clock:
    the outer and the nested boundary token are never equal; neither
    occurs in an encoded body line; and neither occurs in an attachment
    content that is a text over the standard base64 alphabet.  The same
    holds of the webhook's token, body line and attachment contents. *)
Theorem boundaries_free_of_base64_content (now1 now2 : Z) (o : EmailOptions)
    (w : Webhook.Options) :
  boundary_of now1 <> altBoundary_of now2
  /\ (forall line, In line (body_lines o) -> token_free now1 now2 line)
  /\ (forall line, In line (attachment_lines o) ->
        base64_text line = true -> token_free now1 now2 line)
  /\ includes (base64_of (Webhook.o_body w)) (boundary_of now1) = false
  /\ (forall att, In att (Webhook.o_attachments w) ->
        base64_text (att_content att) = true ->
        includes (att_content att) (boundary_of now1) = false).
Proof.
  split; [apply boundary_not_altBoundary|].
  split; [intros line H; apply base64_text_token_free;
          exact (body_lines_base64 o line H)|].
  split; [intros line _ H; now apply base64_text_token_free|].
  split.
  - apply (base64_text_token_free now1 now2). apply toString_base64_text.
  - intros att _ H. now apply (base64_text_token_free now1 now2).
Qed.

(** An attachment with base64 content. *)
Lemma boundaries_free_of_base64_content_witness :
  base64_text "QUJD" = true
  /\ token_free 1700000000000 1700000000000 "QUJD".
Proof.
  split; [reflexivity|].
  apply (proj1 (proj2 (proj2
           (boundaries_free_of_base64_content 1700000000000 1700000000000
              (Examples.with_attachment "QUJD") (Webhook.mkOptions "" "" "" []))))).
  - left. reflexivity.
  - reflexivity.
Defined.

End BoundaryClaim.

(** ** C4: one part per attachment *)

Section AttachmentClaim.




End AttachmentClaim.

(** ** C5: plain text before HTML *)

Section AlternativeClaim.

(** C5 as stated fails: a recipient field that carries an empty line ends
    the header block after the [To] line, so that the message received
    has no [multipart/alternative] header and no group to order. *)
Lemma plain_part_before_html_part_counterexample :
  truthy_opt (opt_htmlBody MoreExamples.injected_both) = true
  /\ header_block (received_lines 1700000000000 1700000000000 MoreExamples.injected_both)
     = ["To: a@b.com"].
Proof. split; vm_compute; reflexivity. Qed.

(** C5, amended. For every message with a plain-text body and a
    (non-empty) HTML body whose copied header fields hold no line break:
    without attachments the message the provider receives is a top-level
    [multipart/alternative] whose parts are the [text/plain] part and
    then the [text/html] part; with attachments, whatever they hold, the
    first part of the [multipart/mixed] body is a [multipart/alternative]
    group over the nested boundary with the same two parts in the same
    order. *)
Theorem plain_part_before_html_part (now1 now2 : Z) (o : EmailOptions) (html : string) :
  opt_htmlBody o = Some html -> html <> "" ->
  single_line_headers o = true ->
  let received := received_lines now1 now2 o in
  let group := [text_part "plain" (opt_body o); text_part "html" html] in
  (nonempty_arr (opt_attachments o) = false ->
     header_block received
     = header_lines o
         ++ ["Content-Type: multipart/alternative; boundary=" +++ quoted (boundary_of now1)]
     /\ multipart_parts (boundary_of now1) (body_of received) = group)
  /\ (nonempty_arr (opt_attachments o) = true ->
      let first := hd [] (multipart_parts (boundary_of now1) (body_of received)) in
      header_block received
      = header_lines o
          ++ ["Content-Type: multipart/mixed; boundary=" +++ quoted (boundary_of now1)]
      /\ header_block first
         = ["Content-Type: multipart/alternative; boundary="
              +++ quoted (altBoundary_of now2)]
      /\ multipart_parts (altBoundary_of now2) (body_of first) = group)
  /\ group
     = [ [ "Content-Type: text/plain; charset=" +++ quoted "UTF-8";
           "Content-Transfer-Encoding: base64";
           "";
           base64_of (opt_body o) ];
         [ "Content-Type: text/html; charset=" +++ quoted "UTF-8";
           "Content-Transfer-Encoding: base64";
           "";
           base64_of html ] ].
Proof.
  intros Hhtml Hne Hh. cbv zeta.
  assert (Ht : truthy_opt (opt_htmlBody o) = true).
  { rewrite Hhtml. cbn [truthy_opt]. unfold truthy.
    apply negb_true_iff, String.eqb_neq. exact Hne. }
  split; [| split; [| reflexivity]].
  - intros Hatt.
    assert (Hlines : received_lines now1 now2 o
                     = header_lines o
                         ++ alternative_group (boundary_of now1) (opt_body o) html).
    { rewrite (received_lines_pieces now1 now2 o Hh). f_equal.
      unfold body_structure. rewrite Hatt, Ht, Hhtml. cbn [str_of].
      apply lines_of_single_lines, alternative_group_single_line.
      exact (proj1 (boundary_single_line now1)). }
    rewrite Hlines. unfold alternative_group.
    destruct (header_block_with_type (header_lines o)
                ("Content-Type: multipart/alternative; boundary="
                   +++ quoted (boundary_of now1))
                (multipart (boundary_of now1)
                   [text_part "plain" (opt_body o); text_part "html" html]))
      as [Hblock Hbody]; [now apply header_lines_not_empty_lines | discriminate |].
    rewrite Hblock, Hbody. split; [reflexivity|].
    apply multipart_parts_multipart. constructor; [apply text_part_no_delimiter|].
    constructor; [apply text_part_no_delimiter | constructor].
  - intros Hatt.
    destruct (boundary_single_line now1) as [Hb _].
    assert (Hlines : received_lines now1 now2 o
                     = header_lines o
                         ++ [ "Content-Type: multipart/mixed; boundary="
                                +++ quoted (boundary_of now1); "" ]
                         ++ flat_map lines_of
                              (multipart (boundary_of now1)
                                 (alternative_group (altBoundary_of now2) (opt_body o) html
                                    :: map attachment_part
                                         (arr_or_empty (opt_attachments o))))).
    { rewrite (received_lines_pieces now1 now2 o Hh). f_equal.
      unfold body_structure. rewrite Hatt, Ht, Hhtml. cbn [str_of].
      rewrite flat_map_app. f_equal.
      apply lines_of_single_lines. cbn [forallb].
      now rewrite single_line_app, (quoted_single_line _ Hb). }
    destruct (header_block_with_type (header_lines o)
                ("Content-Type: multipart/mixed; boundary=" +++ quoted (boundary_of now1))
                (flat_map lines_of
                   (multipart (boundary_of now1)
                      (alternative_group (altBoundary_of now2) (opt_body o) html
                         :: map attachment_part (arr_or_empty (opt_attachments o))))))
      as [Hblock Hbody]; [now apply header_lines_not_empty_lines | discriminate |].
    rewrite Hlines, Hblock, Hbody.
    rewrite (mixed_first_part _ _ _ Hb).
    + split; [reflexivity|]. apply alternative_group_read.
    + apply lines_of_single_lines, alternative_group_single_line.
      exact (proj2 (boundary_single_line now2)).
    + apply alternative_group_no_delimiter.
Qed.

(** A message with both bodies and no attachment, and one with an
    attachment whose content spells a delimiter line. *)
Lemma plain_part_before_html_part_witness :
  multipart_parts "boundary_1700000000000"
    (body_of (received_lines 1700000000000 1700000000000 Examples.both_bodies))
  = [text_part "plain" "hi there"; text_part "html" "<p>hi there</p>"]
  /\ multipart_parts "alt_boundary_1700000000001"
       (body_of
          (hd [] (multipart_parts "boundary_1700000000000"
                    (body_of (received_lines 1700000000000 1700000000001
                                MoreExamples.both_bodies_with_attachment)))))
     = [text_part "plain" "hi there"; text_part "html" "<p>hi there</p>"].
Proof.
  assert (Hne : "<p>hi there</p>" <> "") by discriminate.
  split.
  - exact (proj2 (proj1 (plain_part_before_html_part 1700000000000 1700000000000
                           Examples.both_bodies "<p>hi there</p>" eq_refl Hne eq_refl)
                    eq_refl)).
  - exact (proj2 (proj2 (proj1 (proj2 (plain_part_before_html_part
                                         1700000000000 1700000000001
                                         MoreExamples.both_bodies_with_attachment
                                         "<p>hi there</p>" eq_refl Hne eq_refl))
                           eq_refl))).
Defined.
End AlternativeClaim.

(* ====================================================================== *)
(** * Part IV. Further properties of the code                              *)
(* ====================================================================== *)

(** ** The base64url helpers *)

Section CodecProperties.
Import Buffer Base64Facts.

Lemma length_string_of_list_ascii (l : list ascii) :
  String.length (string_of_list_ascii l) = List.length l.
Proof. induction l as [|c l IH]; simpl; [reflexivity | now rewrite IH]. Qed.

Lemma sextets_of_bytes_length (s : string) :
  List.length (sextets_of_bytes s) = (4 * String.length s + 2) / 3.
Proof.
  induction s as [| a | a b | a b c r IH] using string_ind3;
    try reflexivity.
  cbn [sextets_of_bytes List.length String.length]. rewrite IH.
  replace (4 * S (S (S (String.length r))) + 2)
    with (4 * String.length r + 2 + 4 * 3) by lia.
  rewrite Nat.div_add by discriminate. lia.
Qed.

(** One character of the decoder's input may be replaced by its
    standard-alphabet counterpart: the table reads both alike. *)
Lemma of_url_same_value (c : ascii) :
  Ascii.eqb (of_url c) "=" = Ascii.eqb c "=" /\ unbase64 (of_url c) = unbase64 c.
Proof. destruct c as [[] [] [] [] [] [] [] []]; split; reflexivity. Qed.

Lemma replace_url_chars (s : string) :
  replace_char "_" "/" (replace_char "-" "+" s)
  = string_of_list_ascii (map of_url (list_ascii_of_string s)).
Proof. induction s as [|c s IH]; simpl; [reflexivity | now rewrite <- IH]. Qed.

Lemma sextets_of_text_of_url (l : list ascii) :
  sextets_of_text (string_of_list_ascii (map of_url l))
  = sextets_of_text (string_of_list_ascii l).
Proof.
  induction l as [|c l IH]; [reflexivity|].
  cbn [map string_of_list_ascii sextets_of_text].
  destruct (of_url_same_value c) as [-> ->]. now rewrite IH.
Qed.

(** X1. [decodeBase64Url] undoes [encodeBase64Url] on every well-formed
    string (the UTF-8 of a string without unpaired surrogate); so the
    [raw] field that either encoder hands to the provider decodes to its
    lines joined by CRLF, when that text is well-formed. *)
Theorem base64url_roundtrip (data : string) (now1 now2 : Z) (options : EmailOptions)
    (w : Webhook.Options) :
  (well_formed data = true -> decodeBase64Url (encodeBase64Url data) = data)
  /\ (well_formed (join CRLF (email_lines now1 now2 options)) = true ->
      decodeBase64Url (buildRawEmail now1 now2 options)
      = join CRLF (email_lines now1 now2 options))
  /\ (well_formed (join CRLF (Webhook.email_lines now1 w)) = true ->
      decodeBase64Url (Webhook.buildRawEmail now1 w)
      = join CRLF (Webhook.email_lines now1 w)).
Proof.
  repeat split; intros _; apply decodeBase64Url_encodeBase64Url.
Qed.

(** A text with a two-byte character. *)
Lemma base64url_roundtrip_witness :
  well_formed "café" = true
  /\ decodeBase64Url (encodeBase64Url "café") = "café".
Proof.
  split; [reflexivity|].
  exact (proj1 (base64url_roundtrip "café" 0 0 Examples.plain
                  (Webhook.mkOptions "" "" "" [])) eq_refl).
Defined.

(** X2. The output of [encodeBase64Url] is over the URL-safe alphabet
    (letters, digits, [-] and [_]): it has no [+], no [/] and no padding;
    and it has one character per six bits of input, [(4 n + 2) / 3] for
    [n] bytes. *)
Theorem encodeBase64Url_alphabet_and_length (data : string) :
  forallb is_base64url_char (list_ascii_of_string (encodeBase64Url data)) = true
  /\ String.length (encodeBase64Url data) = (4 * String.length data + 2) / 3.
Proof.
  rewrite encodeBase64Url_chars. split.
  - rewrite list_ascii_of_string_of_list_ascii. apply forallb_forall.
    intros c Hc. apply in_map_iff in Hc. destruct Hc as [n [<- Hn]].
    pose proof (sextets_of_bytes_bound data) as Hb.
    rewrite Forall_forall in Hb. specialize (Hb n Hn).
    clear Hn. revert n Hb.
    apply (forall_sextet (fun n => is_base64url_char (to_url (base64_char n)))).
    vm_compute. reflexivity.
  - now rewrite length_string_of_list_ascii, length_map, sextets_of_bytes_length.
Qed.

(** X3. The decoder reads both alphabets alike: rewriting [-] and [_]
    into [+] and [/], as [decodeBase64Url] and download_attachment do,
    does not change the bytes a text decodes to.  So [decodeBase64Url]
    gives the same string for a text and for its rewriting into the
    standard alphabet, and what download_attachment returns decodes to
    the bytes the provider sent, and has no [-] and no [_]. *)
Theorem standard_alphabet_same_bytes (data attachmentId : string) (size : option Z)
    (d : Handlers.Download) :
  from_base64 (replace_char "_" "/" (replace_char "-" "+" data)) = from_base64 data
  /\ decodeBase64Url (replace_char "_" "/" (replace_char "-" "+" data))
     = decodeBase64Url data
  /\ (Handlers.download_result attachmentId (Tools.mkAttachmentData (Some data) size) = inr d ->
      data <> ""
      /\ from_base64 (Handlers.d_base64 d) = from_base64 data
      /\ ~ In "-"%char (list_ascii_of_string (Handlers.d_base64 d))
      /\ ~ In "_"%char (list_ascii_of_string (Handlers.d_base64 d))).
Proof.
  assert (Hany : forall t, from_base64 (replace_char "_" "/" (replace_char "-" "+" t))
                           = from_base64 t).
  { intros t. unfold from_base64. now rewrite replace_url_chars, sextets_of_text_of_url,
      string_of_list_ascii_of_string. }
  pose proof (Hany data) as H.
  split; [exact H|]. split.
  { unfold decodeBase64Url. now rewrite (Hany (replace_char "_" "/" (replace_char "-" "+" data))). }
  unfold Handlers.download_result. cbn [Tools.ad_data Tools.ad_size truthy_opt str_of].
  destruct (truthy data) eqn:Et; cbn [negb]; [| discriminate].
  intros E. injection E as <-. cbn [Handlers.d_base64].
  split; [intros ->; discriminate Et|]. split; [exact H|].
  rewrite replace_url_chars, list_ascii_of_string_of_list_ascii.
  split; intros Hin; apply in_map_iff in Hin; destruct Hin as [c [Hc _]];
    destruct c as [[] [] [] [] [] [] [] []]; discriminate Hc.
Qed.

(** A URL-safe text as the provider sends it. *)
Lemma standard_alphabet_same_bytes_witness :
  Handlers.download_result "att1" (Tools.mkAttachmentData (Some "Pj4_Pz8-") None)
  = inr (Handlers.mkDownload "att1" "Pj4/Pz8+" None)
  /\ from_base64 "Pj4/Pz8+" = from_base64 "Pj4_Pz8-".
Proof.
  split; [reflexivity|].
  exact (proj1 (proj2 (proj2 (proj2
           (standard_alphabet_same_bytes "Pj4_Pz8-" "att1" None
              (Handlers.mkDownload "att1" "Pj4/Pz8+" None))) eq_refl))).
Defined.

End CodecProperties.

(** ** Header lookup *)

Section HeaderProperties.

Lemma getHeader_find (headers : list Header) (name : string) :
  getHeader headers name
  = match find (names_header name) headers with
    | Some h => match h_value h with Some v => v | None => "" end
    | None => ""
    end.
Proof.
  unfold getHeader. fold (names_header name).
  destruct (find (names_header name) headers) as [h|]; [| reflexivity].
  unfold str_or. destruct (h_value h) as [v|]; [| reflexivity].
  unfold truthy. destruct (v =? "")%string eqn:E; [| reflexivity].
  apply String.eqb_eq in E. now subst.
Qed.

Lemma same_letter_table :
  forallb (fun c =>
             forallb (fun d => Bool.eqb (same_letter c d)
                                 (Ascii.eqb (lower_ascii c) (lower_ascii d)))
               (map ascii_of_nat (seq 0 256)))
    (map ascii_of_nat (seq 0 256))
  = true.
Proof. vm_compute. reflexivity. Qed.

Lemma in_all_ascii (c : ascii) : In c (map ascii_of_nat (seq 0 256)).
Proof.
  apply in_map_iff. exists (nat_of_ascii c). split; [apply ascii_nat_embedding|].
  apply in_seq. pose proof (nat_ascii_bounded c). lia.
Qed.

Lemma same_letter_lower (c d : ascii) :
  same_letter c d = Ascii.eqb (lower_ascii c) (lower_ascii d).
Proof.
  pose proof same_letter_table as H.
  rewrite forallb_forall in H. specialize (H c (in_all_ascii c)).
  rewrite forallb_forall in H. specialize (H d (in_all_ascii d)).
  now apply Bool.eqb_prop in H.
Qed.

Lemma same_up_to_case_lower (s t : string) :
  same_up_to_case s t = (toLowerCase s =? toLowerCase t)%string.
Proof.
  revert t. induction s as [|c s IH]; intros [|d t]; try reflexivity.
  cbn [same_up_to_case toLowerCase String.eqb]. rewrite same_letter_lower, IH.
  destruct (Ascii.eqb (lower_ascii c) (lower_ascii d)); reflexivity.
Qed.

Lemma has_name_names_header (name : string) (h : Header) :
  has_name name h = names_header name h.
Proof.
  unfold has_name, names_header. destruct (h_name h) as [n|]; [| reflexivity].
  apply same_up_to_case_lower.
Qed.

Lemma same_up_to_case_trans_find (name name' : string) (h h' : Header) :
  same_up_to_case name name' = true -> same_header h h' ->
  names_header name h = names_header name' h'.
Proof.
  intros Hn [_ Hh]. unfold names_header.
  rewrite same_up_to_case_lower in Hn. apply String.eqb_eq in Hn. rewrite Hn.
  destruct (h_name h) as [n|], (h_name h') as [n'|]; try contradiction; [| reflexivity].
  rewrite same_up_to_case_lower in Hh. apply String.eqb_eq in Hh. now rewrite Hh.
Qed.

(** X4. Header lookup does not see the case of the letters A to Z, on
    either side: two lookup names that differ in it only, in two header
    lists whose headers have the same values and names that differ in it
    only, give the same value. *)
Theorem getHeader_case_insensitive (headers headers' : list Header)
    (name name' : string) :
  same_up_to_case name name' = true ->
  Forall2 same_header headers headers' ->
  getHeader headers name = getHeader headers' name'.
Proof.
  intros Hn H. rewrite !getHeader_find.
  induction H as [|h h' hs hs' Hh _ IH]; [reflexivity|].
  cbn [find]. rewrite <- (same_up_to_case_trans_find name name' h h' Hn Hh).
  destruct (names_header name h); [| exact IH].
  destruct Hh as [-> _]. reflexivity.
Qed.

(** [Subject] looked up as [SUBJECT] in a list that spells it [subject]. *)
Lemma getHeader_case_insensitive_witness :
  getHeader [mkHeader (Some "Subject") (Some "hello")] "SUBJECT"
  = getHeader [mkHeader (Some "subject") (Some "hello")] "Subject"
  /\ getHeader [mkHeader (Some "subject") (Some "hello")] "Subject" = "hello".
Proof.
  split; [| reflexivity].
  apply getHeader_case_insensitive; [reflexivity|].
  repeat constructor.
Defined.

(** X5. For ASCII names: the first header that carries the name looked up
    (the case of the letters A to Z apart) wins, later ones are not
    read; its value is the result, the empty string when it has none.
    Without such a header the result is the empty string.  A message
    without payload or without headers parses to empty [from], [to],
    [subject] and [date]. *)
Theorem getHeader_first_match (headers : list Header) (name : string) (m : Message) :
  (is_ascii name = true -> forallb ascii_name headers = true ->
   (forall pre h post,
       headers = pre ++ h :: post ->
       has_name name h = true ->
       (forall q, In q pre -> has_name name q = false) ->
       getHeader headers name = match h_value h with Some v => v | None => "" end)
   /\ ((forall h, In h headers -> has_name name h = false) ->
       getHeader headers name = ""))
  /\ (headers_of (msg_payload m) = [] ->
      pm_from (parseMessage m) = "" /\ pm_to (parseMessage m) = ""
      /\ pm_subject (parseMessage m) = "" /\ pm_date (parseMessage m) = "").
Proof.
  split; [intros _ _; split|].
  - intros pre h post -> Hh Hpre.
    rewrite getHeader_find, (find_first _ pre post h); [reflexivity | |].
    + now rewrite <- has_name_names_header.
    + intros q Hq. rewrite <- has_name_names_header. now apply Hpre.
  - intros H. rewrite getHeader_find, find_absent; [reflexivity|].
    intros h Hh. rewrite <- has_name_names_header. now apply H.
  - intros H. unfold parseMessage. cbn. rewrite H. repeat split.
Qed.

(** Two [Subject] headers after a nameless one: the first is read. *)
Lemma getHeader_first_match_witness :
  getHeader [mkHeader None (Some "x"); mkHeader (Some "SUBJECT") (Some "first");
             mkHeader (Some "Subject") (Some "second")] "Subject"
  = "first".
Proof.
  apply (proj1 (proj1 (getHeader_first_match
                         [mkHeader None (Some "x");
                          mkHeader (Some "SUBJECT") (Some "first");
                          mkHeader (Some "Subject") (Some "second")]
                         "Subject" Examples.html_then_plain)
                  eq_refl eq_refl)
           [mkHeader None (Some "x")] (mkHeader (Some "SUBJECT") (Some "first"))
           [mkHeader (Some "Subject") (Some "second")] eq_refl eq_refl).
  intros q [<- | []]. reflexivity.
Defined.

(** X6. An entry of search_emails is [parseMessage] of the fetched
    message with the body left out: the two agree on every other field,
    and they are equal exactly when the message holds no body to
    extract. *)
Theorem search_entry_parseMessage (data : Message) :
  Tools.search_entry data
  = (let p := parseMessage data in
     mkParsedMessage (pm_id p) (pm_threadId p) (pm_from p) (pm_to p) (pm_subject p)
       (pm_date p) (pm_snippet p) "" (pm_labels p))
  /\ (Tools.search_entry data = parseMessage data
      <-> extract_body (msg_payload data) = "").
Proof.
  split; [reflexivity|]. split.
  - intros H. apply (f_equal pm_body) in H. cbn [Tools.search_entry parseMessage pm_body] in H.
    now symmetry.
  - intros H. unfold Tools.search_entry, parseMessage. now rewrite H.
Qed.

(** A message fetched with its headers only. *)
Lemma search_entry_parseMessage_witness :
  Tools.search_entry (Examples.subject_headers "hello")
  = parseMessage (Examples.subject_headers "hello").
Proof.
  exact (proj2 (proj2 (search_entry_parseMessage (Examples.subject_headers "hello")))
           eq_refl).
Defined.

End HeaderProperties.

(** ** Calls of the handlers *)

Section CallProperties.
Import Tools Handlers.

(** The calls of the search loop when it runs to its end: one fetch per
    listed message, in order. *)
Lemma search_loop_calls {S : Type} (provider : Provider S)
    (messages : list MessageRef) (results : list ParsedMessage) (s : S)
    (text : ToolText) :
  outcome (run provider
             (rs <- search_loop messages results ;; Ret (JsonMessages rs)) s)
  = inr text ->
  calls (run provider
           (rs <- search_loop messages results ;; Ret (JsonMessages rs)) s)
  = map (fun msg => call (MessagesGet (ref_id msg) "metadata" (Some metadataHeaders)))
      messages.
Proof.
  revert results s. induction messages as [|msg rest IH]; intros results s.
  - reflexivity.
  - cbn [search_loop bind await run map].
    destruct (provider Message
                (MessagesGet (ref_id msg) "metadata" (Some metadataHeaders)) s)
      as [[err | detail] s1]; cbn [outcome calls]; [discriminate|].
    intros H. f_equal. exact (IH _ _ H).
Qed.

(** X7. When the client is made and the provider answers the listing, a
    search_emails call that succeeds has made, in this order: the client,
    the listing with the query and a limit of at most 100 (10 when none
    or 0 is asked), and one metadata fetch per message of that listing,
    in its order and with the four header names; when the listing is
    empty it fetches nothing and answers with the no-match text. *)
Theorem search_emails_calls {S : Type} (provider : Provider S) (s s1 s2 : S)
    (query : string) (maxResults : option Z) (listResult : MessageList)
    (text : ToolText) :
  provider unit GetGmailClient s = (inr tt, s1) ->
  provider MessageList (MessagesList query (search_limit maxResults)) s1
  = (inr listResult, s2) ->
  outcome (run provider (search_emails query maxResults) s) = inr text ->
  calls (run provider (search_emails query maxResults) s)
  = [ call GetGmailClient; call (MessagesList query (search_limit maxResults)) ]
      ++ map (fun msg => call (MessagesGet (ref_id msg) "metadata"
                                 (Some ["From"; "To"; "Subject"; "Date"])))
           (arr_or_empty (list_messages listResult))
  /\ (search_limit maxResults <= 100)%Z
  /\ (maxResults = None \/ maxResults = Some 0%Z -> search_limit maxResults = 10%Z)
  /\ (arr_or_empty (list_messages listResult) = [] ->
      text = Text "No emails found matching your query.").
Proof.
  intros Hclient Hlist.
  unfold search_emails, await. cbn [bind run].
  rewrite Hclient. cbn [outcome calls]. rewrite Hlist. cbn [outcome calls].
  intros H.
  assert (Hlimit : (search_limit maxResults <= 100)%Z)
    by (unfold search_limit; apply Z.le_min_r).
  assert (Hdefault : maxResults = None \/ maxResults = Some 0%Z ->
                     search_limit maxResults = 10%Z)
    by (intros [-> | ->]; reflexivity).
  destruct (arr_or_empty (list_messages listResult)) as [|msg rest] eqn:E.
  - cbn in H |- *. injection H as <-. repeat split; assumption.
  - cbn [List.length Nat.eqb] in H |- *.
    rewrite (search_loop_calls provider (msg :: rest) [] s2 text H).
    repeat split; try assumption. discriminate.
Qed.

(** The listing of two messages. *)
Lemma search_emails_calls_witness :
  calls (run Examples.provider (search_emails "is:unread" (Some 500%Z)) tt)
  = [ call GetGmailClient;
      call (MessagesList "is:unread" 100);
      call (MessagesGet "m1" "metadata" (Some ["From"; "To"; "Subject"; "Date"]));
      call (MessagesGet "m2" "metadata" (Some ["From"; "To"; "Subject"; "Date"])) ].
Proof.
  exact (proj1 (search_emails_calls Examples.provider tt tt tt "is:unread" (Some 500%Z)
                  (mkMessageList (Some [mkMessageRef "m1"; mkMessageRef "m2"]))
                  (JsonMessages (map search_entry [Examples.full_message "m1";
                                                   Examples.full_message "m2"]))
                  eq_refl eq_refl eq_refl)).
Defined.

(** X8. No handler calls the provider without a client: when the client
    cannot be made (the credentials of the request are missing or
    malformed), each handler ends with that error after this one step. *)
Theorem no_call_without_client {S : Type} (provider : Provider S) (s s' : S)
    (err : string) :
  provider unit GetGmailClient s = (inl err, s') ->
  (forall id, run provider (read_email id) s = mkRun [call GetGmailClient] (inl err))
  /\ (forall q n, run provider (search_emails q n) s = mkRun [call GetGmailClient] (inl err))
  /\ (forall id, run provider (get_thread id) s = mkRun [call GetGmailClient] (inl err))
  /\ (forall ids add rem,
        run provider (batch_modify_emails ids add rem) s
        = mkRun [call GetGmailClient] (inl err))
  /\ (forall ids,
        run provider (batch_delete_emails ids) s = mkRun [call GetGmailClient] (inl err))
  /\ (forall a, run provider (create_filter a) s = mkRun [call GetGmailClient] (inl err))
  /\ (forall id body html all,
        run provider (reply_to_email id body html all) s
        = mkRun [call GetGmailClient] (inl err))
  /\ (forall a, run provider (send_email a) s = mkRun [call GetGmailClient] (inl err))
  /\ (forall id, run provider (list_attachments id) s
                 = mkRun [call GetGmailClient] (inl err)).
Proof.
  intros H.
  repeat split; intros;
    unfold read_email, search_emails, get_thread, batch_modify_emails,
      batch_delete_emails, create_filter, reply_to_email, send_email,
      list_attachments, await;
    cbn [bind run]; rewrite H; reflexivity.
Qed.

(** A request without credentials. *)
Lemma no_call_without_client_witness :
  run MoreExamples.no_credentials (send_email MoreExamples.send_args) tt
  = mkRun [call GetGmailClient]
      (inl "Missing required credentials: client_id, client_secret, and refresh_token").
Proof.
  exact (proj1 (proj2 (proj2 (proj2 (proj2 (proj2 (proj2 (proj2
           (no_call_without_client MoreExamples.no_credentials tt tt _ eq_refl))))))))
           MoreExamples.send_args).
Defined.

(** X9. The batch tools forward the first 50 ids at most, in their order,
    whatever the length of the list: a list of at most 50 ids, the empty
    one included, is forwarded as it is; and the text of a call that
    succeeds tells the number forwarded. *)
Theorem batch_forwards_prefix {S : Type} (provider : Provider S) (s : S)
    (messageIds : list string) (addLabels removeLabels : option (list string)) :
  let modify := run provider (batch_modify_emails messageIds addLabels removeLabels) s in
  let delete := run provider (batch_delete_emails messageIds) s in
  let n := Nat.min 50 (List.length messageIds) in
  (forall c ids, In c (calls modify) \/ In c (calls delete) ->
                 forwarded_ids c = Some ids ->
                 ids = firstn 50 messageIds
                 /\ List.length ids = n
                 /\ (List.length messageIds <= 50 -> ids = messageIds))
  /\ (forall text, outcome modify = inr text ->
        text = Text ("Batch modified " +++ length_toString n +++ " emails."))
  /\ (forall text, outcome delete = inr text ->
        text = Text ("Batch deleted " +++ length_toString n +++ " emails.")).
Proof.
  cbv zeta.
  assert (Hn : List.length (slice0 50 messageIds) = Nat.min 50 (List.length messageIds))
    by apply length_firstn.
  assert (Hids : forall ids, ids = slice0 50 messageIds ->
            ids = firstn 50 messageIds
            /\ List.length ids = Nat.min 50 (List.length messageIds)
            /\ (List.length messageIds <= 50 -> ids = messageIds)).
  { intros ids ->. split; [reflexivity|]. split; [exact Hn|].
    intros Hle. now apply firstn_all2. }
  unfold batch_modify_emails, batch_delete_emails, await. cbn [bind run].
  rewrite Hn.
  destruct (provider unit GetGmailClient s) as [[err | []] s1]; cbn [calls outcome].
  - split; [| split]; [| discriminate | discriminate].
    intros c ids [[<- | []] | [<- | []]] E; discriminate E.
  - destruct (provider unit (MessagesBatchModify (slice0 50 messageIds) addLabels
                               removeLabels) s1) as [[err1 | []] s2];
      destruct (provider unit (MessagesBatchDelete (slice0 50 messageIds)) s1)
        as [[err2 | []] s3];
      cbn [calls outcome];
      (split; [| split];
       [ intros c ids [[<- | [<- | []]] | [<- | [<- | []]]] E;
         cbn in E; first [ discriminate E | injection E as <-; now apply Hids ]
       | intros text E; first [ discriminate E | now injection E as <- ]
       | intros text E; first [ discriminate E | now injection E as <- ] ]).
Qed.

(** X22. No tool of the route calls the provider without a client:
    whatever the tool and its arguments, when the client cannot be made
    the handler ends with that error, having asked for nothing else. *)
Theorem no_tool_without_client {S : Type} (provider : Provider S) (s s' : S)
    (err : string) (i : Invocation) :
  provider unit GetGmailClient s = (inl err, s') ->
  run provider (server i) s = mkRun [call GetGmailClient] (inl err).
Proof.
  intros H.
  destruct i; cbn [server result_type];
    unfold send_email, read_email, search_emails, delete_email, trash_email,
      modify_email, list_attachments, download_attachment, create_draft, list_drafts,
      send_draft, delete_draft, list_labels, create_label, update_label, delete_label,
      batch_modify_emails, batch_delete_emails, list_filters, create_filter,
      delete_filter, get_thread, reply_to_email, await;
    cbn [bind run]; rewrite H; reflexivity.
Qed.

(** Listing the labels without credentials. *)
Lemma no_tool_without_client_witness :
  run MoreExamples.no_credentials (server ListLabels) tt
  = mkRun [call GetGmailClient]
      (inl "Missing required credentials: client_id, client_secret, and refresh_token").
Proof.
  exact (no_tool_without_client MoreExamples.no_credentials tt tt _ ListLabels eq_refl).
Defined.

End CallProperties.

(** ** Labels of a filter *)

Section FilterProperties.
Import Tools.

Lemma is_nonempty_false {A} (l : list A) : is_nonempty l = false -> l = [].
Proof. destruct l; [reflexivity | discriminate]. Qed.

(** The two label lists of the action, as the handler leaves them. *)
Lemma filter_action_lists (a : FilterArgs) :
  let addIds :=
    let addIds := arr_or_empty (f_addLabelIds a) in
    let addIds := if truthy_flag (f_star a) then push addIds "STARRED" else addIds in
    if truthy_flag (f_markImportant a) then push addIds "IMPORTANT" else addIds in
  let removeIds :=
    let removeIds := arr_or_empty (f_removeLabelIds a) in
    let removeIds := if truthy_flag (f_markRead a) then push removeIds "UNREAD"
                     else removeIds in
    if truthy_flag (f_archive a) then push removeIds "INBOX" else removeIds in
  addLabelIds (filter_action a)
  = (if is_nonempty addIds then Some addIds
     else if truthy_flag (f_trash a)
          then Some (arr_or_empty (f_addLabelIds a) ++ ["TRASH"])
          else f_addLabelIds a)
  /\ removeLabelIds (filter_action a)
     = (if is_nonempty removeIds then Some removeIds else f_removeLabelIds a).
Proof.
  cbv zeta. unfold filter_action.
  destruct (truthy_flag (f_trash a));
    match goal with
    | |- context [is_nonempty ?l] =>
        destruct (is_nonempty l);
        match goal with
        | |- context [is_nonempty ?l'] => destruct (is_nonempty l')
        end
    end; split; reflexivity.
Qed.

(** X10. The action that create_filter sends keeps every explicit
    add-label and every explicit remove-label; [star] and [markImportant]
    always add [STARRED] and [IMPORTANT], [markRead] and [archive] always
    remove [UNREAD] and [INBOX]; and no label is added or removed that was
    not asked for, explicitly or by its shorthand. *)
Theorem filter_action_labels (a : FilterArgs) :
  let added := arr_or_empty (addLabelIds (filter_action a)) in
  let removed := arr_or_empty (removeLabelIds (filter_action a)) in
  (forall l, In l (arr_or_empty (f_addLabelIds a)) -> In l added)
  /\ (forall l, In l (arr_or_empty (f_removeLabelIds a)) -> In l removed)
  /\ (f_star a = Some true -> In "STARRED" added)
  /\ (f_markImportant a = Some true -> In "IMPORTANT" added)
  /\ (f_markRead a = Some true -> In "UNREAD" removed)
  /\ (f_archive a = Some true -> In "INBOX" removed)
  /\ (forall l, In l added ->
        In l (arr_or_empty (f_addLabelIds a))
        \/ (l = "STARRED" /\ f_star a = Some true)
        \/ (l = "IMPORTANT" /\ f_markImportant a = Some true)
        \/ (l = "TRASH" /\ f_trash a = Some true))
  /\ (forall l, In l removed ->
        In l (arr_or_empty (f_removeLabelIds a))
        \/ (l = "UNREAD" /\ f_markRead a = Some true)
        \/ (l = "INBOX" /\ f_archive a = Some true)).
Proof.
  cbv zeta. destruct (filter_action_lists a) as [Hadd Hrem].
  cbv zeta in Hadd, Hrem. rewrite Hadd, Hrem. clear Hadd Hrem. unfold push.
  assert (Hflag : forall o, truthy_flag o = true -> o = Some true).
  { intros [[|]|] H; [reflexivity | discriminate | discriminate]. }
  assert (Hflag' : forall o, o = Some true -> truthy_flag o = true) by (now intros o ->).
  repeat split.
  - intros l Hl.
    destruct (is_nonempty _) eqn:E.
    + cbn [arr_or_empty]. destruct (truthy_flag (f_star a)), (truthy_flag (f_markImportant a));
        rewrite ?in_app_iff; auto.
    + apply is_nonempty_false in E.
      destruct (truthy_flag (f_star a)), (truthy_flag (f_markImportant a));
        try (apply app_eq_nil in E; destruct E as [_ E]; discriminate E).
      rewrite E in Hl. contradiction.
  - intros l Hl.
    destruct (is_nonempty _) eqn:E.
    + cbn [arr_or_empty]. destruct (truthy_flag (f_markRead a)), (truthy_flag (f_archive a));
        rewrite ?in_app_iff; auto.
    + apply is_nonempty_false in E.
      destruct (truthy_flag (f_markRead a)), (truthy_flag (f_archive a));
        try (apply app_eq_nil in E; destruct E as [_ E]; discriminate E).
      rewrite E in Hl. contradiction.
  - intros H. rewrite (Hflag' _ H).
    destruct (truthy_flag (f_markImportant a));
      match goal with
      | |- context [is_nonempty ?l] => destruct l eqn:E
      end; try (apply app_eq_nil in E; destruct E as [? E]; try discriminate E;
                match goal with H0 : _ ++ _ = [] |- _ =>
                  apply app_eq_nil in H0; destruct H0 as [_ H0]; discriminate H0 end);
      cbn [is_nonempty arr_or_empty]; rewrite <- E, ?in_app_iff; cbn; auto.
  - intros H. rewrite (Hflag' _ H).
    match goal with
    | |- context [is_nonempty ?l] => destruct l eqn:E
    end; [apply app_eq_nil in E; destruct E as [_ E]; discriminate E|].
    cbn [is_nonempty arr_or_empty]. rewrite <- E, in_app_iff. cbn. auto.
  - intros H. rewrite (Hflag' _ H).
    destruct (truthy_flag (f_archive a));
      match goal with
      | |- context [is_nonempty ?l] => destruct l eqn:E
      end; try (apply app_eq_nil in E; destruct E as [? E]; try discriminate E;
                match goal with H0 : _ ++ _ = [] |- _ =>
                  apply app_eq_nil in H0; destruct H0 as [_ H0]; discriminate H0 end);
      cbn [is_nonempty arr_or_empty]; rewrite <- E, ?in_app_iff; cbn; auto.
  - intros H. rewrite (Hflag' _ H).
    match goal with
    | |- context [is_nonempty ?l] => destruct l eqn:E
    end; [apply app_eq_nil in E; destruct E as [_ E]; discriminate E|].
    cbn [is_nonempty arr_or_empty]. rewrite <- E, in_app_iff. cbn. auto.
  - intros l.
    destruct (is_nonempty _) eqn:E.
    + cbn [arr_or_empty].
      destruct (truthy_flag (f_star a)) eqn:Es,
               (truthy_flag (f_markImportant a)) eqn:Ei;
        rewrite ?in_app_iff; cbn [In];
        try apply Hflag in Es; try apply Hflag in Ei; intuition auto.
    + destruct (truthy_flag (f_trash a)) eqn:Et.
      * cbn [arr_or_empty]. rewrite in_app_iff. cbn [In].
        apply Hflag in Et. intuition auto.
      * auto.
  - intros l.
    destruct (is_nonempty _) eqn:E.
    + cbn [arr_or_empty].
      destruct (truthy_flag (f_markRead a)) eqn:Er,
               (truthy_flag (f_archive a)) eqn:Ea;
        rewrite ?in_app_iff; cbn [In];
        try apply Hflag in Er; try apply Hflag in Ea; intuition auto.
    + auto.
Qed.

(** Every shorthand but [trash], with an explicit label of each kind. *)
Lemma filter_action_labels_witness :
  filter_action MoreExamples.every_shorthand
  = mkAction (Some ["Label_1"; "STARRED"; "IMPORTANT"])
      (Some ["Label_2"; "UNREAD"; "INBOX"]) None
  /\ In "STARRED"
       (arr_or_empty (addLabelIds (filter_action MoreExamples.every_shorthand))).
Proof.
  split; [reflexivity|].
  exact (proj1 (proj2 (proj2 (filter_action_labels MoreExamples.every_shorthand)))
           eq_refl).
Defined.

End FilterProperties.

(** ** Replies and sends *)

Section ReplyProperties.
Import Tools Handlers.

(** X11. The subject of a reply always starts with [Re:], an original
    subject that starts with [Re:] is kept as it is, and replying to a
    reply adds nothing: the rule is idempotent. *)
Theorem reply_subject_idempotent (origSubject : string) :
  startsWith (reply_subject origSubject) "Re:" = true
  /\ (startsWith origSubject "Re:" = true -> reply_subject origSubject = origSubject)
  /\ (startsWith origSubject "Re:" = false ->
      reply_subject origSubject = "Re: " +++ origSubject)
  /\ reply_subject (reply_subject origSubject) = reply_subject origSubject.
Proof.
  assert (H : startsWith (reply_subject origSubject) "Re:" = true).
  { unfold reply_subject. destruct (startsWith origSubject "Re:") eqn:E;
      [exact E | reflexivity]. }
  split; [exact H|]. repeat split.
  - intros E. unfold reply_subject. now rewrite E.
  - intros E. unfold reply_subject. now rewrite E.
  - unfold reply_subject at 1. now rewrite H.
Qed.

(** A subject that starts with [Re:] without a space, and one in capital
    letters. *)
Lemma reply_subject_idempotent_witness :
  reply_subject "Re:hello" = "Re:hello" /\ reply_subject "RE: hello" = "Re: RE: hello".
Proof.
  split.
  - exact (proj1 (proj2 (reply_subject_idempotent "Re:hello")) eq_refl).
  - exact (proj1 (proj2 (proj2 (reply_subject_idempotent "RE: hello"))) eq_refl).
Defined.

Lemma in_header_lines_to (o : EmailOptions) : In ("To: " +++ opt_to o) (header_lines o).
Proof. unfold header_lines. apply in_or_app. left. now left. Qed.

Lemma in_header_lines_inReplyTo (o : EmailOptions) :
  truthy_opt (opt_inReplyTo o) = true ->
  In ("In-Reply-To: " +++ str_of (opt_inReplyTo o)) (header_lines o).
Proof.
  intros H. unfold header_lines. rewrite H.
  repeat (apply in_or_app; first [ left; now left | right ]).
Qed.

Lemma in_header_lines_references (o : EmailOptions) :
  truthy_opt (opt_references o) = true ->
  In ("References: " +++ str_of (opt_references o)) (header_lines o).
Proof.
  intros H. unfold header_lines. rewrite H.
  repeat (apply in_or_app; first [ left; now left | right ]).
Qed.

(** X12. When the client is made, the provider answers the fetch of the
    original and the clock is read twice, reply_to_email sends exactly
    one message, built from that original, into its thread.  The message
    is addressed to the sender of the original; when the original has a
    Message-ID it names it in In-Reply-To and puts it last in References,
    after the References of the original; and it has copy recipients
    only when [replyAll] is set, namely the non-empty ones of the
    original's To and Cc. *)
Theorem reply_to_email_threading {S : Type} (provider : Provider S) (s s1 s2 s3 s4 : S)
    (messageId body : string) (htmlBody : option string) (replyAll : option bool)
    (origData : Message) (now1 now2 : Z) :
  provider unit GetGmailClient s = (inr tt, s1) ->
  provider Message (MessagesGet messageId "metadata" (Some reply_headers)) s1
  = (inr origData, s2) ->
  provider Z DateNow s2 = (inr now1, s3) ->
  provider Z DateNow s3 = (inr now2, s4) ->
  let options := reply_options origData body htmlBody replyAll in
  let headers := headers_of (msg_payload origData) in
  let lines := email_lines now1 now2 options in
  calls (run provider (reply_to_email messageId body htmlBody replyAll) s)
  = [ call GetGmailClient;
      call (MessagesGet messageId "metadata" (Some reply_headers));
      call DateNow;
      call DateNow;
      call (MessagesSend (buildRawEmail now1 now2 options)
              (Some (msg_threadId origData))) ]
  /\ In ("To: " +++ getHeader headers "From") lines
  /\ (getHeader headers "Message-ID" <> "" ->
      In ("In-Reply-To: " +++ getHeader headers "Message-ID") lines
      /\ In ("References: "
               +++ (if truthy (getHeader headers "References")
                    then getHeader headers "References" +++ " "
                           +++ getHeader headers "Message-ID"
                    else getHeader headers "Message-ID")) lines)
  /\ opt_cc options
     = (if truthy_flag replyAll
        then Some (filter truthy [getHeader headers "To"; getHeader headers "Cc"])
        else None).
Proof.
  intros Hclient Hget Hnow1 Hnow2. cbv zeta.
  split.
  { unfold reply_to_email, await. cbn [bind run].
    rewrite Hclient. cbn [calls outcome]. rewrite Hget. cbn [calls outcome].
    rewrite Hnow1. cbn [calls outcome]. rewrite Hnow2. cbn [calls outcome].
    destruct (provider Created _ s4) as [[err | created] s5]; reflexivity. }
  rewrite email_lines_shape.
  split; [| split].
  - apply in_or_app. left.
    exact (in_header_lines_to (reply_options origData body htmlBody replyAll)).
  - intros Hid.
    assert (Ht : truthy (getHeader (headers_of (msg_payload origData)) "Message-ID") = true).
    { unfold truthy. apply negb_true_iff, String.eqb_neq. exact Hid. }
    split; apply in_or_app; left.
    + apply (in_header_lines_inReplyTo (reply_options origData body htmlBody replyAll)).
      exact Ht.
    + apply (in_header_lines_references (reply_options origData body htmlBody replyAll)).
      cbn [reply_options opt_references truthy_opt].
      destruct (truthy (getHeader (headers_of (msg_payload origData)) "References"))
        eqn:Er; [| exact Ht].
      destruct (getHeader (headers_of (msg_payload origData)) "References");
        [discriminate Er | reflexivity].
  - reflexivity.
Qed.

(** A reply to a message of thread [t1]. *)
Lemma reply_to_email_threading_witness :
  calls (run Examples.provider (reply_to_email "m1" "ok" None None) tt)
  = [ call GetGmailClient;
      call (MessagesGet "m1" "metadata" (Some reply_headers));
      call DateNow;
      call DateNow;
      call (MessagesSend
              (buildRawEmail 1700000000000 1700000000000
                 (reply_options (Examples.full_message "m1") "ok" None None))
              (Some "t1")) ].
Proof.
  exact (proj1 (reply_to_email_threading Examples.provider tt tt tt tt tt "m1" "ok" None None
                  (Examples.full_message "m1") 1700000000000 1700000000000
                  eq_refl eq_refl eq_refl eq_refl)).
Defined.



End ReplyProperties.

(** ** Attachment discovery *)

Section AttachmentProperties.
Import Tools Handlers.

Lemma fold_visit_parts (parts : list Part) (attachments : list AttachmentInfo) :
  Forall (fun p => forall acc, visit_part p acc = acc ++ attachments_in p) parts ->
  fold_left (fun acc p => visit_part p acc) parts attachments
  = attachments ++ flat_map attachments_in parts.
Proof.
  intros H. revert attachments.
  induction H as [|p parts Hp _ IH]; intros attachments; cbn [fold_left flat_map].
  - now rewrite app_nil_r.
  - now rewrite IH, Hp, app_assoc.
Qed.

(** A visit appends the attachments of the part and of its sub-parts to
    what was found before. *)
Lemma visit_part_appends (part : Part) (attachments : list AttachmentInfo) :
  visit_part part attachments = attachments ++ attachments_in part.
Proof.
  revert attachments. induction part as [m f b | m f b parts IH] using Part_induction;
    intros attachments; cbn [visit_part attachments_in]; unfold push.
  - destruct (is_attachment _); now rewrite ?app_nil_r.
  - rewrite (fold_visit_parts parts _ IH).
    destruct (is_attachment _); now rewrite <- ?app_assoc.
Qed.

Lemma attachment_info_filled (part : Part) :
  is_attachment part = true ->
  a_id (attachment_info part) <> "" /\ a_filename (attachment_info part) <> ""
  /\ a_mimeType (attachment_info part) <> "".
Proof.
  unfold is_attachment, attachment_info. cbn [a_id a_filename a_mimeType].
  intros H. apply andb_prop in H. destruct H as [Hf Hi].
  assert (Hne : forall o, truthy_opt o = true -> str_of o <> "").
  { intros [[|c r]|] Ho; try discriminate Ho. cbn. discriminate. }
  split; [exact (Hne _ Hi)|]. split; [exact (Hne _ Hf)|].
  unfold str_or. destruct (part_mimeType part) as [t|]; [| discriminate].
  destruct (truthy t) eqn:Et; [| discriminate].
  intros ->. discriminate Et.
Qed.

Lemma attachments_in_filled (part : Part) :
  Forall (fun i => a_id i <> "" /\ a_filename i <> "" /\ a_mimeType i <> "")
    (attachments_in part)
  /\ List.length (attachments_in part) <= part_count part.
Proof.
  induction part as [m f b | m f b parts IH] using Part_induction;
    cbn [attachments_in part_count].
  - rewrite app_nil_r.
    destruct (is_attachment _) eqn:E; split; try constructor; cbn; try lia.
    + exact (attachment_info_filled _ E).
    + constructor.
  - assert (Hall : Forall (fun i => a_id i <> "" /\ a_filename i <> "" /\ a_mimeType i <> "")
                     (flat_map attachments_in parts)
                   /\ List.length (flat_map attachments_in parts)
                      <= list_sum (map part_count parts)).
    { induction IH as [|p parts [Hp Hlen] _ [IH1 IH2]]; cbn [flat_map map list_sum fold_right].
      - split; [constructor | apply Nat.le_refl].
      - split; [now apply Forall_app|]. rewrite length_app.
        fold (list_sum (map part_count parts)). lia. }
    destruct Hall as [Hall Hlen].
    rewrite length_app.
    destruct (is_attachment _) eqn:E; split; cbn [app List.length]; try lia.
    + constructor; [exact (attachment_info_filled _ E) | exact Hall].
    + exact Hall.
Qed.

(** X14. Attachment discovery walks the tree of parts depth first: what
    [findAttachments] adds to the shared array is, for the parts in array
    order, each part that is an attachment followed by the attachments of
    its sub-parts, at any depth; entries found before stay in place.
    Every entry has a file name, an attachment id and a type (the generic
    binary type when the part has none), and there are no more entries
    than parts.  When the client is made and the provider answers the
    fetch, list_attachments answers with the attachments of that very
    message, and with the no-attachment sentence exactly when there is
    none. *)
Theorem findAttachments_depth_first {S : Type} (provider : Provider S) (s s1 s2 : S)
    (parts : list Part) (attachments : list AttachmentInfo) (messageId : string)
    (message : Message) :
  findAttachments (Some parts) attachments
  = attachments ++ flat_map attachments_in parts
  /\ findAttachments None attachments = attachments
  /\ Forall (fun i => a_id i <> "" /\ a_filename i <> "" /\ a_mimeType i <> "")
       (flat_map attachments_in parts)
  /\ List.length (flat_map attachments_in parts) <= list_sum (map part_count parts)
  /\ (provider unit GetGmailClient s = (inr tt, s1) ->
      provider Message (MessagesGet messageId "full" None) s1 = (inr message, s2) ->
      let found :=
        match msg_payload message with
        | Some p => flat_map attachments_in (arr_or_empty (pl_parts p))
        | None => []
        end in
      run provider (list_attachments messageId) s
      = mkRun [call GetGmailClient; call (MessagesGet messageId "full" None)]
          (inr (if (List.length found =? 0)%nat
                then AttachmentsNote "No attachments found on this message."
                else AttachmentsJson found))).
Proof.
  assert (Hfind : forall ps acc,
             findAttachments (Some ps) acc = acc ++ flat_map attachments_in ps).
  { intros ps acc. unfold findAttachments. apply fold_visit_parts.
    apply Forall_forall. intros p _ acc'. apply visit_part_appends. }
  split; [apply Hfind|]. split; [reflexivity|].
  assert (Hall : Forall (fun i => a_id i <> "" /\ a_filename i <> "" /\ a_mimeType i <> "")
                   (flat_map attachments_in parts)
                 /\ List.length (flat_map attachments_in parts)
                    <= list_sum (map part_count parts)).
  { induction parts as [|p ps [IH1 IH2]]; cbn [flat_map map list_sum fold_right].
    - split; [constructor | apply Nat.le_refl].
    - destruct (attachments_in_filled p) as [Hp Hlen].
      split; [now apply Forall_app|]. rewrite length_app.
      fold (list_sum (map part_count ps)). lia. }
  split; [exact (proj1 Hall)|]. split; [exact (proj2 Hall)|].
  intros Hclient Hget. cbv zeta.
  unfold list_attachments, await. cbn [bind run].
  rewrite Hclient. cbn [calls outcome]. rewrite Hget.
  assert (E : findAttachments
                (match msg_payload message with Some p => pl_parts p | None => None end) []
              = match msg_payload message with
                | Some p => flat_map attachments_in (arr_or_empty (pl_parts p))
                | None => []
                end).
  { destruct (msg_payload message) as [p|]; [| reflexivity].
    destruct (pl_parts p) as [ps|]; [| reflexivity].
    now rewrite Hfind. }
  rewrite E.
  destruct (List.length _ =? 0)%nat; reflexivity.
Qed.

(** A part tree three levels deep: the inline image below the nested
    group comes before the PDF that follows the group. *)
Lemma findAttachments_depth_first_witness :
  run (MoreExamples.answering MoreExamples.nested_message) (list_attachments "m1") tt
  = mkRun [call GetGmailClient; call (MessagesGet "m1" "full" None)]
      (inr (AttachmentsJson
              [ mkAttachmentInfo "att2" "logo.png" "application/octet-stream" 0;
                mkAttachmentInfo "att1" "r.pdf" "application/pdf" 1200 ])).
Proof.
  exact (proj2 (proj2 (proj2 (proj2
           (findAttachments_depth_first (MoreExamples.answering MoreExamples.nested_message)
              tt tt tt [] [] "m1" MoreExamples.nested_message))))
           eq_refl eq_refl).
Defined.

End AttachmentProperties.

(** ** Lines of the encoders *)

Section EncoderProperties.

(** The MCP options that correspond to a webhook message. *)
Lemma webhook_lines_as_mcp (now now2 : Z) (w : Webhook.Options) :
  Webhook.o_attachments w <> [] ->
  Webhook.email_lines now w
  = email_lines now now2
      (mkEmailOptions (Webhook.o_to w) (Webhook.o_subject w) (Webhook.o_body w)
         None None None None None None None (Some (Webhook.o_attachments w))).
Proof.
  intros Hne. rewrite email_lines_shape.
  unfold Webhook.email_lines, header_lines, body_structure, multipart, push.
  rewrite fold_push_attachment.
  cbn [opt_to opt_from opt_cc opt_bcc opt_subject opt_inReplyTo opt_references
       opt_attachments opt_htmlBody opt_body truthy_opt nonempty_arr arr_or_empty].
  destruct (Webhook.o_attachments w) as [|att atts]; [contradiction|].
  cbn [nonempty_arr app flat_map]. rewrite flat_map_map.
  rewrite <- !app_assoc. reflexivity.
Qed.



(** X16. The webhook's encoder and the encoder of the MCP route write the
    same raw message for the same recipient, subject, body and
    attachments when there is an attachment (and the clock reads the
    same).  Without attachments they differ: the webhook still writes a
    [multipart/mixed] message, of 11 lines with a single part, where the
    MCP route writes the 7 lines of a single text part. *)
Theorem encoders_agree_with_attachments (now now2 : Z) (w : Webhook.Options) :
  let options :=
    mkEmailOptions (Webhook.o_to w) (Webhook.o_subject w) (Webhook.o_body w)
      None None None None None None None (Some (Webhook.o_attachments w)) in
  (Webhook.o_attachments w <> [] ->
     Webhook.buildRawEmail now w = buildRawEmail now now2 options)
  /\ (Webhook.o_attachments w = [] ->
      Webhook.email_lines now w
      = [ "To: " +++ Webhook.o_to w;
          "Subject: =?UTF-8?B?" +++ base64_of (Webhook.o_subject w) +++ "?=";
          "MIME-Version: 1.0";
          "Content-Type: multipart/mixed; boundary=" +++ quoted (boundary_of now);
          "";
          "--" +++ boundary_of now;
          "Content-Type: text/plain; charset=" +++ quoted "UTF-8";
          "Content-Transfer-Encoding: base64";
          "";
          base64_of (Webhook.o_body w);
          "--" +++ boundary_of now +++ "--" ]
      /\ email_lines now now2 options
         = [ "To: " +++ Webhook.o_to w;
             "Subject: =?UTF-8?B?" +++ base64_of (Webhook.o_subject w) +++ "?=";
             "MIME-Version: 1.0";
             "Content-Type: text/plain; charset=" +++ quoted "UTF-8";
             "Content-Transfer-Encoding: base64";
             "";
             base64_of (Webhook.o_body w) ]).
Proof.
  cbv zeta. split.
  - intros Hne. unfold Webhook.buildRawEmail, buildRawEmail.
    now rewrite (webhook_lines_as_mcp now now2 w Hne).
  - intros E. unfold Webhook.email_lines, email_lines. rewrite E. split; reflexivity.
Qed.

(** One attachment. *)
Lemma encoders_agree_with_attachments_witness :
  Webhook.buildRawEmail 1700000000000
    (Webhook.mkOptions "a@b.com" "Hi" "hi there"
       [mkAttachment "r.pdf" "application/pdf" "QUJD"])
  = buildRawEmail 1700000000000 1700000000001 (Examples.with_attachment "QUJD").
Proof.
  refine (proj1 (encoders_agree_with_attachments 1700000000000 1700000000001
                   (Webhook.mkOptions "a@b.com" "Hi" "hi there"
                      [mkAttachment "r.pdf" "application/pdf" "QUJD"])) _).
  discriminate.
Defined.

End EncoderProperties.

(** ** What the webhook does not read *)

Section WebhookProperties.
Import Webhook.

(** X17. A request that the webhook answers with 401 or 400 never reaches
    the credentials, the clock or the provider: the answer is the same
    under any other provider, clock reading and environment with the
    same webhook secret. *)
Theorem webhook_rejects_before_provider (env env' : Env) (now now' : Z)
    (send send' : Credentials -> string -> Exn string) (request : Request) :
  status (POST env now send request) = 401 \/ status (POST env now send request) = 400 ->
  WEBHOOK_SECRET env' = WEBHOOK_SECRET env ->
  POST env' now' send' request = POST env now send request.
Proof.
  unfold POST. intros H ->.
  destruct (truthy_opt (WEBHOOK_SECRET env)
            && not_bearer (authorization request) (str_of (WEBHOOK_SECRET env)));
    [reflexivity|].
  destruct (json request) as [p | message]; cbn [bind try_catch] in *.
  - destruct (negb (truthy_opt (p_to p)) || negb (truthy_opt (p_subject p))
              || match p_body p with Some _ => false | None => true end);
      [reflexivity|].
    exfalso.
    destruct (getCredentialsFromEnv env) as [creds | message]; cbn [bind] in H.
    + destruct (send creds _) as [id | message]; cbn in H;
        destruct H as [H | H]; discriminate H.
    + cbn in H. destruct H as [H | H]; discriminate H.
  - exfalso. cbn in H. destruct H as [H | H]; discriminate H.
Qed.

(** A request without bearer token, under two providers. *)
Lemma webhook_rejects_before_provider_witness :
  POST Examples.webhook_env 0 (fun _ _ => Throws "down")
    (mkRequest None (Returns Examples.webhook_payload))
  = POST Examples.webhook_env 1700000000000 Examples.webhook_send
      (mkRequest None (Returns Examples.webhook_payload))
  /\ status (POST Examples.webhook_env 1700000000000 Examples.webhook_send
               (mkRequest None (Returns Examples.webhook_payload))) = 401.
Proof.
  split; [| reflexivity].
  apply webhook_rejects_before_provider; [left; reflexivity | reflexivity].
Defined.

(** X18. The webhook answers with one of four statuses, 200, 400, 401 and
    500; with 200 it sends the id of the message and with the others an
    error text. *)
Theorem webhook_statuses (env : Env) (now : Z)
    (send : Credentials -> string -> Exn string) (request : Request) :
  let response := POST env now send request in
  (status response = 200 /\ exists id, payload response = OkBody id)
  \/ ((status response = 400 \/ status response = 401 \/ status response = 500)
      /\ exists error, payload response = ErrorBody error).
Proof.
  cbv zeta. unfold POST.
  destruct (truthy_opt (WEBHOOK_SECRET env)
            && not_bearer (authorization request) (str_of (WEBHOOK_SECRET env)));
    [right; cbn; eauto|].
  destruct (json request) as [p | message]; cbn [bind try_catch]; [| right; cbn; eauto].
  destruct (negb (truthy_opt (p_to p)) || negb (truthy_opt (p_subject p))
            || match p_body p with Some _ => false | None => true end);
    [right; cbn; eauto|].
  destruct (getCredentialsFromEnv env) as [creds | message]; cbn [bind];
    [| right; cbn; eauto].
  destruct (send creds _) as [id | message]; cbn; [left | right]; eauto.
Qed.

End WebhookProperties.

(** ** What the decoder reads *)

Section DecoderProperties.

Lemma decode_data_encoded (text : string) (body : PartBody) :
  pb_data body = Some (encodeBase64Url text) ->
  body_data (Some body) = text.
Proof.
  intros Hd. unfold body_data, decode_data. rewrite Hd.
  destruct (truthy (encodeBase64Url text)) eqn:E.
  - apply decodeBase64Url_encodeBase64Url.
  - unfold truthy in E. apply negb_false_iff, String.eqb_eq in E.
    rewrite <- (decodeBase64Url_encodeBase64Url text), E. reflexivity.
Qed.

(** X19. [parseMessage] reads back what [encodeBase64Url] wrote: for every
    well-formed text, the empty one included, a message delivered with
    the encoded text as the [data] of its top-level body, or of its first
    [text/plain] part, parses to that text, whatever else the body
    record and the message hold beside it. *)
Theorem parseMessage_reads_encoded (text : string) (pre post : list Part)
    (part : Part) (body : PartBody) (top : option PartBody) :
  well_formed text = true ->
  pb_data body = Some (encodeBase64Url text) ->
  pm_body (parseMessage (delivered None (Some body))) = text
  /\ (has_mimeType "text/plain" part = true ->
      (forall q, In q pre -> has_mimeType "text/plain" q = false) ->
      part_body part = Some body ->
      pm_body (parseMessage (delivered (Some (pre ++ part :: post)) top)) = text).
Proof.
  intros _ Hd. split.
  - unfold parseMessage, delivered. cbn [pm_body msg_payload extract_body pl_parts pl_body].
    now apply decode_data_encoded.
  - intros Hplain Hpre Hbody.
    unfold parseMessage, delivered. cbn [pm_body msg_payload extract_body pl_parts].
    rewrite (find_first _ pre post part Hplain Hpre), Hbody.
    now apply decode_data_encoded.
Qed.

(** A text whose encoding uses both URL-safe characters. *)
Lemma parseMessage_reads_encoded_witness :
  encodeBase64Url ">>>???" = "Pj4-Pz8_"
  /\ pm_body (parseMessage
                (delivered
                   (Some [Examples.html_part;
                          mkPart (Some "text/plain") None
                            (Some (mkPartBody (Some "Pj4-Pz8_") None (Some 6%Z)))
                            None])
                   None))
     = ">>>???".
Proof.
  split; [reflexivity|].
  apply (proj2 (parseMessage_reads_encoded ">>>???" [Examples.html_part] []
                  (mkPart (Some "text/plain") None
                     (Some (mkPartBody (Some "Pj4-Pz8_") None (Some 6%Z)))
                     None)
                  (mkPartBody (Some "Pj4-Pz8_") None (Some 6%Z)) None eq_refl eq_refl));
    try reflexivity.
  intros q [<- | []]. reflexivity.
Defined.

Lemma find_same_top_level (m : string) (parts parts' : list Part) :
  Forall2 same_top_level parts parts' ->
  option_map part_body (find (has_mimeType m) parts)
  = option_map part_body (find (has_mimeType m) parts').
Proof.
  induction 1 as [|p p' ps ps' [Hm Hb] _ IH]; [reflexivity|].
  cbn [find]. unfold has_mimeType at 1 3. rewrite Hm.
  destruct (match part_mimeType p' with Some t => (t =? m)%string | None => false end);
    [cbn; now rewrite Hb | exact IH].
Qed.

(** X20. [parseMessage] reads the parts of the first level only: two
    messages whose first-level parts have the same type and the same body,
    one by one, parse to the same body, whatever their sub-parts and their
    top-level body hold.  What lies below the first level is never read. *)
Theorem parseMessage_first_level_only (parts parts' : list Part)
    (body body' : option PartBody) :
  Forall2 same_top_level parts parts' ->
  pm_body (parseMessage (delivered (Some parts) body))
  = pm_body (parseMessage (delivered (Some parts') body')).
Proof.
  intros H. unfold parseMessage, delivered.
  cbn [pm_body msg_payload extract_body pl_parts].
  pose proof (find_same_top_level "text/plain" parts parts' H) as Hp.
  pose proof (find_same_top_level "text/html" parts parts' H) as Hh.
  destruct (find (has_mimeType "text/plain") parts) as [p|],
           (find (has_mimeType "text/plain") parts') as [p'|];
    cbn [option_map] in Hp; try discriminate Hp.
  - injection Hp as ->. reflexivity.
  - destruct (find (has_mimeType "text/html") parts) as [h|],
             (find (has_mimeType "text/html") parts') as [h'|];
      cbn [option_map] in Hh; try discriminate Hh.
    + injection Hh as ->. reflexivity.
    + reflexivity.
Qed.

(** A mixed message whose text parts are inside a nested alternative
    group parses to the empty body, as it does with the group emptied. *)
Lemma parseMessage_first_level_only_witness :
  pm_body (parseMessage
             (delivered
                (Some [mkPart (Some "multipart/alternative") None None
                         (Some [Examples.plain_part; Examples.html_part]);
                       MoreExamples.pdf_part])
                None))
  = pm_body (parseMessage
               (delivered
                  (Some [mkPart (Some "multipart/alternative") None None None;
                         MoreExamples.pdf_part])
                  None))
  /\ pm_body (parseMessage
                (delivered
                   (Some [mkPart (Some "multipart/alternative") None None None;
                          MoreExamples.pdf_part])
                   None))
     = "".
Proof.
  split; [| reflexivity].
  apply parseMessage_first_level_only.
  repeat constructor.
Defined.

End DecoderProperties.

(** ** Lines stay lines *)

Section LineProperties.

(** X21. Every line the encoder writes is a line: when the copied header
    fields and the file names, types and contents of the attachments hold
    no carriage return and no line feed, no line of the output holds one,
    whatever the subject, the bodies and the readings of the clock. *)
Theorem email_lines_single_line (now1 now2 : Z) (o : EmailOptions) :
  single_line_headers o = true ->
  forallb single_line_attachment (arr_or_empty (opt_attachments o)) = true ->
  forallb single_line (email_lines now1 now2 o) = true.
Proof.
  intros Hh Ha. rewrite email_lines_shape, forallb_app.
  apply andb_true_intro; split.
  - apply forallb_forall. intros l Hl.
    pose proof (header_lines_single_line o Hh) as H.
    rewrite Forall_forall in H. exact (proj1 (H l Hl)).
  - now apply body_structure_single_line.
Qed.

(** A message with both bodies and an attachment. *)
Lemma email_lines_single_line_witness :
  forallb single_line
    (email_lines 1700000000000 1700000000001
       (mkEmailOptions "a@b.com" "Hi" "hi there" (Some "<p>hi there</p>")
          (Some ["c@d.com"]) None None None None None
          (Some [mkAttachment "r.pdf" "application/pdf" "QUJD"])))
  = true.
Proof.
  apply email_lines_single_line; reflexivity.
Defined.

End LineProperties.
